(** * Students portal: the REST API's access control and enrollment logic

    A shallow embedding of [reports/api/views.py], [reports/api/permissions.py]
    and [reports/api/serializers.py].  Model instances are records carrying
    their primary key and their foreign keys; the tables are the lists of rows
    a manager's [all()] yields; the many-to-many table [course.students] is a
    finite set of (course id, student id) edges.  Python exceptions are the
    [Raise] branch of [result]; views that write run in the monad [M], which
    threads the database. *)

From stdpp Require Import gmap strings list.
From Stdlib Require Import QArith.

Local Open Scope Z_scope.
Local Open Scope string_scope.

#[local] Set Warnings "-clear-no-such-hyp".

(** ** Model instances *)

Module Profile.
Record t := { role : string; name : string }.
End Profile.

(** [request.user]: [profile] is the reverse one-to-one accessor, absent
    ([hasattr(user, 'profile')] false) when the account has no Profile row. *)
Module User.
Record t := { id : Z; is_authenticated : bool; profile : option Profile.t }.
End User.

Module Student.
Record t := { id : Z; user : Z; name : string; email : string }.
End Student.

Module Course.
Record t := { id : Z; name : string; code : string; credit_units : Z;
  lecturer : string }.
End Course.

Module Grade.
Record t := { id : Z; student : Z; course : Z; np_status : string }.
End Grade.

Module CourseReview.
Record t := { id : Z; course : Z; student : Z; rating : Z; comment : string }.
End CourseReview.

#[global] Instance Student_eq_dec : EqDecision Student.t.
Proof. solve_decision. Defined.
#[global] Instance Course_eq_dec : EqDecision Course.t.
Proof. solve_decision. Defined.
#[global] Instance Grade_eq_dec : EqDecision Grade.t.
Proof. solve_decision. Defined.
#[global] Instance CourseReview_eq_dec : EqDecision CourseReview.t.
Proof. solve_decision. Defined.

(** ** The persistent store *)

Record Database := {
  Student_objects : list Student.t;
  Course_objects : list Course.t;
  Grade_objects : list Grade.t;
  CourseReview_objects : list CourseReview.t;
  (* the highest primary key the review table has handed out *)
  CourseReview_sequence : Z;
  (* the through table of Course.students *)
  course_students : gset (Z * Z)
}.

(** ** Request data and response data *)

(** Parsed request data: a JSON object of integers and strings. *)
Inductive value :=
| Int (z : Z)
| Str (s : string).

Inductive data :=
| Detail (msg : string)
| Errors (field : string) (msg : string)
| Students (l : list Student.t)
| Grades (l : list Grade.t)
| Reviews (l : list CourseReview.t)
| Review (r : CourseReview.t)
| Gpa (student_id : Z) (student_name : string) (gpa cgpa : Q).

(** ** Exceptions and results *)

(** [Http404] carries its message and [ValidationError] the field it is
    about and its message: the exception handler answers with them. *)
Inductive exn :=
| DoesNotExist
| MultipleObjectsReturned
| Http404 (detail : string)
| NotAuthenticated
| PermissionDenied
| ValidationError (field : string) (msg : string)
| IntegrityError
| ZeroDivisionError.

Inductive result (A : Type) :=
| Ok (a : A)
| Raise (e : exn).
Arguments Ok {A} a.
Arguments Raise {A} e.

#[global] Instance result_ret : MRet result := λ A a, Ok a.
#[global] Instance result_bind : MBind result := λ A B f r,
  match r with
  | Ok a => f a
  | Raise e => Raise e
  end.

(** [Model.objects.get(...)]: exactly one matching row, or an exception. *)
Definition get {A} (P : A → Prop) `{∀ x, Decision (P x)}
    (objects : list A) : result A :=
  match filter P objects with
  | [] => Raise DoesNotExist
  | [x] => Ok x
  | _ => Raise MultipleObjectsReturned
  end.

(** [get_object_or_404(queryset, pk=pk)] on a queryset of the model named
    [model] *)
Definition get_object_or_404 {A} (model : string) (P : A → Prop)
    `{∀ x, Decision (P x)} (objects : list A) : result A :=
  match get P objects with
  | Raise DoesNotExist =>
      Raise (Http404 ("No " +:+ model +:+ " matches the given query."))
  | r => r
  end.

(** ** Requests and responses *)

Module Request.
Record t := { user : User.t; method : string;
  query_params : gmap string string; data : gmap string value }.
End Request.

Module Response.
Record t := { data : data; status : Z }.
End Response.
Abbreviation Response := Response.Build_t.

Definition HTTP_200_OK := 200.
Definition HTTP_201_CREATED := 201.
Definition HTTP_400_BAD_REQUEST := 400.
Definition HTTP_401_UNAUTHORIZED := 401.
Definition HTTP_403_FORBIDDEN := 403.
Definition HTTP_404_NOT_FOUND := 404.

(** ** permissions.py *)

Definition has_role (user : User.t) (roles : list string) : bool :=
  match User.profile user with
  | Some p => bool_decide (Profile.role p ∈ roles)
  | None => false
  end.

Inductive permission :=
| IsAuthenticated
| IsStudent
| IsLecturer
| IsAdmin
| IsLecturerOrAdmin
| IsOwnerOrReadOnly.

Definition has_permission (perm : permission) (request : Request.t) : bool :=
  let user := Request.user request in
  match perm with
  | IsAuthenticated => User.is_authenticated user
  | IsStudent => User.is_authenticated user && has_role user ["student"]
  | IsLecturer => User.is_authenticated user && has_role user ["lecturer"]
  | IsAdmin => User.is_authenticated user && has_role user ["admin"]
  | IsLecturerOrAdmin =>
      User.is_authenticated user && has_role user ["lecturer"; "admin"]
  | IsOwnerOrReadOnly => true
  end.

Definition SAFE_METHODS : list string := ["GET"; "HEAD"; "OPTIONS"].

(** [has_object_permission] on an object whose owning account is [owner]
    ([obj.student.user] for a review, [obj.user] for a student); every class
    but [IsOwnerOrReadOnly] inherits the base class's [True]. *)
Definition has_object_permission (perm : permission) (request : Request.t)
    (owner : option Z) : bool :=
  match perm with
  | IsOwnerOrReadOnly =>
      if bool_decide (Request.method request ∈ SAFE_METHODS) then true
      else match owner with
           | Some u => bool_decide (u = User.id (Request.user request))
           | None => false
           end
  | _ => true
  end.

(** [APIView.check_permissions]: the first failing class denies; the denial
    is 401 for a request that did not authenticate and 403 otherwise. *)
Definition permission_denied (request : Request.t) : exn :=
  if User.is_authenticated (Request.user request) then PermissionDenied
  else NotAuthenticated.

Definition check_permissions (perms : list permission) (request : Request.t)
    : result unit :=
  if forallb (λ perm, has_permission perm request) perms then Ok ()
  else Raise (permission_denied request).

Definition check_object_permissions (perms : list permission)
    (request : Request.t) (owner : option Z) : result unit :=
  if forallb (λ perm, has_object_permission perm request owner) perms
  then Ok ()
  else Raise (permission_denied request).

(** [APIView.handle_exception]: the API exceptions become responses, any
    other exception propagates. *)
Definition handle_exception (r : result Response.t) : result Response.t :=
  match r with
  | Raise (Http404 detail) => Ok (Response (Detail detail) HTTP_404_NOT_FOUND)
  | Raise PermissionDenied =>
      Ok (Response (Detail "You do not have permission to perform this action.")
            HTTP_403_FORBIDDEN)
  | Raise NotAuthenticated =>
      Ok (Response (Detail "Authentication credentials were not provided.")
            HTTP_401_UNAUTHORIZED)
  | Raise (ValidationError field msg) =>
      Ok (Response (Errors field msg) HTTP_400_BAD_REQUEST)
  | r => r
  end.

(** ** Views that write: a state and exception monad over the store *)

Definition M (A : Type) : Type := Database → result A * Database.

#[global] Instance M_ret : MRet M := λ A a db, (Ok a, db).
#[global] Instance M_bind : MBind M := λ A B f m db,
  match m db with
  | (Ok a, db') => f a db'
  | (Raise e, db') => (Raise e, db')
  end.

(** A read of the store, which may raise. *)
Definition query {A} (f : Database → result A) : M A := λ db, (f db, db).

(** A write to the store. *)
Definition execute (f : Database → Database) : M unit := λ db, (Ok (), f db).

(** [APIView.dispatch]: permission checks, then the handler, then the
    exception handler. *)
Definition dispatch (perms : list permission) (request : Request.t)
    (handler : M Response.t) : M Response.t := λ db,
  match check_permissions perms request with
  | Raise e => (handle_exception (Raise e), db)
  | Ok _ => let '(r, db') := handler db in (handle_exception r, db')
  end.

(** ** Queries shared by the views *)

(** [Student.objects.get(user=user)] *)
Definition Student_objects_get_user (db : Database) (user : User.t)
    : result Student.t :=
  get (λ s, Student.user s = User.id user) (Student_objects db).

(** [Course.objects.get(id=course_id)] *)
Definition Course_objects_get_id (db : Database) (course_id : Z)
    : result Course.t :=
  get (λ c, Course.id c = course_id) (Course_objects db).

(** [course.students.all()]: the Student rows joined to the course through
    the many-to-many table. *)
Definition course_students_all (db : Database) (course : Course.t)
    : list Student.t :=
  filter (λ s, (Course.id course, Student.id s) ∈ course_students db)
    (Student_objects db).

(** [course.students.add(student)] and [course.students.remove(student)] *)
Definition course_students_add (course : Course.t) (student : Student.t)
    (db : Database) : Database :=
  {| Student_objects := Student_objects db;
     Course_objects := Course_objects db;
     Grade_objects := Grade_objects db;
     CourseReview_objects := CourseReview_objects db;
     CourseReview_sequence := CourseReview_sequence db;
     course_students :=
       {[ (Course.id course, Student.id student) ]} ∪ course_students db |}.

Definition course_students_remove (course : Course.t) (student : Student.t)
    (db : Database) : Database :=
  {| Student_objects := Student_objects db;
     Course_objects := Course_objects db;
     Grade_objects := Grade_objects db;
     CourseReview_objects := CourseReview_objects db;
     CourseReview_sequence := CourseReview_sequence db;
     course_students :=
       course_students db ∖ {[ (Course.id course, Student.id student) ]} |}.

(** [grade.student]: the forward accessor fetches the row of the foreign
    key. *)
Definition Grade_student (db : Database) (grade : Grade.t) : result Student.t :=
  get (λ s, Student.id s = Grade.student grade) (Student_objects db).

(** [Course.objects.filter(lecturer=name)] *)
Definition Course_objects_filter_lecturer (db : Database) (name : string)
    : list Course.t :=
  filter (λ c, Course.lecturer c = name) (Course_objects db).

(** A Python [dict] with integer keys: the items in insertion order.
    Assigning to a key already present keeps its position and replaces its
    value. *)
Fixpoint dict_set {V} (k : Z) (v : V) (d : list (Z * V)) : list (Z * V) :=
  match d with
  | [] => [(k, v)]
  | (k', v') :: d' =>
      if bool_decide (k' = k) then (k, v) :: d' else (k', v') :: dict_set k v d'
  end.

(** [{key(x): x for x in l}] *)
Definition dict_comprehension {V} (key : V → Z) (l : list V) : list (Z * V) :=
  fold_left (λ d x, dict_set (key x) x d) l [].

Definition values {V} (d : list (Z * V)) : list V := d.*2.

(** ** serializers.py *)

(** [IntegerField.to_internal_value]: a JSON integer is itself; a JSON string
    is read by [int_of_string], Python's [int] on the text once the field has
    dropped a trailing ".0", which gives the integer or the field's error
    message. *)
Definition IntegerField (int_of_string : string → Z + string) (data : value)
    : Z + string :=
  match data with
  | Int z => inl z
  | Str s => int_of_string s
  end.

Module EnrollmentSerializer.

Inductive validation :=
| Valid (course_id : Z)
| Invalid (errors : data).

(** [is_valid()]: the [IntegerField] reads [course_id], then
    [validate_course_id] looks the course up; [Course.DoesNotExist] is the
    only exception it catches. *)
Definition is_valid (int_of_string : string → Z + string) (db : Database)
    (data : gmap string value) : result validation :=
  match data !! "course_id" with
  | None => Ok (Invalid (Errors "course_id" "This field is required."))
  | Some raw =>
      match IntegerField int_of_string raw with
      | inr msg => Ok (Invalid (Errors "course_id" msg))
      | inl value =>
          match Course_objects_get_id db value with
          | Ok _ => Ok (Valid value)
          | Raise DoesNotExist =>
              Ok (Invalid (Errors "course_id" "Course does not exist"))
          | Raise e => Raise e
          end
      end
  end.

End EnrollmentSerializer.

Module StudentDetailSerializer.

Definition get_semester_remark (db : Database) (obj : Student.t) : string :=
  let grades := filter (λ g, Grade.student g = Student.id obj) (Grade_objects db) in
  if bool_decide (grades = []) then "No grades yet"
  else if forallb (λ grade, bool_decide (Grade.np_status grade = "NP")) grades
  then "Normal Progress"
  else "Attention Needed".

End StudentDetailSerializer.

(** ** views.py *)

Module StudentViewSet.

Definition get_permissions (action : string) : list permission :=
  if bool_decide
       (action ∈ ["list"; "create"; "update"; "partial_update"; "destroy"])
  then [IsLecturerOrAdmin]
  else [IsAuthenticated].

(** The guard of [enroll] and [unenroll]:
    [hasattr(request.user, 'profile') and request.user.profile.role != 'student'],
    then [student.user != request.user]. *)
Definition not_yourself (request : Request.t) (student : Student.t) : bool :=
  match User.profile (Request.user request) with
  | Some profile =>
      bool_decide (Profile.role profile ≠ "student")
      && bool_decide (Student.user student ≠ User.id (Request.user request))
  | None => false
  end.

Section Detail.

(** The filter backends of the viewset ([SearchFilter] on name and email,
    [OrderingFilter]) are the framework's: from the query parameters of the
    request and a queryset they give the queryset the view works on. *)
Variable filter_queryset :
  gmap string string → list Student.t → result (list Student.t).

(** [self.get_object()]: the row of the URL's [pk] in the filtered queryset,
    or a 404, then the object-level permission checks of the action. *)
Definition get_object (action : string) (request : Request.t) (pk : Z)
    (db : Database) : result Student.t :=
  queryset ← filter_queryset (Request.query_params request) (Student_objects db);
  obj ← get_object_or_404 "Student" (λ s, Student.id s = pk) queryset;
  check_object_permissions (get_permissions action) request
    (Some (Student.user obj));;
  Ok obj.

Section Enrollment.

Variable int_of_string : string → Z + string.

Definition enroll (request : Request.t) (pk : Z) : M Response.t :=
  student ← query (get_object "enroll" request pk);
  if not_yourself request student then
    mret (Response (Detail "You can only enroll yourself") HTTP_403_FORBIDDEN)
  else
    serializer ← query (λ db,
      EnrollmentSerializer.is_valid int_of_string db (Request.data request));
    match serializer with
    | EnrollmentSerializer.Valid course_id =>
        course ← query (λ db, Course_objects_get_id db course_id);
        students ← query (λ db, Ok (course_students_all db course));
        if bool_decide (Student.id student ∈ Student.id <$> students) then
          mret (Response (Detail "Already enrolled in this course")
                  HTTP_400_BAD_REQUEST)
        else
          execute (course_students_add course student);;
          mret (Response
                  (Detail ("Successfully enrolled in " +:+ Course.name course))
                  HTTP_200_OK)
    | EnrollmentSerializer.Invalid errors =>
        mret (Response errors HTTP_400_BAD_REQUEST)
    end.

Definition unenroll (request : Request.t) (pk : Z) : M Response.t :=
  student ← query (get_object "unenroll" request pk);
  if not_yourself request student then
    mret (Response (Detail "You can only unenroll yourself") HTTP_403_FORBIDDEN)
  else
    serializer ← query (λ db,
      EnrollmentSerializer.is_valid int_of_string db (Request.data request));
    match serializer with
    | EnrollmentSerializer.Valid course_id =>
        course ← query (λ db, Course_objects_get_id db course_id);
        students ← query (λ db, Ok (course_students_all db course));
        if bool_decide (Student.id student ∉ Student.id <$> students) then
          mret (Response (Detail "Not enrolled in this course")
                  HTTP_400_BAD_REQUEST)
        else
          execute (course_students_remove course student);;
          mret (Response
                  (Detail ("Successfully unenrolled from " +:+ Course.name course))
                  HTTP_200_OK)
    | EnrollmentSerializer.Invalid errors =>
        mret (Response errors HTTP_400_BAD_REQUEST)
    end.

End Enrollment.

Section Gpa.

(** [reports.utils.calculate_gpa] and [calculate_cgpa] lie outside the
    modules embedded here; the view only passes their results on. *)
Variables calculate_gpa calculate_cgpa : Database → Student.t → Q.

Definition gpa (request : Request.t) (pk : Z) : M Response.t :=
  student ← query (get_object "gpa" request pk);
  gpa ← query (λ db, Ok (calculate_gpa db student));
  cgpa ← query (λ db, Ok (calculate_cgpa db student));
  mret (Response (Gpa (Student.id student) (Student.name student) gpa cgpa)
          HTTP_200_OK).

End Gpa.

End Detail.

End StudentViewSet.

Module CourseViewSet.

Definition get_permissions (action : string) : list permission :=
  if bool_decide (action ∈ ["create"; "update"; "partial_update"; "destroy"])
  then [IsLecturerOrAdmin]
  else [IsAuthenticated].

Section Detail.

(** The filter backends of the viewset ([DjangoFilterBackend] on lecturer,
    [SearchFilter], [OrderingFilter]) are the framework's. *)
Variable filter_queryset :
  gmap string string → list Course.t → result (list Course.t).

Definition get_object (action : string) (request : Request.t) (pk : Z)
    (db : Database) : result Course.t :=
  queryset ← filter_queryset (Request.query_params request) (Course_objects db);
  obj ← get_object_or_404 "Course" (λ c, Course.id c = pk) queryset;
  check_object_permissions (get_permissions action) request None;;
  Ok obj.

Definition students (request : Request.t) (pk : Z) : M Response.t :=
  course ← query (get_object "students" request pk);
  students_from_m2m ← query (λ db, Ok (course_students_all db course));
  students_from_grades ← query (λ db,
    mapM (Grade_student db)
      (filter (λ g, Grade.course g = Course.id course) (Grade_objects db)));
  let students :=
    values (dict_comprehension Student.id
              (students_from_m2m ++ students_from_grades)) in
  mret (Response (Students students) HTTP_200_OK).

End Detail.

End CourseViewSet.

Module GradeViewSet.

Definition get_permissions (action : string) : list permission :=
  if bool_decide (action ∈ ["create"; "update"; "partial_update"; "destroy"])
  then [IsLecturerOrAdmin]
  else [IsAuthenticated].

Definition get_queryset (request : Request.t) (db : Database)
    : result (list Grade.t) :=
  let queryset := Grade_objects db in
  let user := Request.user request in
  match User.profile user with
  | Some profile =>
      if bool_decide (Profile.role profile = "student") then
        match Student_objects_get_user db user with
        | Ok student =>
            Ok (filter (λ g, Grade.student g = Student.id student) queryset)
        | Raise DoesNotExist => Ok []
        | Raise e => Raise e
        end
      else if bool_decide (Profile.role profile = "lecturer") then
        let lecturer_courses :=
          Course_objects_filter_lecturer db (Profile.name profile) in
        Ok (filter (λ g, Grade.course g ∈ Course.id <$> lecturer_courses)
              queryset)
      else Ok queryset
  | None => Ok queryset
  end.

Section List.

(** The filter backends (query parameters [student], [course], [letter],
    [ordering]) and the paginator are the framework's; they pick rows of the
    queryset they are given, as the request's query parameters say. *)
Variables filter_queryset paginate_queryset :
  gmap string string → list Grade.t → list Grade.t.

Definition list (request : Request.t) : M Response.t :=
  queryset ← query (get_queryset request);
  let query_params := Request.query_params request in
  let page :=
    paginate_queryset query_params (filter_queryset query_params queryset) in
  mret (Response (Grades page) HTTP_200_OK).

End List.

End GradeViewSet.

(** Validated serializer data and the keyword arguments of [save]: related
    fields hold model instances. *)
Inductive field_value :=
| FInt (z : Z)
| FStr (s : string)
| FStudent (s : Student.t)
| FCourse (c : Course.t).

(** The row a review [create] inserts: its primary key is the one after the
    highest the table has handed out, so the key of a deleted row is not
    used again. *)
Definition created_review (db : Database) (student : Student.t)
    (course : Course.t) (rating : Z) (comment : string) : CourseReview.t :=
  {| CourseReview.id := 1 + CourseReview_sequence db;
     CourseReview.course := Course.id course;
     CourseReview.student := Student.id student;
     CourseReview.rating := rating;
     CourseReview.comment := comment |}.

(** [CourseReview.objects.create] on the validated data; a column left
    without a value violates its constraint. *)
Definition CourseReview_objects_create
    (validated_data : gmap string field_value) : M CourseReview.t := λ db,
  match validated_data !! "course", validated_data !! "student",
        validated_data !! "rating", validated_data !! "comment" with
  | Some (FCourse course), Some (FStudent student),
    Some (FInt rating), Some (FStr comment) =>
      let instance := created_review db student course rating comment in
      (Ok instance,
       {| Student_objects := Student_objects db;
          Course_objects := Course_objects db;
          Grade_objects := Grade_objects db;
          CourseReview_objects := CourseReview_objects db ++ [instance];
          CourseReview_sequence := CourseReview.id instance;
          course_students := course_students db |})
  | _, _, _, _ => (Raise IntegrityError, db)
  end.

Module CourseReviewSerializer.

Definition validate_rating (value : Z) : result Z :=
  if bool_decide (value < 1 ∨ value > 5)
  then Raise (ValidationError "rating" "Rating must be between 1 and 5")
  else Ok value.

Section Fields.

(** The fields of a [ModelSerializer] are generated from the model
    ([reports.models], outside the modules embedded here): [run_fields] reads
    the writable [Meta.fields] from the request data and raises
    [ValidationError] when one is rejected. *)
Variable run_fields :
  Database → gmap string value → result (gmap string field_value).

(** [is_valid(raise_exception=True)] *)
Definition is_valid (db : Database) (data : gmap string value)
    : result (gmap string field_value) :=
  validated_data ← run_fields db data;
  match validated_data !! "rating" with
  | Some (FInt value) => validate_rating value;; Ok validated_data
  | _ => Ok validated_data
  end.

End Fields.

(** [BaseSerializer.save]: the keyword arguments are merged over the
    serializer's validated data (a key of both takes the keyword argument's
    value), then [create] runs on the merged dict. *)
Definition save (validated_data kwargs : gmap string field_value)
    : M CourseReview.t :=
  CourseReview_objects_create (kwargs ∪ validated_data).

End CourseReviewSerializer.

Module CourseReviewViewSet.

Definition get_permissions (action : string) : list permission :=
  if bool_decide (action = "create") then [IsStudent]
  else [IsAuthenticated; IsOwnerOrReadOnly].

Definition perform_create (request : Request.t)
    (validated_data : gmap string field_value) : M CourseReview.t :=
  student ← query (λ db, Student_objects_get_user db (Request.user request));
  CourseReviewSerializer.save validated_data {[ "student" := FStudent student ]}.

Definition get_queryset (request : Request.t) (db : Database)
    : result (list CourseReview.t) :=
  let queryset := CourseReview_objects db in
  let user := Request.user request in
  match User.profile user with
  | Some profile =>
      if bool_decide (Profile.role profile = "student") then Ok queryset
      else if bool_decide (Profile.role profile = "lecturer") then
        let lecturer_courses :=
          Course_objects_filter_lecturer db (Profile.name profile) in
        Ok (filter (λ r, CourseReview.course r ∈ Course.id <$> lecturer_courses)
              queryset)
      else Ok queryset
  | None => Ok queryset
  end.

Section Actions.

Variable run_fields :
  Database → gmap string value → result (gmap string field_value).
Variables filter_queryset paginate_queryset :
  gmap string string → list CourseReview.t → list CourseReview.t.

(** [CreateModelMixin.create] *)
Definition create (request : Request.t) : M Response.t :=
  validated_data ← query (λ db,
    CourseReviewSerializer.is_valid run_fields db (Request.data request));
  instance ← perform_create request validated_data;
  mret (Response (Review instance) HTTP_201_CREATED).

Definition list (request : Request.t) : M Response.t :=
  queryset ← query (get_queryset request);
  let query_params := Request.query_params request in
  let page :=
    paginate_queryset query_params (filter_queryset query_params queryset) in
  mret (Response (Reviews page) HTTP_200_OK).

End Actions.

End CourseReviewViewSet.

(** ** The operations of the API: a viewset action behind [dispatch] *)

Definition enrollSelf
    (filter_queryset :
       gmap string string → list Student.t → result (list Student.t))
    (int_of_string : string → Z + string)
    (request : Request.t) (pk : Z) : M Response.t :=
  dispatch (StudentViewSet.get_permissions "enroll") request
    (StudentViewSet.enroll filter_queryset int_of_string request pk).

Definition unenrollSelf
    (filter_queryset :
       gmap string string → list Student.t → result (list Student.t))
    (int_of_string : string → Z + string)
    (request : Request.t) (pk : Z) : M Response.t :=
  dispatch (StudentViewSet.get_permissions "unenroll") request
    (StudentViewSet.unenroll filter_queryset int_of_string request pk).

Definition getStudentGpa
    (filter_queryset :
       gmap string string → list Student.t → result (list Student.t))
    (calculate_gpa calculate_cgpa : Database → Student.t → Q)
    (request : Request.t) (pk : Z) : M Response.t :=
  dispatch (StudentViewSet.get_permissions "gpa") request
    (StudentViewSet.gpa filter_queryset calculate_gpa calculate_cgpa request pk).

Definition listCourseStudents
    (filter_queryset :
       gmap string string → list Course.t → result (list Course.t))
    (request : Request.t) (pk : Z) : M Response.t :=
  dispatch (CourseViewSet.get_permissions "students") request
    (CourseViewSet.students filter_queryset request pk).

(** The detail lookup of a request finds [obj]: the filter backends answer a
    queryset made of rows of the table, and exactly one of its rows
    satisfies [P], namely [obj]. *)
Definition finds {A}
    (filter_queryset : gmap string string → list A → result (list A))
    (request : Request.t) (table : list A) (P : A → Prop)
    `{∀ x, Decision (P x)} (obj : A) : Prop :=
  ∃ queryset,
    filter_queryset (Request.query_params request) table = Ok queryset
    ∧ queryset ⊆ table
    ∧ get P queryset = Ok obj.

(** The detail lookup of a request finds nothing: no row of the filtered
    queryset satisfies [P]. *)
Definition finds_none {A}
    (filter_queryset : gmap string string → list A → result (list A))
    (request : Request.t) (table : list A) (P : A → Prop) : Prop :=
  ∃ queryset,
    filter_queryset (Request.query_params request) table = Ok queryset
    ∧ ∀ x, x ∈ queryset → ¬ P x.

Definition listGrades
    (filter_queryset paginate_queryset :
       gmap string string → list Grade.t → list Grade.t)
    (request : Request.t) : M Response.t :=
  dispatch (GradeViewSet.get_permissions "list") request
    (GradeViewSet.list filter_queryset paginate_queryset request).

Definition listCourseReviews
    (filter_queryset paginate_queryset :
       gmap string string → list CourseReview.t → list CourseReview.t)
    (request : Request.t) : M Response.t :=
  dispatch (CourseReviewViewSet.get_permissions "list") request
    (CourseReviewViewSet.list filter_queryset paginate_queryset request).

Definition createReview
    (run_fields : Database → gmap string value → result (gmap string field_value))
    (request : Request.t) : M Response.t :=
  dispatch (CourseReviewViewSet.get_permissions "create") request
    (CourseReviewViewSet.create run_fields request).

(** ** Grade aggregation *)

(** Modelled from the spec: a grade as the aggregation reads it, with its
    [grade_point] and the credit unit count of its course, which the data
    model gives as a positive integer ([reports.models] lies outside the
    modules embedded here). *)
Module GradeEntry.
Record t := { grade_point : Q; credit_units : positive }.
End GradeEntry.

(** Python's [/]: a zero divisor raises. *)
Definition divide (n d : Q) : result Q :=
  if Qeq_bool d 0 then Raise ZeroDivisionError else Ok (n / d)%Q.

Definition weighted_points (grades : list GradeEntry.t) : Q :=
  foldr (λ g acc,
    (GradeEntry.grade_point g * inject_Z (Z.pos (GradeEntry.credit_units g))
     + acc)%Q)
    0%Q grades.

Definition total_credits (grades : list GradeEntry.t) : Z :=
  foldr (λ g acc, Z.pos (GradeEntry.credit_units g) + acc) 0 grades.

Section ComputeGpa.

(** The value returned for an empty grade set; the choice is the
    implementer's. *)
Variable defined_empty_value : Q.

(** Modelled from the spec: [reports.utils.calculate_gpa] is imported by the
    views and the serializers but lies outside the modules embedded here.  The
    GPA is the mean of [grade_point] over a grade set, weighted by each
    grade's course [credit_units]; the empty grade set yields the defined
    sentinel. *)
Definition compute_gpa (grades : list GradeEntry.t) : result Q :=
  match grades with
  | [] => Ok defined_empty_value
  | _ => divide (weighted_points grades) (inject_Z (total_credits grades))
  end.

End ComputeGpa.

(** * Further parts of the API *)

(** ** permissions.py: [IsStudentOrReadOnly] *)

Module IsStudentOrReadOnly.

Definition has_permission (request : Request.t) : bool :=
  if bool_decide (Request.method request ∈ SAFE_METHODS)
  then User.is_authenticated (Request.user request)
  else has_permission IsStudent request.

(** [obj_user] is [obj.user], absent when the object has no such
    attribute. *)
Definition has_object_permission (request : Request.t) (obj_user : option Z)
    : bool :=
  if bool_decide (Request.method request ∈ SAFE_METHODS) then true
  else match obj_user with
       | Some u => bool_decide (u = User.id (Request.user request))
       | None => false
       end.

End IsStudentOrReadOnly.

(** ** serializers.py: [CourseSerializer] and [StudentDetailSerializer] *)

Module CourseSerializer.

(** [obj.students.count()] *)
Definition get_student_count (db : Database) (obj : Course.t) : nat :=
  length (course_students_all db obj).

End CourseSerializer.

(** [student.courses.all()]: the Course rows joined to the student through
    the many-to-many table. *)
Definition student_courses_all (db : Database) (student : Student.t)
    : list Course.t :=
  filter (λ c, (Course.id c, Student.id student) ∈ course_students db)
    (Course_objects db).

(** [student.grade_set.all()] *)
Definition student_grade_set (db : Database) (student : Student.t)
    : list Grade.t :=
  filter (λ g, Grade.student g = Student.id student) (Grade_objects db).

Module StudentDetail.
Record t := { student : Student.t; gpa : Q; enrolled_courses : list Course.t;
  grades : list Grade.t; cgpa : Q; semester_remark : string }.
End StudentDetail.

(** ** Responses of the views below *)

Inductive content :=
| Content (d : data)
| NoContent
| StudentDetailData (d : StudentDetail.t)
| ProfileData (p : Profile.t).

Module Reply.
Record t := { content : content; status : Z }.
End Reply.
Abbreviation Reply := Reply.Build_t.

Definition HTTP_204_NO_CONTENT := 204.

Definition reply (r : Response.t) : Reply.t :=
  Reply (Content (Response.data r)) (Response.status r).

(** [handle_exception] for a view that answers a [Reply.t]. *)
Definition handle_reply_exception (r : result Reply.t) : result Reply.t :=
  match r with
  | Ok x => Ok x
  | Raise e =>
      match handle_exception (Raise e) with
      | Ok response => Ok (reply response)
      | Raise e' => Raise e'
      end
  end.

Definition dispatch_reply (perms : list permission) (request : Request.t)
    (handler : M Reply.t) : M Reply.t := λ db,
  match check_permissions perms request with
  | Raise e => (handle_reply_exception (Raise e), db)
  | Ok _ => let '(r, db') := handler db in (handle_reply_exception r, db')
  end.

(** ** views.py: the remaining actions of [StudentViewSet] *)

Section StudentDetailViews.

Variable filter_queryset :
  gmap string string → list Student.t → result (list Student.t).
Variables calculate_gpa calculate_cgpa : Database → Student.t → Q.

(** [StudentDetailSerializer(obj).data], the serializer of the actions
    [retrieve] and [me]. *)
Definition StudentDetailSerializer_data (db : Database) (obj : Student.t)
    : StudentDetail.t :=
  {| StudentDetail.student := obj;
     StudentDetail.gpa := calculate_gpa db obj;
     StudentDetail.enrolled_courses := student_courses_all db obj;
     StudentDetail.grades := student_grade_set db obj;
     StudentDetail.cgpa := calculate_cgpa db obj;
     StudentDetail.semester_remark :=
       StudentDetailSerializer.get_semester_remark db obj |}.

Definition StudentViewSet_me (request : Request.t) : M Reply.t := λ db,
  match Student_objects_get_user db (Request.user request) with
  | Ok student =>
      (Ok (Reply (StudentDetailData (StudentDetailSerializer_data db student))
             HTTP_200_OK), db)
  | Raise DoesNotExist =>
      (Ok (Reply (Content (Detail "Student profile not found"))
             HTTP_404_NOT_FOUND), db)
  | Raise e => (Raise e, db)
  end.

(** [RetrieveModelMixin.retrieve] *)
Definition StudentViewSet_retrieve (request : Request.t) (pk : Z) : M Reply.t :=
  instance ← query (StudentViewSet.get_object filter_queryset "retrieve"
                      request pk);
  serializer_data ← query (λ db, Ok (StudentDetailSerializer_data db instance));
  mret (Reply (StudentDetailData serializer_data) HTTP_200_OK).

Definition StudentViewSet_grades (request : Request.t) (pk : Z) : M Response.t :=
  student ← query (StudentViewSet.get_object filter_queryset "grades"
                     request pk);
  grades ← query (λ db,
    Ok (filter (λ g, Grade.student g = Student.id student) (Grade_objects db)));
  mret (Response (Grades grades) HTTP_200_OK).

End StudentDetailViews.

Section StudentList.

Variables filter_queryset paginate_queryset :
  gmap string string → list Student.t → list Student.t.

(** [ListModelMixin.list] over [Student.objects.all()] *)
Definition StudentViewSet_list (request : Request.t) : M Response.t :=
  queryset ← query (λ db, Ok (Student_objects db));
  let query_params := Request.query_params request in
  let page :=
    paginate_queryset query_params (filter_queryset query_params queryset) in
  mret (Response (Students page) HTTP_200_OK).

End StudentList.

(** ** views.py: [CourseViewSet.reviews] *)

Definition CourseViewSet_reviews
    (filter_queryset :
       gmap string string → list Course.t → result (list Course.t))
    (request : Request.t) (pk : Z) : M Response.t :=
  course ← query (CourseViewSet.get_object filter_queryset "reviews"
                    request pk);
  reviews ← query (λ db,
    Ok (filter (λ r, CourseReview.course r = Course.id course)
          (CourseReview_objects db)));
  mret (Response (Reviews reviews) HTTP_200_OK).

(** ** views.py: updating and deleting a review *)

(** [obj.student.user] as [IsOwnerOrReadOnly] reads it: when the Student row
    is missing, [hasattr(obj, 'student')] is false, and a review has no
    [user] attribute either. *)
Definition review_owner (db : Database) (obj : CourseReview.t)
    : result (option Z) :=
  match get (λ s, Student.id s = CourseReview.student obj) (Student_objects db)
  with
  | Ok student => Ok (Some (Student.user student))
  | Raise DoesNotExist => Ok None
  | Raise e => Raise e
  end.

Section ReviewDetail.

(** The filter backends of the viewset ([DjangoFilterBackend] on course,
    student and rating, [OrderingFilter]) are the framework's. *)
Variable filter_queryset :
  gmap string string → list CourseReview.t → result (list CourseReview.t).

(** [self.get_object()] of [CourseReviewViewSet]: the row is looked up in the
    role-filtered queryset after the filter backends, then the object-level
    permissions run; for a safe method [IsOwnerOrReadOnly] answers before it
    reads the owner. *)
Definition CourseReviewViewSet_get_object (action : string)
    (request : Request.t) (pk : Z) (db : Database) : result CourseReview.t :=
  role_queryset ← CourseReviewViewSet.get_queryset request db;
  queryset ← filter_queryset (Request.query_params request) role_queryset;
  obj ← get_object_or_404 "CourseReview" (λ r, CourseReview.id r = pk) queryset;
  owner ← (if bool_decide (Request.method request ∈ SAFE_METHODS) then Ok None
           else review_owner db obj);
  check_object_permissions (CourseReviewViewSet.get_permissions action)
    request owner;;
  Ok obj.

End ReviewDetail.

(** [instance.delete()] *)
Definition CourseReview_delete (instance : CourseReview.t) (db : Database)
    : Database :=
  {| Student_objects := Student_objects db;
     Course_objects := Course_objects db;
     Grade_objects := Grade_objects db;
     CourseReview_objects :=
       filter (λ r, CourseReview.id r ≠ CourseReview.id instance)
         (CourseReview_objects db);
     CourseReview_sequence := CourseReview_sequence db;
     course_students := course_students db |}.

(** [DestroyModelMixin.destroy] *)
Definition CourseReviewViewSet_destroy
    (filter_queryset :
       gmap string string → list CourseReview.t → result (list CourseReview.t))
    (request : Request.t) (pk : Z) : M Reply.t :=
  instance ← query (CourseReviewViewSet_get_object filter_queryset "destroy"
                      request pk);
  execute (CourseReview_delete instance);;
  mret (Reply NoContent HTTP_204_NO_CONTENT).

(** [ModelSerializer.update]: every key of the validated data is set on the
    instance; the other attributes keep their values. *)
Definition CourseReview_setattrs (instance : CourseReview.t)
    (validated_data : gmap string field_value) : result CourseReview.t :=
  course ← match validated_data !! "course" with
           | None => Ok (CourseReview.course instance)
           | Some (FCourse c) => Ok (Course.id c)
           | Some _ => Raise IntegrityError
           end;
  student ← match validated_data !! "student" with
            | None => Ok (CourseReview.student instance)
            | Some (FStudent s) => Ok (Student.id s)
            | Some _ => Raise IntegrityError
            end;
  rating ← match validated_data !! "rating" with
           | None => Ok (CourseReview.rating instance)
           | Some (FInt z) => Ok z
           | Some _ => Raise IntegrityError
           end;
  comment ← match validated_data !! "comment" with
            | None => Ok (CourseReview.comment instance)
            | Some (FStr s) => Ok s
            | Some _ => Raise IntegrityError
            end;
  Ok {| CourseReview.id := CourseReview.id instance;
        CourseReview.course := course;
        CourseReview.student := student;
        CourseReview.rating := rating;
        CourseReview.comment := comment |}.

(** [instance.save()] of an existing row *)
Definition CourseReview_save (instance : CourseReview.t) (db : Database)
    : Database :=
  {| Student_objects := Student_objects db;
     Course_objects := Course_objects db;
     Grade_objects := Grade_objects db;
     CourseReview_objects :=
       (λ r, if bool_decide (CourseReview.id r = CourseReview.id instance)
             then instance else r) <$> CourseReview_objects db;
     CourseReview_sequence := CourseReview_sequence db;
     course_students := course_students db |}.

Section ReviewUpdate.

Variable filter_queryset :
  gmap string string → list CourseReview.t → result (list CourseReview.t).
Variable run_fields :
  Database → gmap string value → result (gmap string field_value).

(** [UpdateModelMixin.update]; [perform_update] is the mixin's,
    [serializer.save()] without keyword arguments. *)
Definition CourseReviewViewSet_update (request : Request.t) (pk : Z)
    : M Response.t :=
  instance ← query (CourseReviewViewSet_get_object filter_queryset "update"
                      request pk);
  validated_data ← query (λ db,
    CourseReviewSerializer.is_valid run_fields db (Request.data request));
  updated ← query (λ _, CourseReview_setattrs instance validated_data);
  execute (CourseReview_save updated);;
  mret (Response (Review updated) HTTP_200_OK).

End ReviewUpdate.

(** ** views.py: [ProfileViewSet] *)

Module ProfileViewSet.

Definition get_permissions (action : string) : list permission :=
  if bool_decide (action = "list") then [IsAdmin] else [IsAuthenticated].

(** [request.user.profile] raises the related model's [DoesNotExist] when the
    account has no Profile row; the view does not catch it. *)
Definition me (request : Request.t) : M Reply.t := λ db,
  match User.profile (Request.user request) with
  | Some profile => (Ok (Reply (ProfileData profile) HTTP_200_OK), db)
  | None => (Raise DoesNotExist, db)
  end.

End ProfileViewSet.

(** ** The further operations of the API *)

Definition listStudents
    (filter_queryset paginate_queryset :
       gmap string string → list Student.t → list Student.t)
    (request : Request.t) : M Response.t :=
  dispatch (StudentViewSet.get_permissions "list") request
    (StudentViewSet_list filter_queryset paginate_queryset request).

Definition getStudentGrades
    (filter_queryset :
       gmap string string → list Student.t → result (list Student.t))
    (request : Request.t) (pk : Z) : M Response.t :=
  dispatch (StudentViewSet.get_permissions "grades") request
    (StudentViewSet_grades filter_queryset request pk).

Definition getStudentDetail
    (filter_queryset :
       gmap string string → list Student.t → result (list Student.t))
    (calculate_gpa calculate_cgpa : Database → Student.t → Q)
    (request : Request.t) (pk : Z) : M Reply.t :=
  dispatch_reply (StudentViewSet.get_permissions "retrieve") request
    (StudentViewSet_retrieve filter_queryset calculate_gpa calculate_cgpa
       request pk).

Definition getOwnStudentProfile
    (calculate_gpa calculate_cgpa : Database → Student.t → Q)
    (request : Request.t) : M Reply.t :=
  dispatch_reply (StudentViewSet.get_permissions "me") request
    (StudentViewSet_me calculate_gpa calculate_cgpa request).

Definition getCourseReviews
    (filter_queryset :
       gmap string string → list Course.t → result (list Course.t))
    (request : Request.t) (pk : Z) : M Response.t :=
  dispatch (CourseViewSet.get_permissions "reviews") request
    (CourseViewSet_reviews filter_queryset request pk).

Definition deleteReview
    (filter_queryset :
       gmap string string → list CourseReview.t → result (list CourseReview.t))
    (request : Request.t) (pk : Z) : M Reply.t :=
  dispatch_reply (CourseReviewViewSet.get_permissions "destroy") request
    (CourseReviewViewSet_destroy filter_queryset request pk).

Definition updateReview
    (filter_queryset :
       gmap string string → list CourseReview.t → result (list CourseReview.t))
    (run_fields : Database → gmap string value → result (gmap string field_value))
    (request : Request.t) (pk : Z) : M Response.t :=
  dispatch (CourseReviewViewSet.get_permissions "update") request
    (CourseReviewViewSet_update filter_queryset run_fields request pk).

Definition getOwnProfile (request : Request.t) : M Reply.t :=
  dispatch_reply (ProfileViewSet.get_permissions "me") request
    (ProfileViewSet.me request).

(** * Example data

    A small store used to run the views: two students, two courses (one
    lectured by Carol), three grades, two reviews and one enrollment. *)

Module Sample.

Definition alice_user : User.t :=
  {| User.id := 11; User.is_authenticated := true;
     User.profile := Some {| Profile.role := "student"; Profile.name := "Alice" |} |}.
Definition bob_user : User.t :=
  {| User.id := 12; User.is_authenticated := true;
     User.profile := Some {| Profile.role := "student"; Profile.name := "Bob" |} |}.
Definition carol_user : User.t :=
  {| User.id := 13; User.is_authenticated := true;
     User.profile := Some {| Profile.role := "lecturer"; Profile.name := "Carol" |} |}.
Definition dave_user : User.t :=
  {| User.id := 14; User.is_authenticated := true;
     User.profile := Some {| Profile.role := "admin"; Profile.name := "Dave" |} |}.
Definition erin_user : User.t :=
  {| User.id := 15; User.is_authenticated := true; User.profile := None |}.

Definition alice : Student.t :=
  {| Student.id := 1; Student.user := 11; Student.name := "Alice";
     Student.email := "alice@example.org" |}.
Definition bob : Student.t :=
  {| Student.id := 2; Student.user := 12; Student.name := "Bob";
     Student.email := "bob@example.org" |}.

Definition cs101 : Course.t :=
  {| Course.id := 10; Course.name := "CS101"; Course.code := "CS101";
     Course.credit_units := 3; Course.lecturer := "Carol" |}.
Definition cs102 : Course.t :=
  {| Course.id := 20; Course.name := "CS102"; Course.code := "CS102";
     Course.credit_units := 4; Course.lecturer := "Frank" |}.

Definition grades : list Grade.t :=
  [ {| Grade.id := 1; Grade.student := 1; Grade.course := 10;
       Grade.np_status := "NP" |};
    {| Grade.id := 2; Grade.student := 2; Grade.course := 10;
       Grade.np_status := "NP" |};
    {| Grade.id := 3; Grade.student := 2; Grade.course := 20;
       Grade.np_status := "PP" |} ].

Definition reviews : list CourseReview.t :=
  [ {| CourseReview.id := 1; CourseReview.course := 10;
       CourseReview.student := 1; CourseReview.rating := 5;
       CourseReview.comment := "Great" |};
    {| CourseReview.id := 2; CourseReview.course := 20;
       CourseReview.student := 2; CourseReview.rating := 3;
       CourseReview.comment := "Fine" |} ].

(** Alice is enrolled in CS101; Bob only has grades. *)
Definition db : Database :=
  {| Student_objects := [alice; bob];
     Course_objects := [cs101; cs102];
     Grade_objects := grades;
     CourseReview_objects := reviews;
     CourseReview_sequence := 2;
     course_students := {[ (10, 1) ]} |}.

Definition GET (user : User.t) : Request.t :=
  {| Request.user := user; Request.method := "GET";
     Request.query_params := ∅; Request.data := ∅ |}.

Definition POST (user : User.t) (data : gmap string value) : Request.t :=
  {| Request.user := user; Request.method := "POST";
     Request.query_params := ∅; Request.data := data |}.

(** No query parameters and a page that holds every row. *)
Definition all_rows {A} (query_params : gmap string string) (queryset : list A)
    : list A := queryset.

Definition calculate_gpa (db : Database) (student : Student.t) : Q := 7 # 2.

(** Field validation for a review whose four writable fields are required:
    the related fields resolve a primary key to its row. *)
Definition run_fields (db : Database) (data : gmap string value)
    : result (gmap string field_value) :=
  match data !! "course", data !! "student", data !! "rating",
        data !! "comment" with
  | Some (Int course), Some (Int student), Some (Int rating),
    Some (Str comment) =>
      match Course_objects_get_id db course,
            get (λ s, Student.id s = student) (Student_objects db) with
      | Ok course, Ok student =>
          Ok (<["course" := FCourse course]>
                (<["student" := FStudent student]>
                   (<["rating" := FInt rating]>
                      {[ "comment" := FStr comment ]})))
      | _, _ =>
          Raise (ValidationError "course" "Invalid pk - object does not exist.")
      end
  | _, _, _, _ => Raise (ValidationError "rating" "This field is required.")
  end.

(** Filter backends on a request without query parameters: the queryset as
    it is. *)
Definition unfiltered {A} (query_params : gmap string string)
    (queryset : list A) : result (list A) := Ok queryset.

(** Unsigned decimal text read as an integer. *)
Fixpoint digits (acc : Z) (s : string) : Z + string :=
  match s with
  | EmptyString => inl acc
  | String a s' =>
      let d := Z.of_N (Ascii.N_of_ascii a) - 48 in
      if bool_decide (0 ≤ d ≤ 9)%Z then digits (10 * acc + d) s'
      else inr "A valid integer is required."
  end.

Definition int_of_string (s : string) : Z + string :=
  match s with
  | EmptyString => inr "A valid integer is required."
  | _ => digits 0 s
  end.

End Sample.

(** Further requests on the example store. *)

Module Fixture.

Definition DELETE (user : User.t) : Request.t :=
  {| Request.user := user; Request.method := "DELETE";
     Request.query_params := ∅; Request.data := ∅ |}.

Definition PUT (user : User.t) (data : gmap string value) : Request.t :=
  {| Request.user := user; Request.method := "PUT";
     Request.query_params := ∅; Request.data := data |}.

(** An account whose Profile carries a role the views do not name. *)
Definition gina_user : User.t :=
  {| User.id := 17; User.is_authenticated := true;
     User.profile := Some {| Profile.role := "registrar"; Profile.name := "Gina" |} |}.

Definition anonymous_user : User.t :=
  {| User.id := 0; User.is_authenticated := false; User.profile := None |}.

(** A [SearchFilter] on the name and the email of a student: with a
    [search] parameter, the rows in which one of the two contains the term;
    without it, every row. *)
Fixpoint contains (term s : string) : bool :=
  String.prefix term s
  || match s with
     | EmptyString => false
     | String _ s' => contains term s'
     end.

Definition search (query_params : gmap string string)
    (queryset : list Student.t) : result (list Student.t) :=
  match query_params !! "search" with
  | Some term =>
      Ok (filter (λ s, contains term (Student.name s)
                       || contains term (Student.email s)) queryset)
  | None => Ok queryset
  end.

(** A POST with a [search] query parameter. *)
Definition POST_search (user : User.t) (term : string)
    (data : gmap string value) : Request.t :=
  {| Request.user := user; Request.method := "POST";
     Request.query_params := {[ "search" := term ]}; Request.data := data |}.

(** An account of role student to which no Student row is linked. *)
Definition hugo_user : User.t :=
  {| User.id := 18; User.is_authenticated := true;
     User.profile := Some {| Profile.role := "student"; Profile.name := "Hugo" |} |}.

End Fixture.

(** * Properties *)

(** ** Lemmas on the queries *)

Lemma get_Ok {A} (P : A → Prop) `{∀ x, Decision (P x)} (l : list A) (x : A) :
  get P l = Ok x → x ∈ l ∧ P x.
Proof.
  unfold get. intros Hget.
  assert (Hin : x ∈ filter P l).
  { destruct (filter P l) as [|y [|z k]]; simplify_eq. set_solver. }
  by apply list_elem_of_filter in Hin as [? ?].
Qed.

Lemma get_Ok_filter {A} (P : A → Prop) `{∀ x, Decision (P x)} (l : list A)
    (x : A) :
  get P l = Ok x ↔ filter P l = [x].
Proof.
  unfold get. destruct (filter P l) as [|y [|z k]]; split; intros; by simplify_eq.
Qed.

Lemma get_object_or_404_Ok {A} (model : string) (P : A → Prop)
    `{∀ x, Decision (P x)} (l : list A) (x : A) :
  get_object_or_404 model P l = Ok x ↔ get P l = Ok x.
Proof.
  unfold get_object_or_404.
  destruct (get P l) as [a|[]]; split; intros; by simplify_eq.
Qed.

Lemma get_DoesNotExist {A} (P : A → Prop) `{∀ x, Decision (P x)} (l : list A) :
  (∀ x, x ∈ l → ¬ P x) → get P l = Raise DoesNotExist.
Proof.
  intros Hnone. unfold get.
  destruct (filter P l) as [|x k] eqn:Hfilter; [done|].
  assert (x ∈ filter P l) as [? ?]%list_elem_of_filter by (rewrite Hfilter; set_solver).
  naive_solver.
Qed.

Lemma has_permission_IsAuthenticated request :
  check_permissions [IsAuthenticated] request =
  if User.is_authenticated (Request.user request) then Ok ()
  else Raise NotAuthenticated.
Proof.
  unfold check_permissions, permission_denied. simpl.
  by destruct (User.is_authenticated _).
Qed.

Lemma check_object_permissions_IsAuthenticated request owner :
  check_object_permissions [IsAuthenticated] request owner = Ok ().
Proof. reflexivity. Qed.

(** ** Semester remark *)

(** C6: the remark is "No grades yet" for a student without grades, "Normal
    Progress" when there are grades and each has [np_status] "NP", and
    "Attention Needed" when there are grades and one of them has another
    [np_status]. *)
Theorem semester_remark_cases (db : Database) (obj : Student.t) :
  let grades :=
    filter (λ g, Grade.student g = Student.id obj) (Grade_objects db) in
  let remark := StudentDetailSerializer.get_semester_remark db obj in
  (grades = [] → remark = "No grades yet")
  ∧ (grades ≠ [] → (∀ g, g ∈ grades → Grade.np_status g = "NP") →
     remark = "Normal Progress")
  ∧ (grades ≠ [] → (∃ g, g ∈ grades ∧ Grade.np_status g ≠ "NP") →
     remark = "Attention Needed").
Proof.
  intros grades remark. subst remark.
  unfold StudentDetailSerializer.get_semester_remark. fold grades.
  split; [|split].
  - intros ->. done.
  - intros Hne Hall. rewrite bool_decide_false by done.
    assert (forallb (λ grade, bool_decide (Grade.np_status grade = "NP")) grades
            = true) as ->; [|done].
    apply forallb_forall. intros g Hg%list_elem_of_In.
    apply bool_decide_eq_true. auto.
  - intros Hne (g & Hg & Hnp). rewrite bool_decide_false by done.
    destruct (forallb _ grades) eqn:Hall; [|done].
    rewrite forallb_forall in Hall. specialize (Hall g).
    rewrite <- list_elem_of_In in Hall. apply Hall in Hg.
    by apply bool_decide_eq_true in Hg.
Qed.

(** ** Row-level filtering of the list views *)

(** What [listGrades] answers once the queryset of the request is known. *)
Lemma listGrades_queryset filter_queryset paginate_queryset request db queryset :
  User.is_authenticated (Request.user request) = true →
  GradeViewSet.get_queryset request db = Ok queryset →
  listGrades filter_queryset paginate_queryset request db =
  (Ok (Response
         (Grades (paginate_queryset (Request.query_params request)
                    (filter_queryset (Request.query_params request) queryset)))
         HTTP_200_OK), db).
Proof.
  intros Hauth Hqs.
  unfold listGrades, dispatch. simpl GradeViewSet.get_permissions.
  rewrite has_permission_IsAuthenticated, Hauth.
  unfold GradeViewSet.list, query, mbind, M_bind. by rewrite Hqs.
Qed.

Lemma listCourseReviews_queryset filter_queryset paginate_queryset request db
    queryset :
  User.is_authenticated (Request.user request) = true →
  CourseReviewViewSet.get_queryset request db = Ok queryset →
  listCourseReviews filter_queryset paginate_queryset request db =
  (Ok (Response
         (Reviews (paginate_queryset (Request.query_params request)
                     (filter_queryset (Request.query_params request) queryset)))
         HTTP_200_OK), db).
Proof.
  intros Hauth Hqs.
  unfold listCourseReviews, dispatch. simpl CourseReviewViewSet.get_permissions.
  unfold check_permissions. simpl forallb. rewrite Hauth. simpl.
  unfold CourseReviewViewSet.list, query, mbind, M_bind. by rewrite Hqs.
Qed.

Lemma lecturer_course_elem (db : Database) (name : string) (course_id : Z) :
  course_id ∈ Course.id <$> Course_objects_filter_lecturer db name →
  ∃ course, course ∈ Course_objects db ∧ Course.id course = course_id
            ∧ Course.lecturer course = name.
Proof.
  intros (course & -> & Hin)%list_elem_of_fmap.
  apply list_elem_of_filter in Hin as [? ?]. eauto.
Qed.

Section RowFiltering.

Context {A : Type}.
Variables filter_queryset paginate_queryset : gmap string string → list A → list A.
Hypothesis filter_queryset_subseteq :
  ∀ query_params queryset, filter_queryset query_params queryset ⊆ queryset.
Hypothesis paginate_queryset_subseteq :
  ∀ query_params queryset, paginate_queryset query_params queryset ⊆ queryset.

Lemma page_subseteq query_params queryset :
  paginate_queryset query_params (filter_queryset query_params queryset)
  ⊆ queryset.
Proof.
  etrans; [apply paginate_queryset_subseteq | apply filter_queryset_subseteq].
Qed.

End RowFiltering.

(** C1: a student principal with a linked Student record gets from
    [listGrades] a page of grades, each of which is a grade of that Student;
    no row of the page is the grade of a student with another id. *)
Theorem listGrades_student_only_own
    (filter_queryset paginate_queryset :
       gmap string string → list Grade.t → list Grade.t)
    (db : Database) (request : Request.t) (profile : Profile.t)
    (student : Student.t) :
  (∀ query_params queryset, filter_queryset query_params queryset ⊆ queryset) →
  (∀ query_params queryset, paginate_queryset query_params queryset ⊆ queryset) →
  User.is_authenticated (Request.user request) = true →
  User.profile (Request.user request) = Some profile →
  Profile.role profile = "student" →
  Student_objects_get_user db (Request.user request) = Ok student →
  ∃ page,
    listGrades filter_queryset paginate_queryset request db =
      (Ok (Response (Grades page) HTTP_200_OK), db)
    ∧ (∀ grade, grade ∈ page →
         grade ∈ Grade_objects db ∧ Grade.student grade = Student.id student)
    ∧ (∀ grade other, grade ∈ page → Student.id other ≠ Student.id student →
         Grade.student grade ≠ Student.id other).
Proof.
  intros Hf Hp Hauth Hprofile Hrole Hstudent.
  assert (Hqs : GradeViewSet.get_queryset request db =
    Ok (filter (λ g, Grade.student g = Student.id student) (Grade_objects db))).
  { unfold GradeViewSet.get_queryset.
    rewrite Hprofile, bool_decide_true by done. by rewrite Hstudent. }
  eexists. split; [by apply listGrades_queryset|].
  assert (Hown : ∀ grade,
    grade ∈ paginate_queryset (Request.query_params request)
      (filter_queryset (Request.query_params request)
         (filter (λ g, Grade.student g = Student.id student) (Grade_objects db))) →
    grade ∈ Grade_objects db ∧ Grade.student grade = Student.id student).
  { intros grade Hin%(page_subseteq _ _ Hf Hp).
    apply list_elem_of_filter in Hin as [? ?]. done. }
  split; [done|].
  intros grade other Hin%Hown Hother. destruct Hin as [_ ->]. done.
Qed.

(** A student principal without a Student row gets an empty page. *)
Lemma listGrades_student_without_record
    (filter_queryset paginate_queryset :
       gmap string string → list Grade.t → list Grade.t)
    (db : Database) (request : Request.t) (profile : Profile.t) :
  (∀ query_params queryset, filter_queryset query_params queryset ⊆ queryset) →
  (∀ query_params queryset, paginate_queryset query_params queryset ⊆ queryset) →
  User.is_authenticated (Request.user request) = true →
  User.profile (Request.user request) = Some profile →
  Profile.role profile = "student" →
  Student_objects_get_user db (Request.user request) = Raise DoesNotExist →
  listGrades filter_queryset paginate_queryset request db =
    (Ok (Response (Grades []) HTTP_200_OK), db).
Proof.
  intros Hf Hp Hauth Hprofile Hrole Hstudent.
  rewrite (listGrades_queryset _ _ _ _ []); [|done|].
  - pose proof (page_subseteq _ _ Hf Hp (Request.query_params request) [])
      as Hsub.
    destruct (paginate_queryset _ _) as [|grade page]; [done|].
    exfalso. specialize (Hsub grade). set_solver.
  - unfold GradeViewSet.get_queryset.
    rewrite Hprofile, bool_decide_true by done. by rewrite Hstudent.
Qed.

(** C4: for a lecturer principal every row of [listGrades] and every row of
    [listCourseReviews] has as its course a Course row whose [lecturer] is
    the [name] of the lecturer's Profile; for a principal whose role is
    student or admin the queryset of the review list is the whole review
    table. *)
Theorem lecturer_rows_of_own_courses
    (grade_filter grade_page : gmap string string → list Grade.t → list Grade.t)
    (review_filter review_page :
       gmap string string → list CourseReview.t → list CourseReview.t)
    (db : Database) (request : Request.t) (profile : Profile.t) :
  (∀ query_params queryset, grade_filter query_params queryset ⊆ queryset) →
  (∀ query_params queryset, grade_page query_params queryset ⊆ queryset) →
  (∀ query_params queryset, review_filter query_params queryset ⊆ queryset) →
  (∀ query_params queryset, review_page query_params queryset ⊆ queryset) →
  User.is_authenticated (Request.user request) = true →
  User.profile (Request.user request) = Some profile →
  (Profile.role profile = "lecturer" →
     (∃ page,
        listGrades grade_filter grade_page request db =
          (Ok (Response (Grades page) HTTP_200_OK), db)
        ∧ ∀ grade, grade ∈ page →
            ∃ course, course ∈ Course_objects db
                      ∧ Course.id course = Grade.course grade
                      ∧ Course.lecturer course = Profile.name profile)
     ∧ (∃ page,
        listCourseReviews review_filter review_page request db =
          (Ok (Response (Reviews page) HTTP_200_OK), db)
        ∧ ∀ review, review ∈ page →
            ∃ course, course ∈ Course_objects db
                      ∧ Course.id course = CourseReview.course review
                      ∧ Course.lecturer course = Profile.name profile))
  ∧ (Profile.role profile = "student" ∨ Profile.role profile = "admin" →
     CourseReviewViewSet.get_queryset request db = Ok (CourseReview_objects db)
     ∧ listCourseReviews review_filter review_page request db =
         (Ok (Response
                (Reviews (review_page (Request.query_params request)
                            (review_filter (Request.query_params request)
                               (CourseReview_objects db))))
                HTTP_200_OK), db)).
Proof.
  intros Hgf Hgp Hrf Hrp Hauth Hprofile. split.
  - intros Hrole. split.
    + eexists. split.
      * apply listGrades_queryset; [done|].
        unfold GradeViewSet.get_queryset.
        rewrite Hprofile, Hrole. reflexivity.
      * intros grade Hin%(page_subseteq _ _ Hgf Hgp).
        apply list_elem_of_filter in Hin as [Hin _].
        by apply lecturer_course_elem in Hin.
    + eexists. split.
      * apply listCourseReviews_queryset; [done|].
        unfold CourseReviewViewSet.get_queryset.
        rewrite Hprofile, Hrole. reflexivity.
      * intros review Hin%(page_subseteq _ _ Hrf Hrp).
        apply list_elem_of_filter in Hin as [Hin _].
        by apply lecturer_course_elem in Hin.
  - intros Hrole.
    assert (Hqs : CourseReviewViewSet.get_queryset request db
                  = Ok (CourseReview_objects db)).
    { unfold CourseReviewViewSet.get_queryset. rewrite Hprofile.
      destruct Hrole as [-> | ->]; reflexivity. }
    split; [done|]. by apply listCourseReviews_queryset.
Qed.

(** C10: for an authenticated user without a Profile row the querysets of
    the grade list and of the review list are the whole tables, and both
    lists answer what they answer to an admin sending the same query
    parameters. *)
Theorem no_profile_sees_all_rows
    (grade_filter grade_page : gmap string string → list Grade.t → list Grade.t)
    (review_filter review_page :
       gmap string string → list CourseReview.t → list CourseReview.t)
    (db : Database) (request admin_request : Request.t)
    (admin_profile : Profile.t) :
  User.is_authenticated (Request.user request) = true →
  User.profile (Request.user request) = None →
  User.is_authenticated (Request.user admin_request) = true →
  User.profile (Request.user admin_request) = Some admin_profile →
  Profile.role admin_profile = "admin" →
  Request.query_params admin_request = Request.query_params request →
  GradeViewSet.get_queryset request db = Ok (Grade_objects db)
  ∧ CourseReviewViewSet.get_queryset request db = Ok (CourseReview_objects db)
  ∧ listGrades grade_filter grade_page request db =
      (Ok (Response
             (Grades (grade_page (Request.query_params request)
                        (grade_filter (Request.query_params request)
                           (Grade_objects db))))
             HTTP_200_OK), db)
  ∧ listCourseReviews review_filter review_page request db =
      (Ok (Response
             (Reviews (review_page (Request.query_params request)
                         (review_filter (Request.query_params request)
                            (CourseReview_objects db))))
             HTTP_200_OK), db)
  ∧ listGrades grade_filter grade_page request db =
      listGrades grade_filter grade_page admin_request db
  ∧ listCourseReviews review_filter review_page request db =
      listCourseReviews review_filter review_page admin_request db.
Proof.
  intros Hauth Hnone Hauth' Hprofile Hrole Hparams.
  assert (Hg : GradeViewSet.get_queryset request db = Ok (Grade_objects db)).
  { unfold GradeViewSet.get_queryset. by rewrite Hnone. }
  assert (Hr : CourseReviewViewSet.get_queryset request db
               = Ok (CourseReview_objects db)).
  { unfold CourseReviewViewSet.get_queryset. by rewrite Hnone. }
  assert (Hg' : GradeViewSet.get_queryset admin_request db
                = Ok (Grade_objects db)).
  { unfold GradeViewSet.get_queryset. rewrite Hprofile, Hrole. reflexivity. }
  assert (Hr' : CourseReviewViewSet.get_queryset admin_request db
                = Ok (CourseReview_objects db)).
  { unfold CourseReviewViewSet.get_queryset. rewrite Hprofile, Hrole.
    reflexivity. }
  repeat split; try done.
  - by apply listGrades_queryset.
  - by apply listCourseReviews_queryset.
  - rewrite (listGrades_queryset _ _ _ _ _ Hauth Hg),
      (listGrades_queryset _ _ _ _ _ Hauth' Hg'), Hparams. done.
  - rewrite (listCourseReviews_queryset _ _ _ _ _ Hauth Hr),
      (listCourseReviews_queryset _ _ _ _ _ Hauth' Hr'), Hparams. done.
Qed.


(** ** Enrollment *)

Lemma finds_row {A} filter_queryset request (table : list A) (P : A → Prop)
    `{∀ x, Decision (P x)} (obj : A) :
  finds filter_queryset request table P obj → obj ∈ table ∧ P obj.
Proof.
  intros (queryset & _ & Hsub & Hget). apply get_Ok in Hget as [Hin HP].
  split; [by apply Hsub | done].
Qed.

Lemma StudentViewSet_get_object_Ok filter_queryset action request pk db student :
  finds filter_queryset request (Student_objects db)
    (λ s, Student.id s = pk) student →
  action ∈ ["enroll"; "unenroll"; "gpa"; "grades"; "retrieve"] →
  StudentViewSet.get_object filter_queryset action request pk db = Ok student.
Proof.
  intros (queryset & Hfilter & _ & Hget) Haction.
  unfold StudentViewSet.get_object. rewrite Hfilter. cbn [mbind result_bind].
  apply (get_object_or_404_Ok "Student") in Hget. rewrite Hget.
  cbn [mbind result_bind].
  assert (StudentViewSet.get_permissions action = [IsAuthenticated]) as ->.
  { apply list_elem_of_In in Haction. simpl in Haction.
    destruct Haction as [<- | [<- | [<- | [<- | [<- | []]]]]]; reflexivity. }
  reflexivity.
Qed.

Lemma is_valid_course_id int_of_string db data course_id course :
  IntegerField int_of_string <$> data !! "course_id" = Some (inl course_id) →
  Course_objects_get_id db course_id = Ok course →
  EnrollmentSerializer.is_valid int_of_string db data
  = Ok (EnrollmentSerializer.Valid course_id).
Proof.
  intros Hdata Hcourse. unfold EnrollmentSerializer.is_valid.
  destruct (data !! "course_id") as [raw|]; [|done].
  cbn in Hdata. injection Hdata as ->. by rewrite Hcourse.
Qed.

(** [student in course.students.all()] holds exactly when the edge is in the
    many-to-many table. *)
Lemma student_in_course_students db course student :
  student ∈ Student_objects db →
  Student.id student ∈ Student.id <$> course_students_all db course
  ↔ (Course.id course, Student.id student) ∈ course_students db.
Proof.
  intros Hrow. unfold course_students_all. split.
  - intros (s & Hid & Hin)%list_elem_of_fmap.
    apply list_elem_of_filter in Hin as [Hedge _]. by rewrite Hid.
  - intros Hedge. apply list_elem_of_fmap. exists student. split; [done|].
    by apply list_elem_of_filter.
Qed.

Section EnrollRun.

Variable filter_queryset :
  gmap string string → list Student.t → result (list Student.t).
Variable int_of_string : string → Z + string.
Variables (db : Database) (request : Request.t) (pk course_id : Z).
Variables (student : Student.t) (course : Course.t).
Hypothesis authenticated : User.is_authenticated (Request.user request) = true.
Hypothesis student_found :
  finds filter_queryset request (Student_objects db)
    (λ s, Student.id s = pk) student.
Hypothesis yourself : StudentViewSet.not_yourself request student = false.
Hypothesis data_course_id :
  IntegerField int_of_string <$> Request.data request !! "course_id"
  = Some (inl course_id).
Hypothesis course_row : Course_objects_get_id db course_id = Ok course.

Lemma enrollSelf_run :
  enrollSelf filter_queryset int_of_string request pk db =
  if bool_decide ((course_id, pk) ∈ course_students db)
  then (Ok (Response (Detail "Already enrolled in this course")
              HTTP_400_BAD_REQUEST), db)
  else (Ok (Response
              (Detail ("Successfully enrolled in " +:+ Course.name course))
              HTTP_200_OK),
        course_students_add course student db).
Proof.
  destruct (finds_row _ _ _ _ _ student_found) as [Hrow Hpk].
  destruct (get_Ok _ _ _ course_row) as [_ Hcid].
  unfold enrollSelf, dispatch. simpl StudentViewSet.get_permissions.
  rewrite has_permission_IsAuthenticated, authenticated.
  unfold StudentViewSet.enroll, query, execute, mbind, M_bind, mret, M_ret.
  rewrite (StudentViewSet_get_object_Ok _ "enroll" request pk db student)
    by (done || set_solver).
  rewrite yourself.
  rewrite (is_valid_course_id _ db _ course_id course) by done.
  rewrite course_row.
  rewrite (bool_decide_ext _ _ (student_in_course_students db course student Hrow)).
  rewrite Hcid, Hpk. by case_bool_decide.
Qed.

Lemma unenrollSelf_run :
  unenrollSelf filter_queryset int_of_string request pk db =
  if bool_decide ((course_id, pk) ∈ course_students db)
  then (Ok (Response
              (Detail ("Successfully unenrolled from " +:+ Course.name course))
              HTTP_200_OK),
        course_students_remove course student db)
  else (Ok (Response (Detail "Not enrolled in this course")
              HTTP_400_BAD_REQUEST), db).
Proof.
  destruct (finds_row _ _ _ _ _ student_found) as [Hrow Hpk].
  destruct (get_Ok _ _ _ course_row) as [_ Hcid].
  unfold unenrollSelf, dispatch. simpl StudentViewSet.get_permissions.
  rewrite has_permission_IsAuthenticated, authenticated.
  unfold StudentViewSet.unenroll, query, execute, mbind, M_bind, mret, M_ret.
  rewrite (StudentViewSet_get_object_Ok _ "unenroll" request pk db student)
    by (done || set_solver).
  rewrite yourself.
  rewrite (is_valid_course_id _ db _ course_id course) by done.
  rewrite course_row.
  pose proof (student_in_course_students db course student Hrow) as Hedge.
  rewrite Hcid, Hpk in Hedge. rewrite Hpk.
  destruct (decide ((course_id, pk) ∈ course_students db)) as [Hin | Hout].
  - rewrite (bool_decide_true (_ ∈ course_students db)) by done.
    rewrite bool_decide_false; [done|]. intros Hno. by apply Hno, Hedge.
  - rewrite (bool_decide_false (_ ∈ course_students db)) by done.
    rewrite bool_decide_true; [done|]. intros Hyes. by apply Hout, Hedge.
Qed.

End EnrollRun.

(** The store after an enrollment call answers the detail lookup as the
    store before did: the call leaves the Student table alone. *)
Lemma finds_student_after filter_queryset request db db' pk student :
  Student_objects db' = Student_objects db →
  finds filter_queryset request (Student_objects db)
    (λ s, Student.id s = pk) student →
  finds filter_queryset request (Student_objects db')
    (λ s, Student.id s = pk) student.
Proof. by intros ->. Qed.

(** C7: for a request whose lookup finds the Student of the URL, that passes
    the ownership guard and names an existing course, [enroll] answers
    "Already enrolled in this course" exactly when the edge is in the
    many-to-many table, and then leaves the store as it was; otherwise it
    adds the edge, and a second [enroll] on the resulting store answers
    "Already enrolled in this course".  [unenroll] answers "Not enrolled in
    this course" exactly when the edge is not in the table, and then leaves
    the store as it was; otherwise it removes the edge. *)
Theorem enroll_unenroll_conflicts
    (filter_queryset :
       gmap string string → list Student.t → result (list Student.t))
    (int_of_string : string → Z + string)
    (db : Database) (request : Request.t)
    (pk course_id : Z) (student : Student.t) (course : Course.t) :
  User.is_authenticated (Request.user request) = true →
  finds filter_queryset request (Student_objects db)
    (λ s, Student.id s = pk) student →
  StudentViewSet.not_yourself request student = false →
  IntegerField int_of_string <$> Request.data request !! "course_id"
    = Some (inl course_id) →
  Course_objects_get_id db course_id = Ok course →
  let enrollSelf := enrollSelf filter_queryset int_of_string in
  let unenrollSelf := unenrollSelf filter_queryset int_of_string in
  let AlreadyEnrolled :=
    Response (Detail "Already enrolled in this course") HTTP_400_BAD_REQUEST in
  let NotEnrolled :=
    Response (Detail "Not enrolled in this course") HTTP_400_BAD_REQUEST in
  ((enrollSelf request pk db).1 = Ok AlreadyEnrolled
   ↔ (course_id, pk) ∈ course_students db)
  ∧ ((course_id, pk) ∈ course_students db →
     enrollSelf request pk db = (Ok AlreadyEnrolled, db))
  ∧ ((course_id, pk) ∉ course_students db →
     ∃ db',
       enrollSelf request pk db =
         (Ok (Response
                (Detail ("Successfully enrolled in " +:+ Course.name course))
                HTTP_200_OK), db')
       ∧ course_students db' = {[ (course_id, pk) ]} ∪ course_students db
       ∧ enrollSelf request pk db' = (Ok AlreadyEnrolled, db'))
  ∧ ((unenrollSelf request pk db).1 = Ok NotEnrolled
     ↔ (course_id, pk) ∉ course_students db)
  ∧ ((course_id, pk) ∉ course_students db →
     unenrollSelf request pk db = (Ok NotEnrolled, db))
  ∧ ((course_id, pk) ∈ course_students db →
     ∃ db',
       unenrollSelf request pk db =
         (Ok (Response
                (Detail ("Successfully unenrolled from " +:+ Course.name course))
                HTTP_200_OK), db')
       ∧ course_students db' = course_students db ∖ {[ (course_id, pk) ]}).
Proof.
  intros Hauth Hstudent Hself Hdata Hcourse enroll' unenroll'
    AlreadyEnrolled NotEnrolled. subst enroll' unenroll'.
  pose proof (enrollSelf_run filter_queryset int_of_string db request pk
                course_id student course
                Hauth Hstudent Hself Hdata Hcourse) as Henroll.
  pose proof (unenrollSelf_run filter_queryset int_of_string db request pk
                course_id student course
                Hauth Hstudent Hself Hdata Hcourse) as Hunenroll.
  destruct (finds_row _ _ _ _ _ Hstudent) as [_ Hpk].
  destruct (get_Ok _ _ _ Hcourse) as [_ Hcid].
  repeat split.
  - rewrite Henroll. case_bool_decide; [done|]. simpl. intros [=].
  - intros Hin. rewrite Henroll. by rewrite bool_decide_true.
  - intros Hin. rewrite Henroll. by rewrite bool_decide_true.
  - intros Hout. exists (course_students_add course student db).
    split; [by rewrite Henroll, bool_decide_false|].
    split; [simpl; by rewrite Hcid, Hpk|].
    rewrite (enrollSelf_run filter_queryset int_of_string
               (course_students_add course student db) request pk
               course_id student course) by done.
    rewrite bool_decide_true; [done|]. simpl. rewrite Hcid, Hpk. set_solver.
  - rewrite Hunenroll. case_bool_decide; [|done]. simpl. intros [=].
  - intros Hout. rewrite Hunenroll. by rewrite bool_decide_false.
  - intros Hout. rewrite Hunenroll. by rewrite bool_decide_false.
  - intros Hin. exists (course_students_remove course student db).
    split; [by rewrite Hunenroll, bool_decide_true|].
    simpl. by rewrite Hcid, Hpk.
Qed.


(** For a lecturer or an admin the guard fires on every student record that
    is not linked to the principal's own account. *)
Lemma not_yourself_other_role request profile student :
  User.profile (Request.user request) = Some profile →
  Profile.role profile ≠ "student" →
  Student.user student ≠ User.id (Request.user request) →
  StudentViewSet.not_yourself request student = true.
Proof.
  intros Hprofile Hrole Huser. unfold StudentViewSet.not_yourself.
  rewrite Hprofile. by rewrite !bool_decide_true.
Qed.

(** C2: the student Alice enrolls the student Bob in CS102 and unenrolls
    herself from nothing: her [enroll] on Bob's record is answered 200 and
    adds Bob's edge, and Bob's [unenroll] on Alice's record is answered 200
    and removes Alice's edge; neither request is answered 403.  The requests
    carry no query parameters, so the filter backends give the queryset as
    it is. *)
Theorem enroll_on_another_student_succeeds :
  let enrollSelf := enrollSelf Sample.unfiltered Sample.int_of_string in
  let unenrollSelf := unenrollSelf Sample.unfiltered Sample.int_of_string in
  let enroll_bob := Sample.POST Sample.alice_user {[ "course_id" := Int 20 ]} in
  let unenroll_alice := Sample.POST Sample.bob_user {[ "course_id" := Int 10 ]} in
  Student.user Sample.bob ≠ User.id Sample.alice_user
  ∧ has_role Sample.alice_user ["lecturer"; "admin"] = false
  ∧ ((20, 2) ∉ course_students Sample.db)
  ∧ (enrollSelf enroll_bob 2 Sample.db).1 =
      Ok (Response (Detail "Successfully enrolled in CS102") HTTP_200_OK)
  ∧ (20, 2) ∈ course_students (enrollSelf enroll_bob 2 Sample.db).2
  ∧ Student.user Sample.alice ≠ User.id Sample.bob_user
  ∧ (10, 1) ∈ course_students Sample.db
  ∧ (unenrollSelf unenroll_alice 1 Sample.db).1 =
      Ok (Response (Detail "Successfully unenrolled from CS101") HTTP_200_OK)
  ∧ (10, 1) ∉ course_students (unenrollSelf unenroll_alice 1 Sample.db).2.
Proof.
  repeat split; try done; by vm_compute.
Qed.

(** ** The GPA view *)

(** C3 as stated fails: the student Alice reads the GPA of the student Bob;
    she is neither Bob nor a lecturer or admin, and the answer is 200 with
    Bob's figures.  The request carries no query parameters, so the filter
    backends give the queryset as it is. *)
Lemma getStudentGpa_of_another_student :
  Student.user Sample.bob ≠ User.id Sample.alice_user
  ∧ has_role Sample.alice_user ["lecturer"; "admin"] = false
  ∧ User.is_authenticated Sample.alice_user = true
  ∧ (getStudentGpa Sample.unfiltered Sample.calculate_gpa Sample.calculate_gpa
       (Sample.GET Sample.alice_user) 2 Sample.db).1 =
    Ok (Response (Gpa 2 "Bob" (7 # 2) (7 # 2)) HTTP_200_OK).
Proof. repeat split; try done; by vm_compute. Qed.

(** C3 (as the code has it): [getStudentGpa] answers every authenticated
    principal whose lookup finds the student (the row with the id of the URL
    is in the queryset the filter backends leave for the request's query
    parameters) with the student's gpa and cgpa, whatever the principal's
    role and whoever the student is; a request that is not authenticated is
    answered 401. *)
Theorem getStudentGpa_any_authenticated
    (filter_queryset :
       gmap string string → list Student.t → result (list Student.t))
    (calculate_gpa calculate_cgpa : Database → Student.t → Q)
    (db : Database) (request : Request.t) (pk : Z) (student : Student.t) :
  finds filter_queryset request (Student_objects db)
    (λ s, Student.id s = pk) student →
  getStudentGpa filter_queryset calculate_gpa calculate_cgpa request pk db =
  if User.is_authenticated (Request.user request)
  then (Ok (Response
              (Gpa (Student.id student) (Student.name student)
                 (calculate_gpa db student) (calculate_cgpa db student))
              HTTP_200_OK), db)
  else (Ok (Response (Detail "Authentication credentials were not provided.")
              HTTP_401_UNAUTHORIZED), db).
Proof.
  intros Hstudent. unfold getStudentGpa, dispatch.
  simpl StudentViewSet.get_permissions.
  rewrite has_permission_IsAuthenticated.
  destruct (User.is_authenticated _); [|done].
  unfold StudentViewSet.gpa, query, mbind, M_bind, mret, M_ret.
  rewrite (StudentViewSet_get_object_Ok _ "gpa" request pk db student)
    by (done || set_solver).
  done.
Qed.

(** ** Review creation *)

Lemma save_student_kwarg validated_data student db :
  CourseReviewSerializer.save validated_data {[ "student" := FStudent student ]} db
  = match validated_data !! "course", validated_data !! "rating",
          validated_data !! "comment" with
    | Some (FCourse course), Some (FInt rating), Some (FStr comment) =>
        let instance := created_review db student course rating comment in
        (Ok instance,
         {| Student_objects := Student_objects db;
            Course_objects := Course_objects db;
            Grade_objects := Grade_objects db;
            CourseReview_objects := CourseReview_objects db ++ [instance];
            CourseReview_sequence := CourseReview.id instance;
            course_students := course_students db |})
    | _, _, _ => (Raise IntegrityError, db)
    end.
Proof.
  unfold CourseReviewSerializer.save, CourseReview_objects_create.
  rewrite <- insert_union_singleton_l.
  rewrite lookup_insert_eq, !lookup_insert_ne by done.
  destruct (validated_data !! "course") as [[]|]; done.
Qed.

Lemma createReview_inv run_fields request db review status db' :
  createReview run_fields request db = (Ok (Response (Review review) status), db') →
  ∃ student,
    Student_objects_get_user db (Request.user request) = Ok student
    ∧ CourseReview.student review = Student.id student.
Proof.
  unfold createReview, dispatch.
  destruct (check_permissions _ request) as [[]|e].
  2:{ destruct e; simpl; intros; simplify_eq. }
  unfold CourseReviewViewSet.create, CourseReviewViewSet.perform_create,
    query, mbind, M_bind, mret, M_ret.
  destruct (CourseReviewSerializer.is_valid _ _ _) as [validated_data|e].
  2:{ destruct e; simpl; intros; simplify_eq. }
  destruct (Student_objects_get_user db _) as [student|e].
  2:{ destruct e; simpl; intros; simplify_eq. }
  rewrite save_student_kwarg.
  destruct (validated_data !! "course") as [[]|];
    destruct (validated_data !! "rating") as [[]|];
    destruct (validated_data !! "comment") as [[]|];
    simpl; intros; simplify_eq.
  by exists student.
Qed.

(** C5: a review created by a student principal with a linked Student has
    that Student as its [student], whatever the validated data holds under
    "student"; and any request of the same principal on the same store,
    whatever its body, that creates a review creates it for the same
    Student. *)
Theorem createReview_student_is_principal
    (run_fields : Database → gmap string value → result (gmap string field_value))
    (db : Database) (request : Request.t) (profile : Profile.t)
    (student : Student.t) (validated_data : gmap string field_value)
    (course : Course.t) (rating : Z) (comment : string) :
  User.is_authenticated (Request.user request) = true →
  User.profile (Request.user request) = Some profile →
  Profile.role profile = "student" →
  Student_objects_get_user db (Request.user request) = Ok student →
  CourseReviewSerializer.is_valid run_fields db (Request.data request)
    = Ok validated_data →
  validated_data !! "course" = Some (FCourse course) →
  validated_data !! "rating" = Some (FInt rating) →
  validated_data !! "comment" = Some (FStr comment) →
  ∃ review db',
    createReview run_fields request db =
      (Ok (Response (Review review) HTTP_201_CREATED), db')
    ∧ CourseReview.student review = Student.id student
    ∧ CourseReview_objects db' = (CourseReview_objects db ++ [review])%list
    ∧ ∀ request' review' status' db'',
        Request.user request' = Request.user request →
        createReview run_fields request' db =
          (Ok (Response (Review review') status'), db'') →
        CourseReview.student review' = CourseReview.student review.
Proof.
  intros Hauth Hprofile Hrole Hstudent Hvalid Hcourse Hrating Hcomment.
  exists (created_review db student course rating comment). eexists.
  split; [|split; [reflexivity|split]].
  - unfold createReview, dispatch. simpl CourseReviewViewSet.get_permissions.
    unfold check_permissions, has_permission, has_role. simpl forallb.
    rewrite Hauth, Hprofile, Hrole. simpl.
    unfold CourseReviewViewSet.create, CourseReviewViewSet.perform_create,
      query, mbind, M_bind, mret, M_ret.
    rewrite Hvalid, Hstudent, save_student_kwarg, Hcourse, Hrating, Hcomment.
    reflexivity.
  - reflexivity.
  - intros request' review' status' db'' Huser Hcreate.
    apply createReview_inv in Hcreate as (student' & Hstudent' & ->).
    rewrite Huser, Hstudent in Hstudent'. by simplify_eq.
Qed.
(** ** The students of a course *)

Lemma dict_set_keys {V} (k : Z) (v : V) (d : list (Z * V)) :
  (dict_set k v d).*1
  = if bool_decide (k ∈ d.*1) then d.*1 else (d.*1 ++ [k])%list.
Proof.
  induction d as [|[k' v'] d IH]; [done|].
  cbn [dict_set]. rewrite fmap_cons. cbn [fst].
  destruct (decide (k' = k)) as [->|Hne].
  - rewrite (bool_decide_true (k = k)) by done.
    rewrite bool_decide_true by set_solver. done.
  - rewrite (bool_decide_false (k' = k)) by done.
    rewrite fmap_cons, IH. cbn [fst].
    destruct (decide (k ∈ d.*1)).
    + rewrite !bool_decide_true by set_solver. done.
    + rewrite !bool_decide_false by set_solver. done.
Qed.

Lemma dict_set_elem {V} (k : Z) (v : V) (d : list (Z * V)) (kv : Z * V) :
  kv ∈ dict_set k v d → kv = (k, v) ∨ kv ∈ d.
Proof.
  induction d as [|[k' v'] d IH]; simpl.
  - set_solver.
  - case_bool_decide; set_solver.
Qed.

(** The dict of a comprehension over [l], started from the items [d]. *)
Lemma dict_fold_spec {V} (key : V → Z) (l : list V) (d : list (Z * V)) :
  let d' := fold_left (λ d x, dict_set (key x) x d) l d in
  (NoDup d.*1 → NoDup d'.*1)
  ∧ (∀ k, k ∈ d'.*1 ↔ k ∈ d.*1 ∨ k ∈ key <$> l)
  ∧ (∀ kv, kv ∈ d' → kv ∈ d ∨ (kv.2 ∈ l ∧ kv.1 = key kv.2)).
Proof.
  revert d. induction l as [|x l IH]; intros d; simpl.
  - set_solver.
  - destruct (IH (dict_set (key x) x d)) as (Hnodup & Hkeys & Hitems).
    split; [|split].
    + intros Hd. apply Hnodup. rewrite dict_set_keys.
      case_bool_decide; [done|].
      apply NoDup_app. split; [done|]. split; [set_solver|].
      apply NoDup_singleton.
    + intros k. rewrite Hkeys, dict_set_keys.
      case_bool_decide; set_solver.
    + intros kv [Hin | Hin]%Hitems; [|set_solver].
      apply dict_set_elem in Hin as [-> | Hin]; set_solver.
Qed.

Lemma dict_comprehension_spec {V} (key : V → Z) (l : list V) :
  let students := values (dict_comprehension key l) in
  NoDup (key <$> students)
  ∧ (∀ k, k ∈ key <$> students ↔ k ∈ key <$> l)
  ∧ students ⊆ l.
Proof.
  destruct (dict_fold_spec key l []) as (Hnodup & Hkeys & Hitems).
  fold (dict_comprehension key l) in Hnodup, Hkeys, Hitems.
  assert (Hkeyed : key <$> values (dict_comprehension key l)
                   = (dict_comprehension key l).*1).
  { unfold values. rewrite <- list_fmap_compose.
    apply Forall_fmap_ext_1, Forall_forall. intros kv Hin.
    apply Hitems in Hin as [Hin | [_ Hkey]]; [set_solver|]. done. }
  simpl. rewrite Hkeyed. split; [|split].
  - apply Hnodup. constructor.
  - intros k. rewrite Hkeys. set_solver.
  - intros v (kv & -> & Hin)%list_elem_of_fmap.
    apply Hitems in Hin as [Hin | [Hin _]]; [set_solver | done].
Qed.

Lemma mapM_result_Ok {A B} (f : A → result B) (l : list A) :
  (∀ x, x ∈ l → ∃ y, f x = Ok y) →
  ∃ ys, mapM f l = Ok ys ∧ Forall2 (λ x y, f x = Ok y) l ys.
Proof.
  induction l as [|x l IH]; intros Hf.
  - exists []. split; [done | constructor].
  - destruct (Hf x) as [y Hy]; [set_solver|].
    destruct IH as (ys & Hys & Hall); [set_solver|].
    exists (y :: ys). split; [|by constructor].
    cbn [mapM]. fold (mapM f l). rewrite Hy, Hys. done.
Qed.

(** The students fetched through [grade.student] carry the grades' foreign
    keys and are rows of the Student table. *)
Lemma students_from_grades_ids db (grades : list Grade.t)
    (students : list Student.t) :
  Forall2 (λ grade student, Grade_student db grade = Ok student) grades students →
  Student.id <$> students = Grade.student <$> grades
  ∧ students ⊆ Student_objects db.
Proof.
  induction 1 as [|grade student grades students Hget _ [IHid IHin]].
  - split; [done | set_solver].
  - apply get_Ok in Hget as [Hrow Hid].
    split; [by rewrite !fmap_cons, Hid, IHid | set_solver].
Qed.


Lemma CourseViewSet_get_object_Ok filter_queryset action request pk db course :
  finds filter_queryset request (Course_objects db)
    (λ c, Course.id c = pk) course →
  User.is_authenticated (Request.user request) = true →
  action ∉ ["create"; "update"; "partial_update"; "destroy"] →
  CourseViewSet.get_object filter_queryset action request pk db = Ok course.
Proof.
  intros (queryset & Hfilter & _ & Hget) Hauth Haction.
  unfold CourseViewSet.get_object. rewrite Hfilter. cbn [mbind result_bind].
  apply (get_object_or_404_Ok "Course") in Hget. rewrite Hget.
  cbn [mbind result_bind].
  unfold CourseViewSet.get_permissions. rewrite bool_decide_false by done.
  reflexivity.
Qed.

(** C8: [listCourseStudents] for a request whose lookup finds the course of
    the URL, in a store where every grade of the course refers to a Student
    row, answers a list of Student rows in which no student id occurs twice
    and whose ids are exactly the ids of the students with an enrollment
    edge to the course together with the ids of the students with a grade
    for the course: each such id occurs exactly once. *)
Theorem listCourseStudents_union
    (filter_queryset :
       gmap string string → list Course.t → result (list Course.t))
    (db : Database) (request : Request.t) (pk : Z) (course : Course.t) :
  User.is_authenticated (Request.user request) = true →
  finds filter_queryset request (Course_objects db)
    (λ c, Course.id c = pk) course →
  (∀ grade, grade ∈ Grade_objects db → Grade.course grade = pk →
     ∃ student, Grade_student db grade = Ok student) →
  let enrolled (id : Z) :=
    ∃ student, student ∈ Student_objects db ∧ Student.id student = id
               ∧ (pk, id) ∈ course_students db in
  let graded (id : Z) :=
    ∃ grade, grade ∈ Grade_objects db ∧ Grade.course grade = pk
             ∧ Grade.student grade = id in
  ∃ students,
    listCourseStudents filter_queryset request pk db =
      (Ok (Response (Students students) HTTP_200_OK), db)
    ∧ students ⊆ Student_objects db
    ∧ NoDup (Student.id <$> students)
    ∧ (∀ id, id ∈ Student.id <$> students ↔ enrolled id ∨ graded id)
    ∧ (∀ id, enrolled id ∨ graded id →
         count_occ Z.eq_dec (Student.id <$> students) id = 1%nat).
Proof.
  intros Hauth Hcourse Hfk enrolled graded.
  destruct (finds_row _ _ _ _ _ Hcourse) as [_ Hpk].
  destruct (mapM_result_Ok (Grade_student db)
              (filter (λ g, Grade.course g = Course.id course) (Grade_objects db)))
    as (from_grades & HmapM & Hall).
  { intros grade [Hc Hin]%list_elem_of_filter. apply Hfk; congruence. }
  apply students_from_grades_ids in Hall as [Hids Hrows].
  set (from_m2m := course_students_all db course).
  destruct (dict_comprehension_spec Student.id (from_m2m ++ from_grades))
    as (Hnodup & Hkeys & Hsub).
  set (students := values (dict_comprehension Student.id (from_m2m ++ from_grades)))
    in *.
  assert (Hqual : ∀ id, id ∈ Student.id <$> students ↔ enrolled id ∨ graded id).
  { intros id. rewrite Hkeys, fmap_app, elem_of_app, Hids.
    assert (He : id ∈ Student.id <$> from_m2m ↔ enrolled id).
    { unfold from_m2m, course_students_all, enrolled. rewrite list_elem_of_fmap.
      setoid_rewrite list_elem_of_filter. rewrite Hpk.
      split.
      - intros (s & -> & Hedge & Hin). eauto.
      - intros (s & Hin & <- & Hedge). eauto. }
    assert (Hg : id ∈ Grade.student <$>
                   filter (λ g, Grade.course g = Course.id course) (Grade_objects db)
                 ↔ graded id).
    { unfold graded. rewrite list_elem_of_fmap.
      setoid_rewrite list_elem_of_filter. rewrite Hpk.
      split.
      - intros (g & -> & Hc & Hin). eauto.
      - intros (g & Hin & Hc & <-). eauto. }
    tauto. }
  exists students. split; [|split; [|split; [done|split; [done|]]]].
  - unfold listCourseStudents, dispatch. simpl CourseViewSet.get_permissions.
    rewrite has_permission_IsAuthenticated, Hauth.
    unfold CourseViewSet.students, query, mbind, M_bind, mret, M_ret.
    rewrite (CourseViewSet_get_object_Ok _ "students" request pk db course)
      by (done || set_solver).
    rewrite HmapM. reflexivity.
  - intros s Hin%Hsub. apply elem_of_app in Hin as [Hin | Hin]; [|by apply Hrows].
    by apply list_elem_of_filter in Hin as [_ ?].
  - intros id Hid%Hqual.
    apply NoDup_ListNoDup in Hnodup.
    apply (proj1 (NoDup_count_occ' Z.eq_dec _) Hnodup).
    by apply list_elem_of_In.
Qed.

(** The spec's example store: Alice has the enrollment edge, Bob only a
    grade, and each is listed once. *)
Example listCourseStudents_example :
  (listCourseStudents Sample.unfiltered (Sample.GET Sample.carol_user) 10
     Sample.db).1 =
  Ok (Response (Students [Sample.alice; Sample.bob]) HTTP_200_OK).
Proof. by vm_compute. Qed.

(** ** Grade point average *)

Lemma weighted_points_sum (grades : list GradeEntry.t) :
  weighted_points grades
  = fold_right Qplus 0%Q
      (map (λ g, (GradeEntry.grade_point g
                  * inject_Z (Z.pos (GradeEntry.credit_units g)))%Q)
         grades).
Proof.
  induction grades as [|g grades IH]; [done|].
  cbn [weighted_points foldr map fold_right].
  fold (weighted_points grades). by rewrite IH.
Qed.

Lemma total_credits_sum (grades : list GradeEntry.t) :
  total_credits grades
  = fold_right Z.add 0 (map (λ g, Z.pos (GradeEntry.credit_units g)) grades).
Proof.
  induction grades as [|g grades IH]; [done|].
  cbn [total_credits foldr map fold_right].
  fold (total_credits grades). by rewrite IH.
Qed.

Lemma total_credits_pos (grades : list GradeEntry.t) :
  grades ≠ [] → 0 < total_credits grades.
Proof.
  induction grades as [|g grades IH]; [done|]. intros _.
  cbn [total_credits foldr]. fold (total_credits grades).
  destruct grades as [|g' grades]; [simpl; lia|].
  assert (0 < total_credits (g' :: grades)) by by apply IH. lia.
Qed.

Lemma divide_nonzero (n : Q) (d : Z) :
  0 < d → divide n (inject_Z d) = Ok (n / inject_Z d)%Q.
Proof.
  intros Hd. unfold divide.
  destruct (Qeq_bool (inject_Z d) 0) eqn:Hzero; [|done].
  apply Qeq_bool_iff in Hzero. unfold Qeq in Hzero. simpl in Hzero. lia.
Qed.

(** C9: [compute_gpa] returns the defined sentinel for the empty grade set
    and, for a non-empty set, the sum over the grades of grade point times
    credit units divided by the sum over the grades of credit units, a
    divisor that is positive; on no grade set does it raise
    [ZeroDivisionError]. *)
Theorem compute_gpa_weighted_mean (defined_empty_value : Q)
    (grades : list GradeEntry.t) :
  let points :=
    fold_right Qplus 0%Q
      (map (λ g, (GradeEntry.grade_point g
                  * inject_Z (Z.pos (GradeEntry.credit_units g)))%Q)
         grades) in
  let credits :=
    fold_right Z.add 0 (map (λ g, Z.pos (GradeEntry.credit_units g)) grades) in
  (grades = [] → compute_gpa defined_empty_value grades = Ok defined_empty_value)
  ∧ (grades ≠ [] →
     compute_gpa defined_empty_value grades = Ok (points / inject_Z credits)%Q
     ∧ 0 < credits)
  ∧ compute_gpa defined_empty_value grades ≠ Raise ZeroDivisionError.
Proof.
  intros points credits. subst points credits.
  rewrite <- weighted_points_sum, <- total_credits_sum.
  assert (Hmean : grades ≠ [] →
    compute_gpa defined_empty_value grades =
      Ok (weighted_points grades / inject_Z (total_credits grades))%Q).
  { intros Hne. pose proof (total_credits_pos grades Hne) as Htotal.
    destruct grades as [|g grades]; [done|].
    unfold compute_gpa. by apply divide_nonzero. }
  split; [by intros ->|]. split.
  - intros Hne. split; [by apply Hmean | by apply total_credits_pos].
  - destruct grades as [|g grades]; [done|]. by rewrite Hmean.
Qed.

(** The spec's example: 3 credit units at 4.0 and 4 credit units at 3.0 give
    24/7. *)
Example compute_gpa_example :
  ∃ gpa,
    compute_gpa 0
      [ {| GradeEntry.grade_point := 4; GradeEntry.credit_units := 3 |};
        {| GradeEntry.grade_point := 3; GradeEntry.credit_units := 4 |} ]
    = Ok gpa
    ∧ (gpa == 24 # 7)%Q.
Proof. eexists. split; [reflexivity | by vm_compute]. Qed.

(** * The theorems at work on the example store *)

Lemma all_rows_subseteq {A} (query_params : gmap string string)
    (queryset : list A) :
  Sample.all_rows query_params queryset ⊆ queryset.
Proof. unfold Sample.all_rows. intros x Hx. exact Hx. Defined.

(** Without query parameters the filter backends leave the queryset as it
    is, and the lookup is the one on the table. *)
Lemma finds_unfiltered {A} (request : Request.t) (table : list A)
    (P : A → Prop) `{∀ x, Decision (P x)} (obj : A) :
  get P table = Ok obj → finds Sample.unfiltered request table P obj.
Proof.
  intros Hget. exists table. split; [reflexivity|]. split; [|exact Hget].
  intros x Hx. exact Hx.
Defined.

(** The three remarks: Alice has one grade, with status NP; Bob has a grade
    with another status; a student with id 3 has no grade. *)
Lemma semester_remark_cases_witness :
  StudentDetailSerializer.get_semester_remark Sample.db Sample.alice
    = "Normal Progress"
  ∧ StudentDetailSerializer.get_semester_remark Sample.db Sample.bob
    = "Attention Needed"
  ∧ StudentDetailSerializer.get_semester_remark Sample.db
      {| Student.id := 3; Student.user := 16; Student.name := "Gus";
         Student.email := "gus@example.org" |}
    = "No grades yet".
Proof.
  split; [|split].
  - destruct (semester_remark_cases Sample.db Sample.alice)
      as (_ & Hnormal & _).
    apply Hnormal; [discriminate|].
    intros grade Hin. apply list_elem_of_In in Hin.
    destruct Hin as [<- | []]. reflexivity.
  - destruct (semester_remark_cases Sample.db Sample.bob)
      as (_ & _ & Hattention).
    apply Hattention; [discriminate|].
    exists {| Grade.id := 3; Grade.student := 2; Grade.course := 20;
              Grade.np_status := "PP" |}.
    split; [|discriminate].
    apply list_elem_of_In. right. left. reflexivity.
  - destruct (semester_remark_cases Sample.db
                {| Student.id := 3; Student.user := 16; Student.name := "Gus";
                   Student.email := "gus@example.org" |})
      as (Hnone & _).
    apply Hnone. reflexivity.
Defined.

(** Alice lists the grades: each row of the page is a grade of hers. *)
Lemma listGrades_student_only_own_witness :
  ∃ page,
    listGrades Sample.all_rows Sample.all_rows
      (Sample.GET Sample.alice_user) Sample.db =
      (Ok (Response (Grades page) HTTP_200_OK), Sample.db)
    ∧ ∀ grade, grade ∈ page → Grade.student grade = 1.
Proof.
  destruct (listGrades_student_only_own Sample.all_rows Sample.all_rows
              Sample.db (Sample.GET Sample.alice_user)
              {| Profile.role := "student"; Profile.name := "Alice" |}
              Sample.alice)
    as (page & Hrun & Hown & _);
    [apply all_rows_subseteq | apply all_rows_subseteq
    | reflexivity | reflexivity | reflexivity | reflexivity |].
  exists page. split; [exact Hrun|].
  intros grade Hin. exact (proj2 (Hown grade Hin)).
Defined.

(** Carol lists the grades: each row is a grade for a course she lectures. *)
Lemma lecturer_rows_of_own_courses_witness :
  ∃ page,
    listGrades Sample.all_rows Sample.all_rows
      (Sample.GET Sample.carol_user) Sample.db =
      (Ok (Response (Grades page) HTTP_200_OK), Sample.db)
    ∧ ∀ grade, grade ∈ page →
        ∃ course, course ∈ Course_objects Sample.db
                  ∧ Course.id course = Grade.course grade
                  ∧ Course.lecturer course = "Carol".
Proof.
  destruct (lecturer_rows_of_own_courses Sample.all_rows Sample.all_rows
              Sample.all_rows Sample.all_rows
              Sample.db (Sample.GET Sample.carol_user)
              {| Profile.role := "lecturer"; Profile.name := "Carol" |})
    as [Hlecturer _];
    [apply all_rows_subseteq | apply all_rows_subseteq
    | apply all_rows_subseteq | apply all_rows_subseteq
    | reflexivity | reflexivity |].
  exact (proj1 (Hlecturer eq_refl)).
Defined.

(** Erin, who has no Profile, gets the whole grade table, as the admin Dave
    does. *)
Lemma no_profile_sees_all_rows_witness :
  GradeViewSet.get_queryset (Sample.GET Sample.erin_user) Sample.db
    = Ok Sample.grades
  ∧ listGrades Sample.all_rows Sample.all_rows
      (Sample.GET Sample.erin_user) Sample.db
    = listGrades Sample.all_rows Sample.all_rows
        (Sample.GET Sample.dave_user) Sample.db.
Proof.
  destruct (no_profile_sees_all_rows Sample.all_rows Sample.all_rows
              Sample.all_rows Sample.all_rows Sample.db
              (Sample.GET Sample.erin_user) (Sample.GET Sample.dave_user)
              {| Profile.role := "admin"; Profile.name := "Dave" |})
    as (Hqueryset & _ & _ & _ & Hsame & _);
    [reflexivity | reflexivity | reflexivity | reflexivity | reflexivity
    | reflexivity |].
  split; [exact Hqueryset | exact Hsame].
Defined.

(** Alice enrolls herself in CS102, where she has no edge yet: the edge is
    added and a second call is refused. *)
Lemma enroll_unenroll_conflicts_witness :
  let request := Sample.POST Sample.alice_user {[ "course_id" := Int 20 ]} in
  ∃ db',
    enrollSelf Sample.unfiltered Sample.int_of_string request 1 Sample.db =
      (Ok (Response (Detail "Successfully enrolled in CS102") HTTP_200_OK), db')
    ∧ course_students db' = {[ (20, 1) ]} ∪ course_students Sample.db
    ∧ enrollSelf Sample.unfiltered Sample.int_of_string request 1 db' =
        (Ok (Response (Detail "Already enrolled in this course")
               HTTP_400_BAD_REQUEST), db').
Proof.
  intros request.
  destruct (enroll_unenroll_conflicts Sample.unfiltered Sample.int_of_string
              Sample.db request 1 20 Sample.alice Sample.cs102)
    as (_ & _ & Hadd & _);
    [reflexivity | by apply finds_unfiltered | reflexivity | by vm_compute
    | reflexivity |].
  apply Hadd. by vm_compute.
Defined.

(** The lecturer Carol reads Alice's GPA. *)
Lemma getStudentGpa_any_authenticated_witness :
  getStudentGpa Sample.unfiltered Sample.calculate_gpa Sample.calculate_gpa
    (Sample.GET Sample.carol_user) 1 Sample.db =
  (Ok (Response (Gpa 1 "Alice" (7 # 2) (7 # 2)) HTTP_200_OK), Sample.db).
Proof.
  exact (getStudentGpa_any_authenticated Sample.unfiltered
           Sample.calculate_gpa Sample.calculate_gpa Sample.db
           (Sample.GET Sample.carol_user) 1 Sample.alice
           (finds_unfiltered (Sample.GET Sample.carol_user)
              (Student_objects Sample.db) (λ s, Student.id s = 1)
              Sample.alice eq_refl)).
Defined.

(** Alice posts a review of CS102 whose body names Bob as the student: the
    review is created for Alice. *)
Lemma createReview_student_is_principal_witness :
  let request :=
    Sample.POST Sample.alice_user
      (<["course" := Int 20]> (<["student" := Int 2]>
         (<["rating" := Int 4]> {[ "comment" := Str "Solid" ]}))) in
  ∃ review db',
    createReview Sample.run_fields request Sample.db =
      (Ok (Response (Review review) HTTP_201_CREATED), db')
    ∧ CourseReview.student review = 1.
Proof.
  intros request.
  destruct (createReview_student_is_principal Sample.run_fields Sample.db
              request {| Profile.role := "student"; Profile.name := "Alice" |}
              Sample.alice
              (<["course" := FCourse Sample.cs102]>
                 (<["student" := FStudent Sample.bob]>
                    (<["rating" := FInt 4]> {[ "comment" := FStr "Solid" ]})))
              Sample.cs102 4 "Solid")
    as (review & db' & Hrun & Hstudent & _);
    [reflexivity | reflexivity | reflexivity | reflexivity | by vm_compute
    | by vm_compute | by vm_compute | by vm_compute |].
  exists review, db'. split; [exact Hrun | exact Hstudent].
Defined.

(** The students of CS101: the ids 1 (enrolled) and 2 (graded), once each. *)
Lemma listCourseStudents_union_witness :
  ∃ students,
    listCourseStudents Sample.unfiltered (Sample.GET Sample.alice_user) 10
      Sample.db =
      (Ok (Response (Students students) HTTP_200_OK), Sample.db)
    ∧ NoDup (Student.id <$> students).
Proof.
  destruct (listCourseStudents_union Sample.unfiltered Sample.db
              (Sample.GET Sample.alice_user) 10 Sample.cs101)
    as (students & Hrun & _ & Hnodup & _);
    [reflexivity | by apply finds_unfiltered | |].
  - intros grade Hin Hcourse. unfold Sample.db, Sample.grades in Hin.
    cbn [Grade_objects] in Hin.
    apply list_elem_of_In in Hin.
    destruct Hin as [<- | [<- | [<- | []]]].
    + exists Sample.alice. reflexivity.
    + exists Sample.bob. reflexivity.
    + exists Sample.bob. reflexivity.
  - exists students. split; [exact Hrun | exact Hnodup].
Defined.

(** The spec's two grades: the GPA is 24 over 7 and the divisor is 7. *)
Lemma compute_gpa_weighted_mean_witness :
  let grades :=
    [ {| GradeEntry.grade_point := 4; GradeEntry.credit_units := 3 |};
      {| GradeEntry.grade_point := 3; GradeEntry.credit_units := 4 |} ] in
  compute_gpa 0 grades = Ok ((4 * 3 + (3 * 4 + 0)) / inject_Z (3 + (4 + 0)))%Q.
Proof.
  intros grades.
  destruct (compute_gpa_weighted_mean 0 grades) as (_ & Hmean & _).
  apply Hmean. discriminate.
Defined.

(** * Further properties *)

(** ** Permission classes *)

Lemma has_role_singleton user role :
  has_role user [role] = true ↔
  ∃ profile, User.profile user = Some profile ∧ Profile.role profile = role.
Proof.
  unfold has_role. destruct (User.profile user) as [profile|].
  - rewrite bool_decide_eq_true, list_elem_of_singleton. naive_solver.
  - naive_solver.
Qed.

Lemma has_role_lecturer_admin user :
  has_role user ["lecturer"; "admin"] = true ↔
  ∃ profile, User.profile user = Some profile
             ∧ (Profile.role profile = "lecturer" ∨ Profile.role profile = "admin").
Proof.
  unfold has_role. destruct (User.profile user) as [profile|].
  - rewrite bool_decide_eq_true. set_unfold. naive_solver.
  - naive_solver.
Qed.

(** X1: the role permissions partition the principals: [IsLecturerOrAdmin]
    is [IsLecturer] or [IsAdmin]; no request passes two of [IsStudent],
    [IsLecturer] and [IsAdmin]; each of them requires authentication; and an
    account without a Profile passes none of them. *)
Theorem role_permissions_partition (request : Request.t) :
  has_permission IsLecturerOrAdmin request =
    has_permission IsLecturer request || has_permission IsAdmin request
  ∧ ¬ (has_permission IsStudent request = true
       ∧ has_permission IsLecturer request = true)
  ∧ ¬ (has_permission IsStudent request = true
       ∧ has_permission IsAdmin request = true)
  ∧ ¬ (has_permission IsLecturer request = true
       ∧ has_permission IsAdmin request = true)
  ∧ (∀ perm, perm ≠ IsOwnerOrReadOnly → has_permission perm request = true →
       User.is_authenticated (Request.user request) = true)
  ∧ (User.profile (Request.user request) = None →
       ∀ perm, perm ∈ [IsStudent; IsLecturer; IsAdmin; IsLecturerOrAdmin] →
         has_permission perm request = false).
Proof.
  assert (Hexcl : ∀ r1 r2 : string, r1 ≠ r2 →
    ¬ (has_role (Request.user request) [r1] = true
       ∧ has_role (Request.user request) [r2] = true)).
  { intros r1 r2 Hne [(p1 & Hp1 & <-)%has_role_singleton
                      (p2 & Hp2 & <-)%has_role_singleton].
    congruence. }
  split; [|split; [|split; [|split; [|split]]]].
  - unfold has_permission, has_role.
    destruct (User.is_authenticated _); [|done]. simpl.
    destruct (User.profile _) as [profile|]; [|done].
    repeat case_bool_decide; set_unfold; naive_solver.
  - unfold has_permission. intros [[_ H1]%andb_true_iff [_ H2]%andb_true_iff].
    by apply (Hexcl "student" "lecturer").
  - unfold has_permission. intros [[_ H1]%andb_true_iff [_ H2]%andb_true_iff].
    by apply (Hexcl "student" "admin").
  - unfold has_permission. intros [[_ H1]%andb_true_iff [_ H2]%andb_true_iff].
    by apply (Hexcl "lecturer" "admin").
  - intros perm Hperm. unfold has_permission.
    destruct perm; try done; by intros [? _]%andb_true_iff.
  - intros Hnone perm Hin. unfold has_permission, has_role. rewrite Hnone.
    apply list_elem_of_In in Hin. simpl in Hin.
    destruct Hin as [<- | [<- | [<- | [<- | []]]]]; apply andb_false_r.
Qed.

(** X2: [IsStudentOrReadOnly] lies between [IsStudent] and
    [IsAuthenticated]: whoever passes [IsStudent] passes it, whoever passes
    it is authenticated, and on a method that is not safe it is [IsStudent];
    on an object, a method that is not safe passes exactly when the object
    has a [user] and it is the requesting account. *)
Theorem IsStudentOrReadOnly_between (request : Request.t) :
  (has_permission IsStudent request = true →
     IsStudentOrReadOnly.has_permission request = true)
  ∧ (IsStudentOrReadOnly.has_permission request = true →
     has_permission IsAuthenticated request = true)
  ∧ (Request.method request ∉ SAFE_METHODS →
     IsStudentOrReadOnly.has_permission request
     = has_permission IsStudent request)
  ∧ (Request.method request ∉ SAFE_METHODS →
     ∀ obj_user,
       IsStudentOrReadOnly.has_object_permission request obj_user = true
       ↔ obj_user = Some (User.id (Request.user request))).
Proof.
  unfold IsStudentOrReadOnly.has_permission.
  split; [|split; [|split]].
  - intros Hstudent. case_bool_decide; [|done].
    unfold has_permission in Hstudent. by apply andb_true_iff in Hstudent as [? _].
  - case_bool_decide; [done|].
    unfold has_permission. by intros [? _]%andb_true_iff.
  - intros Hunsafe. by rewrite bool_decide_false.
  - intros Hunsafe obj_user. unfold IsStudentOrReadOnly.has_object_permission.
    rewrite bool_decide_false by done.
    destruct obj_user as [u|]; [|done].
    rewrite bool_decide_eq_true. split; [by intros ->|by intros [= ->]].
Qed.

(** ** Requests that fail the permission checks *)

Lemma check_permissions_denied perms request :
  forallb (λ perm, has_permission perm request) perms = false →
  check_permissions perms request = Raise (permission_denied request).
Proof. intros Hdenied. unfold check_permissions. by rewrite Hdenied. Qed.

(** When a permission class of the action refuses the request, the
    handler does not run: whatever the handler is, the answer is 401 for a
    request that is not authenticated and 403 for one that is, and the store
    is the one before the request. *)
Theorem dispatch_denied_leaves_store (perms : list permission)
    (request : Request.t) (handler : M Response.t) (db : Database) :
  forallb (λ perm, has_permission perm request) perms = false →
  dispatch perms request handler db =
  (Ok (if User.is_authenticated (Request.user request)
       then Response (Detail "You do not have permission to perform this action.")
              HTTP_403_FORBIDDEN
       else Response (Detail "Authentication credentials were not provided.")
              HTTP_401_UNAUTHORIZED), db).
Proof.
  intros Hdenied. unfold dispatch.
  rewrite check_permissions_denied by done. unfold permission_denied.
  by destruct (User.is_authenticated _).
Qed.

Lemma dispatch_denied_leaves_store_witness :
  dispatch (GradeViewSet.get_permissions "destroy")
    (Fixture.DELETE Sample.alice_user)
    (λ db, (Ok (Response (Detail "deleted") HTTP_200_OK),
            CourseReview_delete
              {| CourseReview.id := 1; CourseReview.course := 10;
                 CourseReview.student := 1; CourseReview.rating := 5;
                 CourseReview.comment := "Great" |} db))
    Sample.db
  = (Ok (Response (Detail "You do not have permission to perform this action.")
           HTTP_403_FORBIDDEN), Sample.db).
Proof.
  exact (dispatch_denied_leaves_store (GradeViewSet.get_permissions "destroy")
           (Fixture.DELETE Sample.alice_user) _ Sample.db eq_refl).
Defined.

(** ** Which principal may call which action *)

Lemma check_permissions_Ok perms request :
  check_permissions perms request = Ok () ↔
  ∀ perm, perm ∈ perms → has_permission perm request = true.
Proof.
  unfold check_permissions.
  destruct (forallb _ perms) eqn:Hall.
  - split; [|done]. intros _ perm Hin%list_elem_of_In.
    by apply (proj1 (forallb_forall _ _) Hall).
  - split; [done|]. intros Hperms.
    assert (forallb (λ perm, has_permission perm request) perms = true);
      [|congruence].
    apply forallb_forall. intros perm Hin%list_elem_of_In. auto.
Qed.

Lemma has_permission_IsLecturerOrAdmin request :
  has_permission IsLecturerOrAdmin request = true ↔
  User.is_authenticated (Request.user request) = true
  ∧ ∃ profile, User.profile (Request.user request) = Some profile
      ∧ (Profile.role profile = "lecturer" ∨ Profile.role profile = "admin").
Proof.
  unfold has_permission. by rewrite andb_true_iff, has_role_lecturer_admin.
Qed.

Lemma has_permission_role perm role request :
  (perm, role) ∈ [(IsStudent, "student"); (IsLecturer, "lecturer");
                  (IsAdmin, "admin")] →
  has_permission perm request = true ↔
  User.is_authenticated (Request.user request) = true
  ∧ ∃ profile, User.profile (Request.user request) = Some profile
      ∧ Profile.role profile = role.
Proof.
  intros Hin. apply list_elem_of_In in Hin. simpl in Hin.
  destruct Hin as [[= <- <-] | [[= <- <-] | [[= <- <-] | []]]];
    unfold has_permission; by rewrite andb_true_iff, has_role_singleton.
Qed.

Lemma check_permissions_single perm request :
  check_permissions [perm] request = Ok () ↔ has_permission perm request = true.
Proof. rewrite check_permissions_Ok. set_solver. Qed.

Lemma staff_gate request (gated : Prop) `{!Decision gated} :
  check_permissions
    (if bool_decide gated then [IsLecturerOrAdmin] else [IsAuthenticated])
    request = Ok ()
  ↔ User.is_authenticated (Request.user request) = true
    ∧ (gated →
       ∃ profile, User.profile (Request.user request) = Some profile
                  ∧ Profile.role profile ∈ ["lecturer"; "admin"]).
Proof.
  case_bool_decide as Hgated; rewrite check_permissions_single.
  - rewrite has_permission_IsLecturerOrAdmin. set_unfold. naive_solver.
  - unfold has_permission. naive_solver.
Qed.

(** X3: the permission checks of every action.  In the student, course and
    grade viewsets the actions create, update, partial_update and destroy
    (and list, for students) pass exactly for an authenticated lecturer or
    admin, and every other action, the custom ones included, passes exactly
    for an authenticated request.  A review is created only by an
    authenticated principal of role student, the profiles are listed only by
    one of role admin, and the other actions of these two viewsets need
    authentication alone. *)
Theorem action_permissions (request : Request.t) (action : string) :
  let authenticated := User.is_authenticated (Request.user request) = true in
  let has (roles : list string) :=
    ∃ profile, User.profile (Request.user request) = Some profile
               ∧ Profile.role profile ∈ roles in
  let writes := ["create"; "update"; "partial_update"; "destroy"] in
  (check_permissions (StudentViewSet.get_permissions action) request = Ok ()
   ↔ authenticated ∧ (action ∈ "list" :: writes → has ["lecturer"; "admin"]))
  ∧ (check_permissions (CourseViewSet.get_permissions action) request = Ok ()
     ↔ authenticated ∧ (action ∈ writes → has ["lecturer"; "admin"]))
  ∧ (check_permissions (GradeViewSet.get_permissions action) request = Ok ()
     ↔ authenticated ∧ (action ∈ writes → has ["lecturer"; "admin"]))
  ∧ (check_permissions (CourseReviewViewSet.get_permissions action) request
       = Ok ()
     ↔ authenticated ∧ (action = "create" → has ["student"]))
  ∧ (check_permissions (ProfileViewSet.get_permissions action) request = Ok ()
     ↔ authenticated ∧ (action = "list" → has ["admin"])).
Proof.
  intros authenticated has writes. subst authenticated has writes.
  split; [apply staff_gate|]. split; [apply staff_gate|].
  split; [apply staff_gate|]. split.
  - unfold CourseReviewViewSet.get_permissions.
    case_bool_decide as Haction.
    + rewrite check_permissions_single.
      rewrite (has_permission_role IsStudent "student") by set_solver.
      set_unfold. naive_solver.
    + rewrite check_permissions_Ok. split.
      * intros Hperms. split; [|done].
        apply (Hperms IsAuthenticated). set_solver.
      * intros [Hauth _] perm Hin. apply list_elem_of_In in Hin. simpl in Hin.
        destruct Hin as [<- | [<- | []]]; done.
  - unfold ProfileViewSet.get_permissions.
    case_bool_decide as Haction; rewrite check_permissions_single.
    + rewrite (has_permission_role IsAdmin "admin") by set_solver.
      set_unfold. naive_solver.
    + unfold has_permission. naive_solver.
Qed.

(** ** Enrollment: what a request can change *)

Lemma StudentViewSet_get_object_inv filter_queryset action request pk db student :
  StudentViewSet.get_object filter_queryset action request pk db = Ok student →
  ∃ queryset,
    filter_queryset (Request.query_params request) (Student_objects db)
      = Ok queryset
    ∧ get (λ s, Student.id s = pk) queryset = Ok student.
Proof.
  unfold StudentViewSet.get_object, mbind, result_bind.
  destruct (filter_queryset _ _) as [queryset|e]; [|done].
  destruct (get_object_or_404 _ _ _) as [obj|e] eqn:Hobj; [|done].
  apply get_object_or_404_Ok in Hobj.
  destruct (check_object_permissions _ _ _); [|done]. intros [= <-]. eauto.
Qed.

Lemma is_valid_inv int_of_string db data course_id :
  EnrollmentSerializer.is_valid int_of_string db data
    = Ok (EnrollmentSerializer.Valid course_id) →
  IntegerField int_of_string <$> data !! "course_id" = Some (inl course_id)
  ∧ ∃ course, Course_objects_get_id db course_id = Ok course.
Proof.
  unfold EnrollmentSerializer.is_valid.
  destruct (data !! "course_id") as [raw|]; [|done].
  cbn [fmap option_fmap option_map].
  destruct (IntegerField int_of_string raw) as [z|msg]; [|done].
  destruct (Course_objects_get_id db z) as [course|[]] eqn:Hcourse;
    intros; simplify_eq. eauto.
Qed.

(** Every run of [enroll] either leaves the store alone or is the one
    successful path. *)
Lemma enrollSelf_cases filter_queryset int_of_string request pk db :
  (enrollSelf filter_queryset int_of_string request pk db).2 = db
  ∨ ∃ queryset student course,
      filter_queryset (Request.query_params request) (Student_objects db)
        = Ok queryset
      ∧ get (λ s, Student.id s = pk) queryset = Ok student
      ∧ IntegerField int_of_string <$> Request.data request !! "course_id"
        = Some (inl (Course.id course))
      ∧ course ∈ Course_objects db
      ∧ enrollSelf filter_queryset int_of_string request pk db =
          (Ok (Response
                 (Detail ("Successfully enrolled in " +:+ Course.name course))
                 HTTP_200_OK),
           course_students_add course student db).
Proof.
  unfold enrollSelf, dispatch.
  destruct (check_permissions _ request) as [[]|e]; [|by left].
  unfold StudentViewSet.enroll, query, execute, mbind, M_bind, mret, M_ret.
  destruct (StudentViewSet.get_object _ _ _ _) as [student|e] eqn:Hstudent;
    [|by left].
  apply StudentViewSet_get_object_inv in Hstudent as (queryset & Hfilter & Hstudent).
  destruct (StudentViewSet.not_yourself _ _); [by left|].
  destruct (EnrollmentSerializer.is_valid _ _ _) as [[course_id|errors]|e]
    eqn:Hvalid; [|by left..].
  apply is_valid_inv in Hvalid as [Hdata _].
  destruct (Course_objects_get_id db course_id) as [course|e] eqn:Hcourse;
    [|by left].
  destruct (get_Ok _ _ _ Hcourse) as [Hcrow Hcid].
  case_bool_decide as Hin; [by left|]. right.
  exists queryset, student, course. rewrite Hcid. repeat split; done.
Qed.

Lemma unenrollSelf_cases filter_queryset int_of_string request pk db :
  (unenrollSelf filter_queryset int_of_string request pk db).2 = db
  ∨ ∃ queryset student course,
      filter_queryset (Request.query_params request) (Student_objects db)
        = Ok queryset
      ∧ get (λ s, Student.id s = pk) queryset = Ok student
      ∧ IntegerField int_of_string <$> Request.data request !! "course_id"
        = Some (inl (Course.id course))
      ∧ course ∈ Course_objects db
      ∧ unenrollSelf filter_queryset int_of_string request pk db =
          (Ok (Response
                 (Detail ("Successfully unenrolled from " +:+ Course.name course))
                 HTTP_200_OK),
           course_students_remove course student db).
Proof.
  unfold unenrollSelf, dispatch.
  destruct (check_permissions _ request) as [[]|e]; [|by left].
  unfold StudentViewSet.unenroll, query, execute, mbind, M_bind, mret, M_ret.
  destruct (StudentViewSet.get_object _ _ _ _) as [student|e] eqn:Hstudent;
    [|by left].
  apply StudentViewSet_get_object_inv in Hstudent as (queryset & Hfilter & Hstudent).
  destruct (StudentViewSet.not_yourself _ _); [by left|].
  destruct (EnrollmentSerializer.is_valid _ _ _) as [[course_id|errors]|e]
    eqn:Hvalid; [|by left..].
  apply is_valid_inv in Hvalid as [Hdata _].
  destruct (Course_objects_get_id db course_id) as [course|e] eqn:Hcourse;
    [|by left].
  destruct (get_Ok _ _ _ Hcourse) as [Hcrow Hcid].
  case_bool_decide as Hin; [by left|]. right.
  exists queryset, student, course. rewrite Hcid. repeat split; done.
Qed.

(** X4: whatever the request, the filter backends and the reading of
    numerals, [enroll] leaves the four tables and the review key sequence as
    they were and never removes an enrollment edge; the only edge it can add
    joins the student of the URL, a row of the queryset the filter backends
    leave, to the course whose id the [IntegerField] reads from the body's
    [course_id] (an integer or a numeral string), an existing course; and
    the store changes only when the answer is 200. *)
Theorem enrollSelf_frame
    (filter_queryset :
       gmap string string → list Student.t → result (list Student.t))
    (int_of_string : string → Z + string)
    (request : Request.t) (pk : Z) (db : Database) :
  let r := (enrollSelf filter_queryset int_of_string request pk db).1 in
  let db' := (enrollSelf filter_queryset int_of_string request pk db).2 in
  Student_objects db' = Student_objects db
  ∧ Course_objects db' = Course_objects db
  ∧ Grade_objects db' = Grade_objects db
  ∧ CourseReview_objects db' = CourseReview_objects db
  ∧ CourseReview_sequence db' = CourseReview_sequence db
  ∧ course_students db ⊆ course_students db'
  ∧ (∀ c s, (c, s) ∈ course_students db' → (c, s) ∉ course_students db →
       s = pk
       ∧ IntegerField int_of_string <$> Request.data request !! "course_id"
         = Some (inl c)
       ∧ (∃ queryset student,
            filter_queryset (Request.query_params request) (Student_objects db)
              = Ok queryset
            ∧ student ∈ queryset ∧ Student.id student = pk)
       ∧ (∃ course, course ∈ Course_objects db ∧ Course.id course = c))
  ∧ (db' ≠ db → ∃ msg, r = Ok (Response (Detail msg) HTTP_200_OK)).
Proof.
  intros r db'. subst r db'.
  destruct (enrollSelf_cases filter_queryset int_of_string request pk db)
    as [-> | (queryset & student & course & Hfilter & Hstudent & Hdata
              & Hcourse & ->)].
  { repeat split; try done. }
  destruct (get_Ok _ _ _ Hstudent) as [Hrow Hpk].
  cbn [fst snd course_students_add Student_objects Course_objects Grade_objects
       CourseReview_objects CourseReview_sequence course_students].
  repeat split; try done.
  - set_solver.
  - set_solver.
  - assert ((c, s) = (Course.id course, Student.id student)) as [= -> ->]
      by set_solver. done.
  - eauto.
  - exists course. set_solver.
  - eauto.
Qed.

(** X5: whatever the request, the filter backends and the reading of
    numerals, [unenroll] leaves the four tables and the review key sequence
    as they were and never adds an enrollment edge; the only edge it can
    remove joins the student of the URL to the course whose id the
    [IntegerField] reads from the body's [course_id] (an integer or a
    numeral string); and the store changes only when the answer is 200. *)
Theorem unenrollSelf_frame
    (filter_queryset :
       gmap string string → list Student.t → result (list Student.t))
    (int_of_string : string → Z + string)
    (request : Request.t) (pk : Z) (db : Database) :
  let r := (unenrollSelf filter_queryset int_of_string request pk db).1 in
  let db' := (unenrollSelf filter_queryset int_of_string request pk db).2 in
  Student_objects db' = Student_objects db
  ∧ Course_objects db' = Course_objects db
  ∧ Grade_objects db' = Grade_objects db
  ∧ CourseReview_objects db' = CourseReview_objects db
  ∧ CourseReview_sequence db' = CourseReview_sequence db
  ∧ course_students db' ⊆ course_students db
  ∧ (∀ c s, (c, s) ∈ course_students db → (c, s) ∉ course_students db' →
       s = pk
       ∧ IntegerField int_of_string <$> Request.data request !! "course_id"
         = Some (inl c))
  ∧ (db' ≠ db → ∃ msg, r = Ok (Response (Detail msg) HTTP_200_OK)).
Proof.
  intros r db'. subst r db'.
  destruct (unenrollSelf_cases filter_queryset int_of_string request pk db)
    as [-> | (queryset & student & course & Hfilter & Hstudent & Hdata
              & Hcourse & ->)].
  { repeat split; try done. }
  destruct (get_Ok _ _ _ Hstudent) as [Hrow Hpk].
  cbn [fst snd course_students_remove Student_objects Course_objects
       Grade_objects CourseReview_objects CourseReview_sequence
       course_students].
  repeat split; try done.
  - set_solver.
  - destruct (decide ((c, s) = (Course.id course, Student.id student)))
      as [[= -> ->]|Hne]; [done|]. set_solver.
  - destruct (decide ((c, s) = (Course.id course, Student.id student)))
      as [[= -> ->]|Hne]; [done|]. set_solver.
  - eauto.
Qed.

(** A body whose [course_id] is the numeral string for 20 enrolls as the
    integer 20 does. *)
Example enrollSelf_numeral_string :
  enrollSelf Sample.unfiltered Sample.int_of_string
    (Sample.POST Sample.alice_user {[ "course_id" := Str "20" ]}) 1 Sample.db
  = enrollSelf Sample.unfiltered Sample.int_of_string
      (Sample.POST Sample.alice_user {[ "course_id" := Int 20 ]}) 1 Sample.db
  ∧ (20, 1) ∈ course_students
      (enrollSelf Sample.unfiltered Sample.int_of_string
         (Sample.POST Sample.alice_user {[ "course_id" := Str "20" ]}) 1
         Sample.db).2.
Proof. split; by vm_compute. Qed.

(** ** Enrollment: refusals and errors *)

Lemma StudentViewSet_get_object_404 filter_queryset action request pk db :
  finds_none filter_queryset request (Student_objects db)
    (λ s, Student.id s = pk) →
  StudentViewSet.get_object filter_queryset action request pk db
  = Raise (Http404 "No Student matches the given query.").
Proof.
  intros (queryset & Hfilter & Hnone).
  unfold StudentViewSet.get_object, get_object_or_404.
  rewrite Hfilter. cbn [mbind result_bind].
  by rewrite get_DoesNotExist.
Qed.

(** X6: the error answers of [enroll] and [unenroll] to an authenticated
    request, each with the store left as it was: status 404 when the
    queryset the filter backends leave has no Student row with the URL's id;
    and, when the lookup finds the student and the request passes the
    ownership guard, 400 "This field is required." when the body has no
    course_id, 400 with the [IntegerField]'s message when it rejects the
    course_id, and 400 "Course does not exist" when no Course row has the id
    it reads. *)
Theorem enrollment_error_answers
    (filter_queryset :
       gmap string string → list Student.t → result (list Student.t))
    (int_of_string : string → Z + string)
    (db : Database) (request : Request.t) (pk : Z) :
  User.is_authenticated (Request.user request) = true →
  let enrollSelf := enrollSelf filter_queryset int_of_string in
  let unenrollSelf := unenrollSelf filter_queryset int_of_string in
  (finds_none filter_queryset request (Student_objects db)
     (λ s, Student.id s = pk) →
     ∃ body,
       enrollSelf request pk db = (Ok (Response body HTTP_404_NOT_FOUND), db)
       ∧ unenrollSelf request pk db
         = (Ok (Response body HTTP_404_NOT_FOUND), db))
  ∧ (∀ student,
       finds filter_queryset request (Student_objects db)
         (λ s, Student.id s = pk) student →
       StudentViewSet.not_yourself request student = false →
       (Request.data request !! "course_id" = None →
          let Required :=
            Response (Errors "course_id" "This field is required.")
              HTTP_400_BAD_REQUEST in
          enrollSelf request pk db = (Ok Required, db)
          ∧ unenrollSelf request pk db = (Ok Required, db))
       ∧ (∀ msg,
            IntegerField int_of_string <$> Request.data request !! "course_id"
              = Some (inr msg) →
            let Rejected :=
              Response (Errors "course_id" msg) HTTP_400_BAD_REQUEST in
            enrollSelf request pk db = (Ok Rejected, db)
            ∧ unenrollSelf request pk db = (Ok Rejected, db))
       ∧ (∀ course_id,
            IntegerField int_of_string <$> Request.data request !! "course_id"
              = Some (inl course_id) →
            (∀ course, course ∈ Course_objects db →
               Course.id course ≠ course_id) →
            let NoCourse :=
              Response (Errors "course_id" "Course does not exist")
                HTTP_400_BAD_REQUEST in
            enrollSelf request pk db = (Ok NoCourse, db)
            ∧ unenrollSelf request pk db = (Ok NoCourse, db))).
Proof.
  intros Hauth enroll' unenroll'. subst enroll' unenroll'. split.
  - intros Hnone.
    exists (Detail "No Student matches the given query.").
    unfold enrollSelf, unenrollSelf, dispatch.
    split; simpl StudentViewSet.get_permissions;
      rewrite has_permission_IsAuthenticated, Hauth;
      unfold StudentViewSet.enroll, StudentViewSet.unenroll, query, mbind,
        M_bind;
      by rewrite StudentViewSet_get_object_404.
  - intros student Hstudent Hself.
    assert (Hrun : ∀ validation,
      EnrollmentSerializer.is_valid int_of_string db (Request.data request)
        = Ok (EnrollmentSerializer.Invalid validation) →
      enrollSelf filter_queryset int_of_string request pk db
        = (Ok (Response validation HTTP_400_BAD_REQUEST), db)
      ∧ unenrollSelf filter_queryset int_of_string request pk db
        = (Ok (Response validation HTTP_400_BAD_REQUEST), db)).
    { intros validation Hvalid.
      unfold enrollSelf, unenrollSelf, dispatch.
      split; simpl StudentViewSet.get_permissions;
        rewrite has_permission_IsAuthenticated, Hauth;
        unfold StudentViewSet.enroll, StudentViewSet.unenroll, query, mbind,
          M_bind, mret, M_ret;
        rewrite (StudentViewSet_get_object_Ok _ _ request pk db student)
          by (done || set_solver);
        by rewrite Hself, Hvalid. }
    split; [|split].
    + intros Hdata Required. apply Hrun.
      unfold EnrollmentSerializer.is_valid. by rewrite Hdata.
    + intros msg Hdata Rejected. apply Hrun.
      unfold EnrollmentSerializer.is_valid.
      destruct (Request.data request !! "course_id") as [raw|]; [|done].
      cbn in Hdata. injection Hdata as Hraw. by rewrite Hraw.
    + intros course_id Hdata Hnone NoCourse. apply Hrun.
      unfold EnrollmentSerializer.is_valid, Course_objects_get_id.
      destruct (Request.data request !! "course_id") as [raw|]; [|done].
      cbn in Hdata. injection Hdata as Hraw. rewrite Hraw.
      by rewrite get_DoesNotExist.
Qed.

Lemma enrollment_error_answers_witness :
  enrollSelf Sample.unfiltered Sample.int_of_string
    (Sample.POST Sample.alice_user {[ "course_id" := Int 30 ]}) 1 Sample.db
  = (Ok (Response (Errors "course_id" "Course does not exist")
           HTTP_400_BAD_REQUEST), Sample.db).
Proof.
  destruct (enrollment_error_answers Sample.unfiltered Sample.int_of_string
              Sample.db
              (Sample.POST Sample.alice_user {[ "course_id" := Int 30 ]}) 1
              eq_refl) as [_ Hrow].
  destruct (Hrow Sample.alice) as (_ & _ & Hcourse);
    [by apply finds_unfiltered | reflexivity |].
  apply (Hcourse 30); [by vm_compute|].
  intros course Hin. apply list_elem_of_In in Hin.
  destruct Hin as [<- | [<- | []]]; discriminate.
Defined.

(** X7: a principal whose Profile has a role other than student is refused
    with 403 on every Student record its lookup finds that is not linked to
    the principal's own account, before the body is read, and the store is
    left as it was: a lecturer or an admin cannot enroll or unenroll a
    student. *)
Theorem enrollment_refused_for_staff
    (filter_queryset :
       gmap string string → list Student.t → result (list Student.t))
    (int_of_string : string → Z + string)
    (db : Database) (request : Request.t)
    (pk : Z) (profile : Profile.t) (student : Student.t) :
  User.is_authenticated (Request.user request) = true →
  User.profile (Request.user request) = Some profile →
  Profile.role profile ≠ "student" →
  finds filter_queryset request (Student_objects db)
    (λ s, Student.id s = pk) student →
  Student.user student ≠ User.id (Request.user request) →
  enrollSelf filter_queryset int_of_string request pk db =
    (Ok (Response (Detail "You can only enroll yourself") HTTP_403_FORBIDDEN), db)
  ∧ unenrollSelf filter_queryset int_of_string request pk db =
    (Ok (Response (Detail "You can only unenroll yourself") HTTP_403_FORBIDDEN),
     db).
Proof.
  intros Hauth Hprofile Hrole Hstudent Hother.
  pose proof (not_yourself_other_role request profile student
                Hprofile Hrole Hother) as Hguard.
  unfold enrollSelf, unenrollSelf, dispatch.
  split; simpl StudentViewSet.get_permissions;
    rewrite has_permission_IsAuthenticated, Hauth;
    unfold StudentViewSet.enroll, StudentViewSet.unenroll, query, mbind,
      M_bind, mret, M_ret;
    rewrite (StudentViewSet_get_object_Ok _ _ request pk db student)
      by (done || set_solver);
    by rewrite Hguard.
Qed.

Lemma enrollment_refused_for_staff_witness :
  enrollSelf Sample.unfiltered Sample.int_of_string
    (Sample.POST Sample.dave_user {[ "course_id" := Int 20 ]}) 2 Sample.db
  = (Ok (Response (Detail "You can only enroll yourself") HTTP_403_FORBIDDEN),
     Sample.db).
Proof.
  refine (proj1 (enrollment_refused_for_staff Sample.unfiltered
                   Sample.int_of_string Sample.db
                   (Sample.POST Sample.dave_user {[ "course_id" := Int 20 ]}) 2
                   {| Profile.role := "admin"; Profile.name := "Dave" |}
                   Sample.bob eq_refl eq_refl _
                   (finds_unfiltered _ (Student_objects Sample.db)
                      (λ s, Student.id s = 2) Sample.bob eq_refl) _));
    discriminate.
Defined.
(** ** Enrollment: who passes the guard, and how the calls compose *)




Lemma course_students_add_remove course student db :
  (Course.id course, Student.id student) ∉ course_students db →
  course_students_remove course student (course_students_add course student db)
  = db.
Proof.
  intros Hout. destruct db as [students courses grades reviews sequence edges].
  unfold course_students_remove, course_students_add. simpl in *.
  f_equal. set_solver.
Qed.

Lemma course_students_remove_add course student db :
  (Course.id course, Student.id student) ∈ course_students db →
  course_students_add course student (course_students_remove course student db)
  = db.
Proof.
  intros Hin. destruct db as [students courses grades reviews sequence edges].
  unfold course_students_remove, course_students_add. simpl in *.
  f_equal. apply set_eq. intros edge.
  destruct (decide (edge = (Course.id course, Student.id student))); set_solver.
Qed.

(** X9: [enroll] and [unenroll] undo each other for a request whose lookup
    finds the student of the URL, that passes the ownership guard and names
    an existing course.  From a store without the edge, [enroll] followed by
    [unenroll] with the same request gives back the store one started from;
    from a store with the edge, [unenroll] followed by [enroll] does. *)
Theorem enroll_unenroll_round_trip
    (filter_queryset :
       gmap string string → list Student.t → result (list Student.t))
    (int_of_string : string → Z + string)
    (db : Database) (request : Request.t)
    (pk course_id : Z) (student : Student.t) (course : Course.t) :
  User.is_authenticated (Request.user request) = true →
  finds filter_queryset request (Student_objects db)
    (λ s, Student.id s = pk) student →
  StudentViewSet.not_yourself request student = false →
  IntegerField int_of_string <$> Request.data request !! "course_id"
    = Some (inl course_id) →
  Course_objects_get_id db course_id = Ok course →
  let enrolled :=
    Response (Detail ("Successfully enrolled in " +:+ Course.name course))
      HTTP_200_OK in
  let unenrolled :=
    Response (Detail ("Successfully unenrolled from " +:+ Course.name course))
      HTTP_200_OK in
  ((course_id, pk) ∉ course_students db →
     ∃ db',
       enrollSelf filter_queryset int_of_string request pk db
         = (Ok enrolled, db')
       ∧ unenrollSelf filter_queryset int_of_string request pk db'
         = (Ok unenrolled, db))
  ∧ ((course_id, pk) ∈ course_students db →
     ∃ db',
       unenrollSelf filter_queryset int_of_string request pk db
         = (Ok unenrolled, db')
       ∧ enrollSelf filter_queryset int_of_string request pk db'
         = (Ok enrolled, db)).
Proof.
  intros Hauth Hstudent Hself Hdata Hcourse enrolled unenrolled.
  destruct (finds_row _ _ _ _ _ Hstudent) as [_ Hpk].
  destruct (get_Ok _ _ _ Hcourse) as [_ Hcid].
  split.
  - intros Hout. exists (course_students_add course student db). split.
    + rewrite (enrollSelf_run filter_queryset int_of_string db request pk
               course_id student course) by done.
      by rewrite bool_decide_false.
    + rewrite (unenrollSelf_run filter_queryset int_of_string
                 (course_students_add course student db)
                 request pk course_id student course) by done.
      rewrite bool_decide_true by (simpl; rewrite Hcid, Hpk; set_solver).
      rewrite course_students_add_remove; [done|]. by rewrite Hcid, Hpk.
  - intros Hin. exists (course_students_remove course student db). split.
    + rewrite (unenrollSelf_run filter_queryset int_of_string db request pk
               course_id student course) by done.
      by rewrite bool_decide_true.
    + rewrite (enrollSelf_run filter_queryset int_of_string
                 (course_students_remove course student db)
                 request pk course_id student course) by done.
      rewrite bool_decide_false by (simpl; rewrite Hcid, Hpk; set_solver).
      rewrite course_students_remove_add; [done|]. by rewrite Hcid, Hpk.
Qed.

Lemma enroll_unenroll_round_trip_witness :
  let request := Sample.POST Sample.bob_user {[ "course_id" := Int 20 ]} in
  ∃ db',
    enrollSelf Sample.unfiltered Sample.int_of_string request 2 Sample.db =
      (Ok (Response (Detail "Successfully enrolled in CS102") HTTP_200_OK), db')
    ∧ unenrollSelf Sample.unfiltered Sample.int_of_string request 2 db' =
      (Ok (Response (Detail "Successfully unenrolled from CS102") HTTP_200_OK),
       Sample.db).
Proof.
  intros request.
  destruct (enroll_unenroll_round_trip Sample.unfiltered
              Sample.int_of_string Sample.db request 2 20 Sample.bob
              Sample.cs102) as [Hround _];
    [reflexivity | by apply finds_unfiltered | reflexivity | by vm_compute
    | reflexivity |].
  apply Hround. by vm_compute.
Defined.

(** ** Enrollment and the student count of a course *)

Lemma filter_length_split {A} (P Q R : A → Prop)
    `{∀ x, Decision (P x)} `{∀ x, Decision (Q x)} `{∀ x, Decision (R x)}
    (l : list A) :
  (∀ x, x ∈ l → P x ↔ Q x ∨ R x) →
  (∀ x, x ∈ l → ¬ (Q x ∧ R x)) →
  length (filter P l) = (length (filter Q l) + length (filter R l))%nat.
Proof.
  induction l as [|x l IH]; [done|]. intros Hiff Hdisj.
  rewrite !filter_cons.
  pose proof (Hiff x ltac:(set_solver)) as Hx.
  pose proof (Hdisj x ltac:(set_solver)) as Hnot.
  assert (IH' : length (filter P l)
                = (length (filter Q l) + length (filter R l))%nat).
  { apply IH; intros; [apply Hiff | apply Hdisj]; set_solver. }
  repeat case_decide; simpl; rewrite ?IH'; try lia; naive_solver.
Qed.

Lemma student_count_other_course db db' (course : Course.t) :
  Student_objects db' = Student_objects db →
  (∀ s, (Course.id course, s) ∈ course_students db'
        ↔ (Course.id course, s) ∈ course_students db) →
  CourseSerializer.get_student_count db' course
  = CourseSerializer.get_student_count db course.
Proof.
  intros Hstudents Hedges.
  unfold CourseSerializer.get_student_count, course_students_all.
  rewrite Hstudents. f_equal. apply list_filter_iff. intros s. apply Hedges.
Qed.

(** X10: the student count the course serializer reports follows the
    enrollment calls of a request whose lookup finds the student of the URL,
    the one row of the Student table with that id, that passes the ownership
    guard and names an existing course: [enroll] on a store without the edge
    raises the count of the course by one, [unenroll] on a store with the
    edge lowers it by one, and the count of every other course stays as it
    was. *)
Theorem enrollment_student_count
    (filter_queryset :
       gmap string string → list Student.t → result (list Student.t))
    (int_of_string : string → Z + string)
    (db : Database) (request : Request.t)
    (pk course_id : Z) (student : Student.t) (course : Course.t) :
  User.is_authenticated (Request.user request) = true →
  finds filter_queryset request (Student_objects db)
    (λ s, Student.id s = pk) student →
  get (λ s, Student.id s = pk) (Student_objects db) = Ok student →
  StudentViewSet.not_yourself request student = false →
  IntegerField int_of_string <$> Request.data request !! "course_id"
    = Some (inl course_id) →
  Course_objects_get_id db course_id = Ok course →
  let enrolled := (enrollSelf filter_queryset int_of_string request pk db).2 in
  let unenrolled :=
    (unenrollSelf filter_queryset int_of_string request pk db).2 in
  ((course_id, pk) ∉ course_students db →
     CourseSerializer.get_student_count enrolled course
     = S (CourseSerializer.get_student_count db course))
  ∧ ((course_id, pk) ∈ course_students db →
     S (CourseSerializer.get_student_count unenrolled course)
     = CourseSerializer.get_student_count db course)
  ∧ (∀ other, Course.id other ≠ course_id →
       CourseSerializer.get_student_count enrolled other
       = CourseSerializer.get_student_count db other
       ∧ CourseSerializer.get_student_count unenrolled other
         = CourseSerializer.get_student_count db other).
Proof.
  intros Hauth Hfinds Hstudent Hself Hdata Hcourse enrolled unenrolled.
  subst enrolled unenrolled.
  rewrite (enrollSelf_run filter_queryset int_of_string db request pk
               course_id student course) by done.
  rewrite (unenrollSelf_run filter_queryset int_of_string db request pk
               course_id student course) by done.
  destruct (get_Ok _ _ _ Hstudent) as [_ Hpk].
  destruct (get_Ok _ _ _ Hcourse) as [_ Hcid].
  apply get_Ok_filter in Hstudent.
  assert (Hone : length (filter (λ s, Student.id s = pk) (Student_objects db))
                 = 1%nat) by (by rewrite Hstudent).
  split; [|split].
  - intros Hout. rewrite bool_decide_false by done. cbn [snd].
    unfold CourseSerializer.get_student_count, course_students_all.
    cbn [course_students_add Student_objects course_students].
    rewrite (filter_length_split _
               (λ s, (Course.id course, Student.id s) ∈ course_students db)
               (λ s, Student.id s = pk)).
    + rewrite Hone. lia.
    + intros s _. rewrite Hcid, Hpk, elem_of_union, elem_of_singleton.
      split.
      * intros [[= ->] | ?]; auto.
      * intros [? | ->]; auto.
    + intros s _ [Hin Hs]. rewrite Hcid, Hs in Hin. done.
  - intros Hin. rewrite bool_decide_true by done. cbn [snd].
    unfold CourseSerializer.get_student_count, course_students_all.
    cbn [course_students_remove Student_objects course_students].
    rewrite (filter_length_split
               (λ s, (Course.id course, Student.id s) ∈ course_students db)
               (λ s, (Course.id course, Student.id s)
                       ∈ course_students db
                           ∖ {[ (Course.id course, Student.id student) ]})
               (λ s, Student.id s = pk)).
    + rewrite Hone. lia.
    + intros s _. rewrite Hcid, Hpk, elem_of_difference, elem_of_singleton.
      destruct (decide (Student.id s = pk)) as [->|Hne].
      * split; [auto|]. by intros _.
      * split; [|by intros [[? _] | ?]].
        intros ?. left. split; [done|]. by intros [= ?].
    + intros s _ [Hedge Hs]. rewrite Hcid, Hpk, Hs in Hedge. set_solver.
  - intros other Hother. split.
    + case_bool_decide; cbn [snd]; [done|].
      apply student_count_other_course; [done|].
      intros s. simpl. rewrite Hcid, elem_of_union, elem_of_singleton.
      split; [|auto]. intros [[= ? ?] | ?]; [contradiction | done].
    + case_bool_decide; cbn [snd]; [|done].
      apply student_count_other_course; [done|].
      intros s. simpl. rewrite Hcid, elem_of_difference, elem_of_singleton.
      split; [by intros [? _]|]. intros ?. split; [done|].
      intros [= ? ?]. contradiction.
Qed.

Lemma enrollment_student_count_witness :
  CourseSerializer.get_student_count
    (enrollSelf Sample.unfiltered Sample.int_of_string
    (Sample.POST Sample.bob_user {[ "course_id" := Int 10 ]}) 2
       Sample.db).2 Sample.cs101
  = S (CourseSerializer.get_student_count Sample.db Sample.cs101).
Proof.
  destruct (enrollment_student_count Sample.unfiltered
              Sample.int_of_string Sample.db
              (Sample.POST Sample.bob_user {[ "course_id" := Int 10 ]}) 2 10
              Sample.bob Sample.cs101) as [Hup _];
    [reflexivity | by apply finds_unfiltered | reflexivity | reflexivity
    | by vm_compute | reflexivity |].
  apply Hup. by vm_compute.
Defined.
(** ** Row filtering: what the querysets hold *)

(** X11: the role filters lose no row.  For a student with a linked Student
    the grade queryset holds exactly the grades of that Student; for a
    lecturer the grade queryset and the review queryset hold exactly the
    rows whose course is the id of a Course row carrying the lecturer's
    Profile name. *)
Theorem role_querysets_exact (db : Database) (request : Request.t)
    (profile : Profile.t) :
  User.profile (Request.user request) = Some profile →
  (Profile.role profile = "student" →
     ∀ student,
       Student_objects_get_user db (Request.user request) = Ok student →
       ∃ queryset,
         GradeViewSet.get_queryset request db = Ok queryset
         ∧ ∀ grade, grade ∈ queryset ↔
             grade ∈ Grade_objects db ∧ Grade.student grade = Student.id student)
  ∧ (Profile.role profile = "lecturer" →
     let lectures (id : Z) :=
       ∃ course, course ∈ Course_objects db ∧ Course.id course = id
                 ∧ Course.lecturer course = Profile.name profile in
     (∃ queryset,
        GradeViewSet.get_queryset request db = Ok queryset
        ∧ ∀ grade, grade ∈ queryset ↔
            grade ∈ Grade_objects db ∧ lectures (Grade.course grade))
     ∧ (∃ queryset,
        CourseReviewViewSet.get_queryset request db = Ok queryset
        ∧ ∀ review, review ∈ queryset ↔
            review ∈ CourseReview_objects db
            ∧ lectures (CourseReview.course review))).
Proof.
  intros Hprofile. split.
  - intros Hrole student Hstudent. eexists. split.
    + unfold GradeViewSet.get_queryset.
      rewrite Hprofile, bool_decide_true by done. by rewrite Hstudent.
    + intros grade. rewrite list_elem_of_filter. tauto.
  - intros Hrole lectures.
    assert (Hlectures : ∀ id,
      id ∈ Course.id <$> Course_objects_filter_lecturer db (Profile.name profile)
      ↔ lectures id).
    { intros id. split; [apply lecturer_course_elem|].
      intros (course & Hin & <- & Hname). apply list_elem_of_fmap.
      exists course. split; [done|]. by apply list_elem_of_filter. }
    split; eexists; split.
    + unfold GradeViewSet.get_queryset. rewrite Hprofile, Hrole. reflexivity.
    + intros grade. rewrite list_elem_of_filter, Hlectures. tauto.
    + unfold CourseReviewViewSet.get_queryset. rewrite Hprofile, Hrole.
      reflexivity.
    + intros review. rewrite list_elem_of_filter, Hlectures. tauto.
Qed.

(** Carol's grade queryset holds the grade of Bob in CS101, a course she
    lectures. *)
Lemma role_querysets_exact_witness :
  ∃ queryset,
    GradeViewSet.get_queryset (Sample.GET Sample.carol_user) Sample.db
      = Ok queryset
    ∧ {| Grade.id := 2; Grade.student := 2; Grade.course := 10;
         Grade.np_status := "NP" |} ∈ queryset.
Proof.
  destruct (role_querysets_exact Sample.db (Sample.GET Sample.carol_user)
              {| Profile.role := "lecturer"; Profile.name := "Carol" |} eq_refl)
    as [_ Hlecturer].
  destruct (Hlecturer eq_refl) as [(queryset & Hrun & Hrows) _].
  exists queryset. split; [exact Hrun|].
  apply Hrows. split.
  - apply list_elem_of_In. right. left. reflexivity.
  - exists Sample.cs101. split; [|split; reflexivity].
    apply list_elem_of_In. left. reflexivity.
Defined.

(** X12: a Profile whose role is neither student nor lecturer, be it admin or
    a string the views do not name, gets both querysets unfiltered. *)
Theorem other_roles_see_all_rows (db : Database) (request : Request.t)
    (profile : Profile.t) :
  User.profile (Request.user request) = Some profile →
  Profile.role profile ≠ "student" →
  Profile.role profile ≠ "lecturer" →
  GradeViewSet.get_queryset request db = Ok (Grade_objects db)
  ∧ CourseReviewViewSet.get_queryset request db = Ok (CourseReview_objects db).
Proof.
  intros Hprofile Hstudent Hlecturer.
  unfold GradeViewSet.get_queryset, CourseReviewViewSet.get_queryset.
  rewrite Hprofile. by rewrite !bool_decide_false.
Qed.

Lemma other_roles_see_all_rows_witness :
  GradeViewSet.get_queryset (Sample.GET Fixture.gina_user) Sample.db
  = Ok Sample.grades.
Proof.
  refine (proj1 (other_roles_see_all_rows Sample.db
                   (Sample.GET Fixture.gina_user)
                   {| Profile.role := "registrar"; Profile.name := "Gina" |}
                   eq_refl _ _)); discriminate.
Defined.

(** X13: a principal of role student to whom no Student row is linked gets
    an empty page from [listGrades], with status 200. *)
Theorem listGrades_without_student_row
    (filter_queryset paginate_queryset :
       gmap string string → list Grade.t → list Grade.t)
    (db : Database) (request : Request.t) (profile : Profile.t) :
  (∀ query_params queryset, filter_queryset query_params queryset ⊆ queryset) →
  (∀ query_params queryset, paginate_queryset query_params queryset ⊆ queryset) →
  User.is_authenticated (Request.user request) = true →
  User.profile (Request.user request) = Some profile →
  Profile.role profile = "student" →
  (∀ s, s ∈ Student_objects db → Student.user s ≠ User.id (Request.user request)) →
  listGrades filter_queryset paginate_queryset request db =
    (Ok (Response (Grades []) HTTP_200_OK), db).
Proof.
  intros Hf Hp Hauth Hprofile Hrole Hnone.
  apply (listGrades_student_without_record _ _ _ _ profile); try done.
  unfold Student_objects_get_user. by apply get_DoesNotExist.
Qed.

Lemma listGrades_without_student_row_witness :
  listGrades Sample.all_rows Sample.all_rows (Sample.GET Fixture.hugo_user)
    Sample.db
  = (Ok (Response (Grades []) HTTP_200_OK), Sample.db).
Proof.
  apply (listGrades_without_student_row Sample.all_rows Sample.all_rows
           Sample.db (Sample.GET Fixture.hugo_user)
           {| Profile.role := "student"; Profile.name := "Hugo" |});
    [apply all_rows_subseteq | apply all_rows_subseteq
    | reflexivity | reflexivity | reflexivity |].
  intros s Hin. apply list_elem_of_In in Hin.
  destruct Hin as [<- | [<- | []]]; discriminate.
Defined.

(** ** The detail actions that read grades and reviews *)

(** X14: the action [grades] of a student is not role-filtered: every
    authenticated principal whose lookup finds the Student of the URL,
    whatever the role and whoever the student is, gets exactly the grades of
    that Student. *)
Theorem getStudentGrades_any_principal
    (filter_queryset :
       gmap string string → list Student.t → result (list Student.t))
    (db : Database) (request : Request.t) (pk : Z) (student : Student.t) :
  User.is_authenticated (Request.user request) = true →
  finds filter_queryset request (Student_objects db)
    (λ s, Student.id s = pk) student →
  ∃ rows,
    getStudentGrades filter_queryset request pk db =
      (Ok (Response (Grades rows) HTTP_200_OK), db)
    ∧ ∀ grade, grade ∈ rows ↔
        grade ∈ Grade_objects db ∧ Grade.student grade = pk.
Proof.
  intros Hauth Hstudent. destruct (finds_row _ _ _ _ _ Hstudent) as [_ Hpk].
  eexists. split.
  - unfold getStudentGrades, dispatch. simpl StudentViewSet.get_permissions.
    rewrite has_permission_IsAuthenticated, Hauth.
    unfold StudentViewSet_grades, query, mbind, M_bind, mret, M_ret.
    rewrite (StudentViewSet_get_object_Ok _ "grades" request pk db student)
      by (done || set_solver).
    reflexivity.
  - intros grade. rewrite list_elem_of_filter, Hpk. tauto.
Qed.

(** The student Alice reads a grade of the student Bob. *)
Lemma getStudentGrades_any_principal_witness :
  ∃ rows,
    getStudentGrades Sample.unfiltered (Sample.GET Sample.alice_user) 2
      Sample.db =
      (Ok (Response (Grades rows) HTTP_200_OK), Sample.db)
    ∧ {| Grade.id := 3; Grade.student := 2; Grade.course := 20;
         Grade.np_status := "PP" |} ∈ rows.
Proof.
  destruct (getStudentGrades_any_principal Sample.unfiltered Sample.db
              (Sample.GET Sample.alice_user) 2 Sample.bob)
    as (rows & Hrun & Hrows); [reflexivity | by apply finds_unfiltered |].
  exists rows. split; [exact Hrun|].
  apply Hrows. split; [|reflexivity].
  apply list_elem_of_In. right. right. left. reflexivity.
Defined.

(** X15: the action [reviews] of a course is not role-filtered: every
    authenticated principal whose lookup finds the Course of the URL, a
    lecturer of another course included, gets exactly the reviews of that
    Course. *)
Theorem getCourseReviews_any_principal
    (filter_queryset :
       gmap string string → list Course.t → result (list Course.t))
    (db : Database) (request : Request.t) (pk : Z) (course : Course.t) :
  User.is_authenticated (Request.user request) = true →
  finds filter_queryset request (Course_objects db)
    (λ c, Course.id c = pk) course →
  ∃ rows,
    getCourseReviews filter_queryset request pk db =
      (Ok (Response (Reviews rows) HTTP_200_OK), db)
    ∧ ∀ review, review ∈ rows ↔
        review ∈ CourseReview_objects db ∧ CourseReview.course review = pk.
Proof.
  intros Hauth Hcourse. destruct (finds_row _ _ _ _ _ Hcourse) as [_ Hpk].
  eexists. split.
  - unfold getCourseReviews, dispatch. simpl CourseViewSet.get_permissions.
    rewrite has_permission_IsAuthenticated, Hauth.
    unfold CourseViewSet_reviews, query, mbind, M_bind, mret, M_ret.
    rewrite (CourseViewSet_get_object_Ok _ "reviews" request pk db course)
      by (done || set_solver).
    reflexivity.
  - intros review. rewrite list_elem_of_filter, Hpk. tauto.
Qed.

(** Carol, who lectures CS101, reads the review of CS102. *)
Lemma getCourseReviews_any_principal_witness :
  ∃ rows,
    getCourseReviews Sample.unfiltered (Sample.GET Sample.carol_user) 20
      Sample.db =
      (Ok (Response (Reviews rows) HTTP_200_OK), Sample.db)
    ∧ {| CourseReview.id := 2; CourseReview.course := 20;
         CourseReview.student := 2; CourseReview.rating := 3;
         CourseReview.comment := "Fine" |} ∈ rows.
Proof.
  destruct (getCourseReviews_any_principal Sample.unfiltered Sample.db
              (Sample.GET Sample.carol_user) 20 Sample.cs102)
    as (rows & Hrun & Hrows); [reflexivity | by apply finds_unfiltered |].
  exists rows. split; [exact Hrun|].
  apply Hrows. split; [|reflexivity].
  apply list_elem_of_In. right. left. reflexivity.
Defined.
(** ** Listing students and reading one's profile *)

Lemma dispatch_denied perms request (handler : M Response.t) db :
  User.is_authenticated (Request.user request) = true →
  forallb (λ perm, has_permission perm request) perms = false →
  dispatch perms request handler db =
  (Ok (Response (Detail "You do not have permission to perform this action.")
         HTTP_403_FORBIDDEN), db).
Proof.
  intros Hauth Hdenied. unfold dispatch.
  rewrite check_permissions_denied by done. unfold permission_denied.
  by rewrite Hauth.
Qed.

(** X16: [listStudents] answers an authenticated lecturer or admin with a
    page of rows of the Student table, and answers 403 to every other
    authenticated principal: a student, an account of another role, an
    account without a Profile. *)
Theorem listStudents_staff_only
    (filter_queryset paginate_queryset :
       gmap string string → list Student.t → list Student.t)
    (db : Database) (request : Request.t) :
  (∀ query_params queryset, filter_queryset query_params queryset ⊆ queryset) →
  (∀ query_params queryset, paginate_queryset query_params queryset ⊆ queryset) →
  User.is_authenticated (Request.user request) = true →
  let staff :=
    ∃ profile, User.profile (Request.user request) = Some profile
               ∧ (Profile.role profile = "lecturer"
                  ∨ Profile.role profile = "admin") in
  (staff →
     ∃ page,
       listStudents filter_queryset paginate_queryset request db =
         (Ok (Response (Students page) HTTP_200_OK), db)
       ∧ page ⊆ Student_objects db)
  ∧ (¬ staff →
     listStudents filter_queryset paginate_queryset request db =
       (Ok (Response (Detail "You do not have permission to perform this action.")
              HTTP_403_FORBIDDEN), db)).
Proof.
  intros Hf Hp Hauth staff. unfold listStudents. split.
  - intros Hstaff. eexists. split.
    + unfold dispatch.
      change (StudentViewSet.get_permissions "list") with [IsLecturerOrAdmin].
      assert (check_permissions [IsLecturerOrAdmin] request = Ok ()) as ->.
      { apply check_permissions_single, has_permission_IsLecturerOrAdmin.
        by split. }
      reflexivity.
    + apply (page_subseteq _ _ Hf Hp).
  - intros Hother.
    apply dispatch_denied; [done|].
    change (StudentViewSet.get_permissions "list") with [IsLecturerOrAdmin].
    cbn [forallb]. rewrite andb_true_r. apply not_true_is_false.
    rewrite has_permission_IsLecturerOrAdmin. tauto.
Qed.

(** The student Alice is refused; the admin Dave gets a page. *)
Lemma listStudents_staff_only_witness :
  listStudents Sample.all_rows Sample.all_rows (Sample.GET Sample.alice_user)
    Sample.db
  = (Ok (Response (Detail "You do not have permission to perform this action.")
           HTTP_403_FORBIDDEN), Sample.db)
  ∧ ∃ page,
      listStudents Sample.all_rows Sample.all_rows
        (Sample.GET Sample.dave_user) Sample.db
      = (Ok (Response (Students page) HTTP_200_OK), Sample.db).
Proof.
  split.
  - destruct (listStudents_staff_only Sample.all_rows Sample.all_rows
                Sample.db (Sample.GET Sample.alice_user))
      as [_ Hrefused];
      [apply all_rows_subseteq | apply all_rows_subseteq | reflexivity |].
    apply Hrefused. intros (profile & [= <-] & [? | ?]); discriminate.
  - destruct (listStudents_staff_only Sample.all_rows Sample.all_rows
                Sample.db (Sample.GET Sample.dave_user))
      as [Hstaff _];
      [apply all_rows_subseteq | apply all_rows_subseteq | reflexivity |].
    destruct Hstaff as (page & Hrun & _).
    + eexists. split; [reflexivity|]. right. reflexivity.
    + exists page. exact Hrun.
Defined.

(** X17: [getOwnProfile] answers an authenticated account with its own
    Profile; for an account without a Profile the lookup raises
    [DoesNotExist], which no handler turns into a response: the request
    ends in a server error, not in a 404. *)
Theorem getOwnProfile_answers (db : Database) (request : Request.t) :
  User.is_authenticated (Request.user request) = true →
  getOwnProfile request db =
  match User.profile (Request.user request) with
  | Some profile => (Ok (Reply (ProfileData profile) HTTP_200_OK), db)
  | None => (Raise DoesNotExist, db)
  end.
Proof.
  intros Hauth. unfold getOwnProfile, dispatch_reply.
  change (ProfileViewSet.get_permissions "me") with [IsAuthenticated].
  rewrite has_permission_IsAuthenticated, Hauth.
  unfold ProfileViewSet.me. by destruct (User.profile _).
Qed.

Lemma getOwnProfile_answers_witness :
  getOwnProfile (Sample.GET Sample.erin_user) Sample.db
  = (Raise DoesNotExist, Sample.db).
Proof.
  exact (getOwnProfile_answers Sample.db (Sample.GET Sample.erin_user) eq_refl).
Defined.

(** ** The student detail views *)



Lemma getStudentDetail_run filter_queryset calculate_gpa calculate_cgpa db request
    pk student :
  User.is_authenticated (Request.user request) = true →
  finds filter_queryset request (Student_objects db)
    (λ s, Student.id s = pk) student →
  getStudentDetail filter_queryset calculate_gpa calculate_cgpa request pk db =
    (Ok (Reply (StudentDetailData
                  (StudentDetailSerializer_data calculate_gpa calculate_cgpa
                     db student))
           HTTP_200_OK), db).
Proof.
  intros Hauth Hstudent. unfold getStudentDetail, dispatch_reply.
  change (StudentViewSet.get_permissions "retrieve") with [IsAuthenticated].
  rewrite has_permission_IsAuthenticated, Hauth.
  unfold StudentViewSet_retrieve, query, mbind, M_bind, mret, M_ret.
  rewrite (StudentViewSet_get_object_Ok _ "retrieve" request pk db student)
    by (done || set_solver).
  reflexivity.
Qed.

(** X19: [getStudentDetail] is open to every authenticated principal: for
    the Student of the URL, when the lookup of the request finds it and
    whoever asks, it answers the record with exactly that student's grades,
    exactly the courses joined to the student by an enrollment edge, and the
    student's semester remark. *)
Theorem getStudentDetail_any_principal
    (filter_queryset :
       gmap string string → list Student.t → result (list Student.t))
    (calculate_gpa calculate_cgpa : Database → Student.t → Q)
    (db : Database) (request : Request.t) (pk : Z) (student : Student.t) :
  User.is_authenticated (Request.user request) = true →
  finds filter_queryset request (Student_objects db)
    (λ s, Student.id s = pk) student →
  ∃ detail,
    getStudentDetail filter_queryset calculate_gpa calculate_cgpa request pk db =
      (Ok (Reply (StudentDetailData detail) HTTP_200_OK), db)
    ∧ StudentDetail.student detail = student
    ∧ (∀ grade, grade ∈ StudentDetail.grades detail ↔
         grade ∈ Grade_objects db ∧ Grade.student grade = pk)
    ∧ (∀ course, course ∈ StudentDetail.enrolled_courses detail ↔
         course ∈ Course_objects db
         ∧ (Course.id course, pk) ∈ course_students db)
    ∧ StudentDetail.semester_remark detail
      = StudentDetailSerializer.get_semester_remark db student.
Proof.
  intros Hauth Hstudent. destruct (finds_row _ _ _ _ _ Hstudent) as [_ Hpk].
  eexists. split; [by apply getStudentDetail_run|].
  cbn [StudentDetailSerializer_data StudentDetail.student StudentDetail.grades
       StudentDetail.enrolled_courses StudentDetail.semester_remark].
  split; [done|]. split; [|split; [|done]].
  - intros grade. unfold student_grade_set.
    rewrite list_elem_of_filter, Hpk. tauto.
  - intros course. unfold student_courses_all.
    rewrite list_elem_of_filter, Hpk. tauto.
Qed.

(** The student Alice reads the record of the student Bob, grades
    included. *)
Lemma getStudentDetail_any_principal_witness :
  ∃ detail,
    getStudentDetail Sample.unfiltered Sample.calculate_gpa
      Sample.calculate_gpa (Sample.GET Sample.alice_user) 2 Sample.db =
      (Ok (Reply (StudentDetailData detail) HTTP_200_OK), Sample.db)
    ∧ StudentDetail.student detail = Sample.bob
    ∧ StudentDetail.semester_remark detail = "Attention Needed".
Proof.
  destruct (getStudentDetail_any_principal Sample.unfiltered
              Sample.calculate_gpa Sample.calculate_gpa Sample.db
              (Sample.GET Sample.alice_user) 2 Sample.bob)
    as (detail & Hrun & Hstudent & _ & _ & Hremark);
    [reflexivity | by apply finds_unfiltered |].
  exists detail. split; [exact Hrun|]. split; [exact Hstudent|].
  rewrite Hremark. reflexivity.
Defined.

(** X20: enrollment shows in the student's record, for a request whose
    lookup finds the student of the URL, that passes the ownership guard and
    names an existing course: a course without an edge to the student is not
    among the enrolled courses of the record and is among them after
    [enroll]; a course with an edge is among them and is no longer after
    [unenroll]. *)
Theorem enrollment_in_student_detail
    (filter_queryset :
       gmap string string → list Student.t → result (list Student.t))
    (int_of_string : string → Z + string)
    (calculate_gpa calculate_cgpa : Database → Student.t → Q)
    (db : Database) (request : Request.t)
    (pk course_id : Z) (student : Student.t) (course : Course.t) :
  User.is_authenticated (Request.user request) = true →
  finds filter_queryset request (Student_objects db)
    (λ s, Student.id s = pk) student →
  StudentViewSet.not_yourself request student = false →
  IntegerField int_of_string <$> Request.data request !! "course_id"
    = Some (inl course_id) →
  Course_objects_get_id db course_id = Ok course →
  let enrolled_courses (db : Database) :=
    StudentDetail.enrolled_courses
      (StudentDetailSerializer_data calculate_gpa calculate_cgpa db student) in
  ((course_id, pk) ∉ course_students db →
     (course ∉ enrolled_courses db)
     ∧ course ∈ enrolled_courses
                  (enrollSelf filter_queryset int_of_string request pk db).2)
  ∧ ((course_id, pk) ∈ course_students db →
     course ∈ enrolled_courses db
     ∧ course ∉ enrolled_courses
                  (unenrollSelf filter_queryset int_of_string request pk db).2).
Proof.
  intros Hauth Hstudent Hself Hdata Hcourse enrolled_courses.
  subst enrolled_courses.
  rewrite (enrollSelf_run filter_queryset int_of_string db request pk
             course_id student course) by done.
  rewrite (unenrollSelf_run filter_queryset int_of_string db request pk
             course_id student course) by done.
  destruct (finds_row _ _ _ _ _ Hstudent) as [_ Hpk].
  destruct (get_Ok _ _ _ Hcourse) as [Hrow Hcid].
  cbn [StudentDetailSerializer_data StudentDetail.enrolled_courses].
  unfold student_courses_all. split.
  - intros Hout. rewrite bool_decide_false by done. cbn [snd].
    rewrite !list_elem_of_filter. simpl. rewrite Hcid, Hpk. split.
    + by intros [? _].
    + split; [set_solver | done].
  - intros Hin. rewrite bool_decide_true by done. cbn [snd].
    rewrite !list_elem_of_filter. simpl. rewrite Hcid, Hpk. split.
    + done.
    + intros [Hedge _]. set_solver.
Qed.

Lemma enrollment_in_student_detail_witness :
  Sample.cs102 ∈
    StudentDetail.enrolled_courses
      (StudentDetailSerializer_data Sample.calculate_gpa Sample.calculate_gpa
         (enrollSelf Sample.unfiltered Sample.int_of_string
            (Sample.POST Sample.bob_user {[ "course_id" := Int 20 ]})
            2 Sample.db).2
         Sample.bob).
Proof.
  destruct (enrollment_in_student_detail Sample.unfiltered
              Sample.int_of_string Sample.calculate_gpa
              Sample.calculate_gpa Sample.db
              (Sample.POST Sample.bob_user {[ "course_id" := Int 20 ]}) 2 20
              Sample.bob Sample.cs102) as [Hin _];
    [reflexivity | by apply finds_unfiltered | reflexivity | by vm_compute
    | reflexivity |].
  apply Hin. by vm_compute.
Defined.

(** ** Creating a review: refusals and what is written *)

Lemma validate_rating_Ok value :
  CourseReviewSerializer.validate_rating value = Ok value ↔ (1 ≤ value ≤ 5)%Z.
Proof.
  unfold CourseReviewSerializer.validate_rating.
  case_bool_decide; split; intros; try done; lia.
Qed.

Lemma createReview_student_run run_fields request db :
  has_permission IsStudent request = true →
  createReview run_fields request db =
  let '(r, db') := CourseReviewViewSet.create run_fields request db in
  (handle_exception r, db').
Proof.
  intros Hstudent. unfold createReview, dispatch.
  change (CourseReviewViewSet.get_permissions "create") with [IsStudent].
  by rewrite (proj2 (check_permissions_single IsStudent request) Hstudent).
Qed.

(** X21: the rating of a review is accepted exactly when it lies between 1
    and 5, and a request whose rating lies outside is answered 400 with
    the store left as it was. *)
Theorem createReview_rating_bounds
    (run_fields : Database → gmap string value → result (gmap string field_value))
    (db : Database) (request : Request.t)
    (validated_data : gmap string field_value) (rating : Z) :
  run_fields db (Request.data request) = Ok validated_data →
  validated_data !! "rating" = Some (FInt rating) →
  (CourseReviewSerializer.is_valid run_fields db (Request.data request)
     = Ok validated_data ↔ (1 ≤ rating ≤ 5)%Z)
  ∧ (has_permission IsStudent request = true → (rating < 1 ∨ 5 < rating)%Z →
     ∃ body,
       createReview run_fields request db =
         (Ok (Response body HTTP_400_BAD_REQUEST), db)).
Proof.
  intros Hfields Hrating.
  assert (Hvalid :
    CourseReviewSerializer.is_valid run_fields db (Request.data request)
    = (CourseReviewSerializer.validate_rating rating;; Ok validated_data)).
  { unfold CourseReviewSerializer.is_valid. rewrite Hfields. simpl.
    by rewrite Hrating. }
  split.
  - rewrite Hvalid, <- validate_rating_Ok.
    destruct (CourseReviewSerializer.validate_rating rating) as [z|e] eqn:Hz.
    + unfold CourseReviewSerializer.validate_rating in Hz.
      case_bool_decide; simplify_eq. done.
    + done.
  - intros Hstudent Hout. eexists.
    rewrite createReview_student_run by done.
    unfold CourseReviewViewSet.create, query, mbind, M_bind.
    rewrite Hvalid. unfold CourseReviewSerializer.validate_rating.
    rewrite bool_decide_true by lia. reflexivity.
Qed.

(** Alice rates CS102 with 6. *)
Lemma createReview_rating_bounds_witness :
  let request :=
    Sample.POST Sample.alice_user
      (<["course" := Int 20]> (<["student" := Int 1]>
         (<["rating" := Int 6]> {[ "comment" := Str "Superb" ]}))) in
  ∃ body,
    createReview Sample.run_fields request Sample.db =
      (Ok (Response body HTTP_400_BAD_REQUEST), Sample.db).
Proof.
  intros request.
  destruct (createReview_rating_bounds Sample.run_fields Sample.db request
              (<["course" := FCourse Sample.cs102]>
                 (<["student" := FStudent Sample.alice]>
                    (<["rating" := FInt 6]> {[ "comment" := FStr "Superb" ]})))
              6) as [_ Hrefused]; [by vm_compute | by vm_compute |].
  apply Hrefused; [reflexivity | right; reflexivity].
Defined.

(** X22: who cannot create a review.  An authenticated principal whose role
    is not student is answered 403.  A principal of role student to whom no
    Student row is linked passes the permission check, and once the body is
    valid the lookup of the Student raises [DoesNotExist], which no handler
    turns into a response.  In both cases no review is written. *)
Theorem createReview_refusals
    (run_fields : Database → gmap string value → result (gmap string field_value))
    (db : Database) (request : Request.t) :
  User.is_authenticated (Request.user request) = true →
  (has_role (Request.user request) ["student"] = false →
     createReview run_fields request db =
       (Ok (Response (Detail "You do not have permission to perform this action.")
              HTTP_403_FORBIDDEN), db))
  ∧ (has_role (Request.user request) ["student"] = true →
     ∀ validated_data,
       CourseReviewSerializer.is_valid run_fields db (Request.data request)
         = Ok validated_data →
       (∀ s, s ∈ Student_objects db →
          Student.user s ≠ User.id (Request.user request)) →
       createReview run_fields request db = (Raise DoesNotExist, db)).
Proof.
  intros Hauth. split.
  - intros Hrole. apply dispatch_denied; [done|].
    change (CourseReviewViewSet.get_permissions "create") with [IsStudent].
    cbn [forallb]. unfold has_permission. by rewrite Hauth, Hrole.
  - intros Hrole validated_data Hvalid Hnone.
    rewrite createReview_student_run
      by (unfold has_permission; by rewrite Hauth, Hrole).
    unfold CourseReviewViewSet.create, CourseReviewViewSet.perform_create,
      query, mbind, M_bind.
    rewrite Hvalid. unfold Student_objects_get_user.
    by rewrite get_DoesNotExist.
Qed.

(** The lecturer Carol cannot review a course. *)
Lemma createReview_refusals_witness :
  createReview Sample.run_fields (Sample.POST Sample.carol_user ∅) Sample.db
  = (Ok (Response (Detail "You do not have permission to perform this action.")
           HTTP_403_FORBIDDEN), Sample.db).
Proof.
  destruct (createReview_refusals Sample.run_fields Sample.db
              (Sample.POST Sample.carol_user ∅) eq_refl) as [Hrefused _].
  apply Hrefused. reflexivity.
Defined.

(** X23: whatever the request, [createReview] leaves the other tables and
    the enrollment edges as they were and keeps every review; it either
    writes nothing or appends one review, and then the answer is 201 and
    the review belongs to the Student linked to the principal. *)
Theorem createReview_frame
    (run_fields : Database → gmap string value → result (gmap string field_value))
    (db : Database) (request : Request.t) :
  let r := (createReview run_fields request db).1 in
  let db' := (createReview run_fields request db).2 in
  Student_objects db' = Student_objects db
  ∧ Course_objects db' = Course_objects db
  ∧ Grade_objects db' = Grade_objects db
  ∧ course_students db' = course_students db
  ∧ (db' = db
     ∨ ∃ review student,
         CourseReview_objects db' = (CourseReview_objects db ++ [review])%list
         ∧ r = Ok (Response (Review review) HTTP_201_CREATED)
         ∧ Student_objects_get_user db (Request.user request) = Ok student
         ∧ CourseReview.student review = Student.id student).
Proof.
  intros r db'. subst r db'. unfold createReview, dispatch.
  destruct (check_permissions _ request) as [[]|e];
    [|repeat split; try done; by left].
  unfold CourseReviewViewSet.create, CourseReviewViewSet.perform_create,
    query, mbind, M_bind, mret, M_ret.
  destruct (CourseReviewSerializer.is_valid _ _ _) as [validated_data|e];
    [|repeat split; try done; by left].
  destruct (Student_objects_get_user db _) as [student|e] eqn:Hstudent;
    [|repeat split; try done; by left].
  rewrite save_student_kwarg.
  destruct (validated_data !! "course") as [[]|];
    destruct (validated_data !! "rating") as [[]|];
    destruct (validated_data !! "comment") as [[]|];
    cbn [fst snd]; repeat split; try done; try (by left).
  right. eexists _, student. cbn. by repeat split.
Qed.

(** ** Deleting and updating a review *)

Section ReviewObject.

Variable filter_queryset :
  gmap string string → list CourseReview.t → result (list CourseReview.t).
Variables (db : Database) (request : Request.t) (pk : Z) (action : string).
Variables (role_queryset : list CourseReview.t) (review : CourseReview.t).
Variable owner : Student.t.
Hypothesis authenticated : User.is_authenticated (Request.user request) = true.
Hypothesis unsafe : Request.method request ∉ SAFE_METHODS.
Hypothesis not_create : action ≠ "create".
Hypothesis visible :
  CourseReviewViewSet.get_queryset request db = Ok role_queryset.
Hypothesis review_found :
  finds filter_queryset request role_queryset
    (λ r, CourseReview.id r = pk) review.
Hypothesis owner_row :
  get (λ s, Student.id s = CourseReview.student review) (Student_objects db)
  = Ok owner.

(** The object lookup of a write on a review that the lookup of the request
    finds: the review for its owner, a denial for anyone else. *)
Lemma CourseReviewViewSet_get_object_unsafe :
  CourseReviewViewSet_get_object filter_queryset action request pk db =
  if bool_decide (Student.user owner = User.id (Request.user request))
  then Ok review else Raise PermissionDenied.
Proof.
  destruct review_found as (queryset & Hfilter & _ & Hget).
  unfold CourseReviewViewSet_get_object, mbind, result_bind.
  rewrite visible, Hfilter.
  apply (get_object_or_404_Ok "CourseReview") in Hget.
  rewrite Hget, bool_decide_false by done.
  unfold review_owner. rewrite owner_row.
  unfold CourseReviewViewSet.get_permissions.
  rewrite bool_decide_false by done.
  unfold check_object_permissions, permission_denied. cbn [forallb].
  unfold has_object_permission. rewrite bool_decide_false by done.
  rewrite authenticated. by case_bool_decide.
Qed.

End ReviewObject.

(** X24: deleting a review.  When the lookup of the request finds the
    review (the row with the id of the URL is in the principal's role
    queryset after the filter backends), the account linked to the review's
    Student gets 204, and afterwards the review table holds exactly the
    other reviews, the other tables being as they were; every other
    authenticated principal, an admin included, gets 403 and the store is
    left as it was.  When the lookup finds no row with the id, the answer
    has status 404 and the store is left as it was. *)
Theorem deleteReview_owner_only
    (filter_queryset :
       gmap string string → list CourseReview.t → result (list CourseReview.t))
    (db : Database) (request : Request.t) (pk : Z)
    (role_queryset : list CourseReview.t) :
  User.is_authenticated (Request.user request) = true →
  Request.method request ∉ SAFE_METHODS →
  CourseReviewViewSet.get_queryset request db = Ok role_queryset →
  (∀ review owner,
     finds filter_queryset request role_queryset
       (λ r, CourseReview.id r = pk) review →
     get (λ s, Student.id s = CourseReview.student review) (Student_objects db)
       = Ok owner →
     (Student.user owner = User.id (Request.user request) →
        ∃ db',
          deleteReview filter_queryset request pk db
            = (Ok (Reply NoContent HTTP_204_NO_CONTENT), db')
          ∧ (∀ r, r ∈ CourseReview_objects db' ↔
               r ∈ CourseReview_objects db ∧ CourseReview.id r ≠ pk)
          ∧ Student_objects db' = Student_objects db
          ∧ Course_objects db' = Course_objects db
          ∧ Grade_objects db' = Grade_objects db
          ∧ CourseReview_sequence db' = CourseReview_sequence db
          ∧ course_students db' = course_students db)
     ∧ (Student.user owner ≠ User.id (Request.user request) →
        deleteReview filter_queryset request pk db =
          (Ok (Reply (Content
                        (Detail "You do not have permission to perform this action."))
                 HTTP_403_FORBIDDEN), db)))
  ∧ (finds_none filter_queryset request role_queryset
       (λ r, CourseReview.id r = pk) →
     ∃ body,
       deleteReview filter_queryset request pk db =
         (Ok (Reply body HTTP_404_NOT_FOUND), db)).
Proof.
  intros Hauth Hunsafe Hvisible.
  assert (Hdispatch : ∀ handler : M Reply.t,
    dispatch_reply (CourseReviewViewSet.get_permissions "destroy") request
      handler db
    = let '(r, db') := handler db in (handle_reply_exception r, db')).
  { intros handler. unfold dispatch_reply.
    change (CourseReviewViewSet.get_permissions "destroy")
      with [IsAuthenticated; IsOwnerOrReadOnly].
    unfold check_permissions. cbn [forallb].
    unfold has_permission. by rewrite Hauth. }
  unfold deleteReview. rewrite Hdispatch.
  unfold CourseReviewViewSet_destroy, query, execute, mbind, M_bind, mret, M_ret.
  split.
  - intros review owner Hreview Howner.
    rewrite (CourseReviewViewSet_get_object_unsafe filter_queryset db request
               pk "destroy" role_queryset review owner) by done.
    destruct (finds_row _ _ _ _ _ Hreview) as [_ Hpk].
    split.
    + intros Hown. rewrite bool_decide_true by done.
      eexists. split; [reflexivity|].
      cbn [CourseReview_delete CourseReview_objects Student_objects
           Course_objects Grade_objects CourseReview_sequence course_students].
      split; [|done].
      intros r. rewrite list_elem_of_filter, Hpk. tauto.
    + intros Hother. by rewrite bool_decide_false.
  - intros (queryset & Hfilter & Hnone).
    unfold CourseReviewViewSet_get_object, mbind, result_bind.
    rewrite Hvisible, Hfilter. unfold get_object_or_404.
    rewrite get_DoesNotExist by done. eauto.
Qed.

Lemma unsafe_method request :
  Request.method request = "DELETE" ∨ Request.method request = "PUT" →
  Request.method request ∉ SAFE_METHODS.
Proof.
  intros Hmethod Hin. apply list_elem_of_In in Hin. simpl in Hin.
  destruct Hmethod as [Hm | Hm]; rewrite Hm in Hin;
    destruct Hin as [? | [? | [? | []]]]; discriminate.
Defined.

(** The admin Dave cannot delete Alice's review; Alice can. *)
Lemma deleteReview_owner_only_witness :
  deleteReview Sample.unfiltered (Fixture.DELETE Sample.dave_user) 1 Sample.db
  = (Ok (Reply (Content
                  (Detail "You do not have permission to perform this action."))
           HTTP_403_FORBIDDEN), Sample.db)
  ∧ ∃ db',
      deleteReview Sample.unfiltered (Fixture.DELETE Sample.alice_user) 1
        Sample.db
      = (Ok (Reply NoContent HTTP_204_NO_CONTENT), db').
Proof.
  split.
  - destruct (deleteReview_owner_only Sample.unfiltered Sample.db
                (Fixture.DELETE Sample.dave_user) 1 Sample.reviews)
      as [Hrow _]; [reflexivity | apply unsafe_method; by left | reflexivity |].
    destruct (Hrow {| CourseReview.id := 1; CourseReview.course := 10;
                      CourseReview.student := 1; CourseReview.rating := 5;
                      CourseReview.comment := "Great" |} Sample.alice)
      as [_ Hother]; [by apply finds_unfiltered | reflexivity |].
    apply Hother. discriminate.
  - destruct (deleteReview_owner_only Sample.unfiltered Sample.db
                (Fixture.DELETE Sample.alice_user) 1 Sample.reviews)
      as [Hrow _]; [reflexivity | apply unsafe_method; by left | reflexivity |].
    destruct (Hrow {| CourseReview.id := 1; CourseReview.course := 10;
                      CourseReview.student := 1; CourseReview.rating := 5;
                      CourseReview.comment := "Great" |} Sample.alice)
      as [Hown _]; [by apply finds_unfiltered | reflexivity |].
    destruct (Hown eq_refl) as (db' & Hrun & _).
    exists db'. exact Hrun.
Defined.

(** X25: updating a review that the lookup of the request finds.  For the
    account linked to the review's Student, a valid body is written over the
    row: the answer is 200 with the new row; in the review table the row
    with the id of the URL is replaced by the new row and every other row is
    kept, in the order they had; the other tables are as they were.  The new
    row keeps the id; each of its other fields is the one of the validated
    data when the data has the field, and the one of the old row otherwise:
    so its student becomes the student the body names (the view does not
    assign the principal's Student again).  Every other authenticated
    principal gets 403 before the body is read, and the store is left as it
    was. *)
Theorem updateReview_owner_only
    (filter_queryset :
       gmap string string → list CourseReview.t → result (list CourseReview.t))
    (run_fields : Database → gmap string value → result (gmap string field_value))
    (db : Database) (request : Request.t) (pk : Z)
    (role_queryset : list CourseReview.t) (review : CourseReview.t)
    (owner : Student.t) :
  User.is_authenticated (Request.user request) = true →
  Request.method request ∉ SAFE_METHODS →
  CourseReviewViewSet.get_queryset request db = Ok role_queryset →
  finds filter_queryset request role_queryset
    (λ r, CourseReview.id r = pk) review →
  get (λ s, Student.id s = CourseReview.student review) (Student_objects db)
    = Ok owner →
  (Student.user owner = User.id (Request.user request) →
     ∀ validated_data course student rating comment,
       CourseReviewSerializer.is_valid run_fields db (Request.data request)
         = Ok validated_data →
       (validated_data !! "course" = None
          ∧ course = CourseReview.course review
        ∨ ∃ c, validated_data !! "course" = Some (FCourse c)
               ∧ course = Course.id c) →
       (validated_data !! "student" = None
          ∧ student = CourseReview.student review
        ∨ ∃ s, validated_data !! "student" = Some (FStudent s)
               ∧ student = Student.id s) →
       (validated_data !! "rating" = None
          ∧ rating = CourseReview.rating review
        ∨ validated_data !! "rating" = Some (FInt rating)) →
       (validated_data !! "comment" = None
          ∧ comment = CourseReview.comment review
        ∨ validated_data !! "comment" = Some (FStr comment)) →
       let updated :=
         {| CourseReview.id := pk; CourseReview.course := course;
            CourseReview.student := student; CourseReview.rating := rating;
            CourseReview.comment := comment |} in
       ∃ db',
         updateReview filter_queryset run_fields request pk db =
           (Ok (Response (Review updated) HTTP_200_OK), db')
         ∧ CourseReview_objects db'
           = (λ r, if bool_decide (CourseReview.id r = pk) then updated else r)
               <$> CourseReview_objects db
         ∧ Student_objects db' = Student_objects db
         ∧ Course_objects db' = Course_objects db
         ∧ Grade_objects db' = Grade_objects db
         ∧ CourseReview_sequence db' = CourseReview_sequence db
         ∧ course_students db' = course_students db)
  ∧ (Student.user owner ≠ User.id (Request.user request) →
     updateReview filter_queryset run_fields request pk db =
       (Ok (Response (Detail "You do not have permission to perform this action.")
              HTTP_403_FORBIDDEN), db)).
Proof.
  intros Hauth Hunsafe Hvisible Hreview Howner.
  assert (Hdispatch : ∀ handler : M Response.t,
    dispatch (CourseReviewViewSet.get_permissions "update") request handler db
    = let '(r, db') := handler db in (handle_exception r, db')).
  { intros handler. unfold dispatch.
    change (CourseReviewViewSet.get_permissions "update")
      with [IsAuthenticated; IsOwnerOrReadOnly].
    unfold check_permissions. cbn [forallb].
    unfold has_permission. by rewrite Hauth. }
  unfold updateReview. rewrite Hdispatch.
  unfold CourseReviewViewSet_update, query, execute, mbind, M_bind, mret, M_ret.
  rewrite (CourseReviewViewSet_get_object_unsafe filter_queryset db request pk
             "update" role_queryset review owner) by done.
  destruct (finds_row _ _ _ _ _ Hreview) as [_ Hpk].
  split.
  - intros Hown validated_data course student rating comment Hvalid
      Hcourse Hstudent Hrating Hcomment.
    rewrite bool_decide_true by done. rewrite Hvalid.
    assert (Hset : CourseReview_setattrs review validated_data
                   = Ok {| CourseReview.id := pk;
                           CourseReview.course := course;
                           CourseReview.student := student;
                           CourseReview.rating := rating;
                           CourseReview.comment := comment |}).
    { unfold CourseReview_setattrs, mbind, result_bind.
      destruct Hcourse as [[-> ->] | (c & -> & ->)];
        destruct Hstudent as [[-> ->] | (s & -> & ->)];
        destruct Hrating as [[-> ->] | ->];
        destruct Hcomment as [[-> ->] | ->]; by rewrite Hpk. }
    rewrite Hset. eexists. split; [reflexivity|].
    cbn [CourseReview_save CourseReview_objects Student_objects
         Course_objects Grade_objects CourseReview_sequence course_students].
    done.
  - intros Hother. by rewrite bool_decide_false.
Qed.

(** Alice rewrites her review of CS101 and names Bob as its student: the
    row is handed to Bob, and the review of CS102 stays as it was. *)
Lemma updateReview_owner_only_witness :
  let request :=
    Fixture.PUT Sample.alice_user
      (<["course" := Int 10]> (<["student" := Int 2]>
         (<["rating" := Int 1]> {[ "comment" := Str "Poor" ]}))) in
  let updated :=
    {| CourseReview.id := 1; CourseReview.course := 10;
       CourseReview.student := 2; CourseReview.rating := 1;
       CourseReview.comment := "Poor" |} in
  ∃ db',
    updateReview Sample.unfiltered Sample.run_fields request 1 Sample.db =
      (Ok (Response (Review updated) HTTP_200_OK), db')
    ∧ CourseReview_objects db' =
        [ updated;
          {| CourseReview.id := 2; CourseReview.course := 20;
             CourseReview.student := 2; CourseReview.rating := 3;
             CourseReview.comment := "Fine" |} ].
Proof.
  intros request updated.
  destruct (updateReview_owner_only Sample.unfiltered Sample.run_fields
              Sample.db request 1 Sample.reviews
              {| CourseReview.id := 1; CourseReview.course := 10;
                 CourseReview.student := 1; CourseReview.rating := 5;
                 CourseReview.comment := "Great" |} Sample.alice)
    as [Hown _];
    [reflexivity | apply unsafe_method; by right | reflexivity
    | by apply finds_unfiltered | reflexivity |].
  destruct (Hown eq_refl
              (<["course" := FCourse Sample.cs101]>
                 (<["student" := FStudent Sample.bob]>
                    (<["rating" := FInt 1]> {[ "comment" := FStr "Poor" ]})))
              10 2 1 "Poor")
    as (db' & Hrun & Hrows & _).
  - by vm_compute.
  - right. exists Sample.cs101. split; [by vm_compute | reflexivity].
  - right. exists Sample.bob. split; [by vm_compute | reflexivity].
  - right. by vm_compute.
  - right. by vm_compute.
  - exists db'. split; [exact Hrun | exact Hrows].
Defined.
(** ** Requests without authentication, and ids without a row *)

Lemma dispatch_unauthenticated perms request (handler : M Response.t) db :
  User.is_authenticated (Request.user request) = false →
  IsAuthenticated ∈ perms ∨ IsStudent ∈ perms ∨ IsLecturerOrAdmin ∈ perms →
  dispatch perms request handler db =
  (Ok (Response (Detail "Authentication credentials were not provided.")
         HTTP_401_UNAUTHORIZED), db).
Proof.
  intros Hanon Hperm. unfold dispatch.
  rewrite check_permissions_denied.
  - unfold permission_denied. by rewrite Hanon.
  - apply not_true_is_false. intros Hall.
    rewrite forallb_forall in Hall.
    destruct Hperm as [Hin | [Hin | Hin]]; apply list_elem_of_In, Hall in Hin;
      unfold has_permission in Hin; by rewrite Hanon in Hin.
Qed.

Lemma dispatch_reply_unauthenticated perms request (handler : M Reply.t) db :
  User.is_authenticated (Request.user request) = false →
  IsAuthenticated ∈ perms →
  dispatch_reply perms request handler db =
  (Ok (Reply (Content (Detail "Authentication credentials were not provided."))
         HTTP_401_UNAUTHORIZED), db).
Proof.
  intros Hanon Hperm. unfold dispatch_reply.
  rewrite check_permissions_denied.
  - unfold permission_denied. by rewrite Hanon.
  - apply not_true_is_false. intros Hall.
    rewrite forallb_forall in Hall.
    apply list_elem_of_In, Hall in Hperm.
    unfold has_permission in Hperm. by rewrite Hanon in Hperm.
Qed.

(** X26: there is no anonymous access: a request that is not authenticated
    is answered 401 by every operation, and the store is left as it was. *)
Theorem unauthenticated_401
    (calculate_gpa calculate_cgpa : Database → Student.t → Q)
    (run_fields : Database → gmap string value → result (gmap string field_value))
    (int_of_string : string → Z + string)
    (student_lookup :
       gmap string string → list Student.t → result (list Student.t))
    (course_lookup :
       gmap string string → list Course.t → result (list Course.t))
    (review_lookup :
       gmap string string → list CourseReview.t → result (list CourseReview.t))
    (student_filter student_page :
       gmap string string → list Student.t → list Student.t)
    (grade_filter grade_page : gmap string string → list Grade.t → list Grade.t)
    (review_filter review_page :
       gmap string string → list CourseReview.t → list CourseReview.t)
    (db : Database) (request : Request.t) (pk : Z) :
  User.is_authenticated (Request.user request) = false →
  let Unauthorized :=
    Response (Detail "Authentication credentials were not provided.")
      HTTP_401_UNAUTHORIZED in
  enrollSelf student_lookup int_of_string request pk db = (Ok Unauthorized, db)
  ∧ unenrollSelf student_lookup int_of_string request pk db
    = (Ok Unauthorized, db)
  ∧ getStudentGpa student_lookup calculate_gpa calculate_cgpa request pk db
    = (Ok Unauthorized, db)
  ∧ getStudentGrades student_lookup request pk db = (Ok Unauthorized, db)
  ∧ listStudents student_filter student_page request db = (Ok Unauthorized, db)
  ∧ listCourseStudents course_lookup request pk db = (Ok Unauthorized, db)
  ∧ getCourseReviews course_lookup request pk db = (Ok Unauthorized, db)
  ∧ listGrades grade_filter grade_page request db = (Ok Unauthorized, db)
  ∧ listCourseReviews review_filter review_page request db
    = (Ok Unauthorized, db)
  ∧ createReview run_fields request db = (Ok Unauthorized, db)
  ∧ updateReview review_lookup run_fields request pk db = (Ok Unauthorized, db)
  ∧ deleteReview review_lookup request pk db = (Ok (reply Unauthorized), db)
  ∧ getStudentDetail student_lookup calculate_gpa calculate_cgpa request pk db
    = (Ok (reply Unauthorized), db)
  ∧ getOwnStudentProfile calculate_gpa calculate_cgpa request db
    = (Ok (reply Unauthorized), db)
  ∧ getOwnProfile request db = (Ok (reply Unauthorized), db).
Proof.
  intros Hanon Unauthorized.
  repeat split;
    first [ apply dispatch_unauthenticated; [done|]
          | apply dispatch_reply_unauthenticated; [done|] ];
    try (left; apply list_elem_of_In; vm_compute; by auto);
    try (right; left; apply list_elem_of_In; vm_compute; by auto);
    try (right; right; apply list_elem_of_In; vm_compute; by auto);
    try (apply list_elem_of_In; vm_compute; by auto).
Qed.

Lemma unauthenticated_401_witness :
  createReview Sample.run_fields (Sample.POST Fixture.anonymous_user ∅)
    Sample.db
  = (Ok (Response (Detail "Authentication credentials were not provided.")
           HTTP_401_UNAUTHORIZED), Sample.db).
Proof.
  destruct (unauthenticated_401 Sample.calculate_gpa Sample.calculate_gpa
              Sample.run_fields Sample.int_of_string
              Sample.unfiltered Sample.unfiltered Sample.unfiltered
              Sample.all_rows Sample.all_rows
              Sample.all_rows Sample.all_rows Sample.all_rows Sample.all_rows
              Sample.db (Sample.POST Fixture.anonymous_user ∅) 1 eq_refl)
    as (_ & _ & _ & _ & _ & _ & _ & _ & _ & Hcreate & _).
  exact Hcreate.
Defined.

Lemma CourseViewSet_get_object_404 filter_queryset action request pk db :
  finds_none filter_queryset request (Course_objects db)
    (λ c, Course.id c = pk) →
  CourseViewSet.get_object filter_queryset action request pk db
  = Raise (Http404 "No Course matches the given query.").
Proof.
  intros (queryset & Hfilter & Hnone).
  unfold CourseViewSet.get_object, get_object_or_404.
  rewrite Hfilter. cbn [mbind result_bind].
  by rewrite get_DoesNotExist.
Qed.

(** X27: an id of the URL that no row of the looked-up queryset carries, be
    it that no row of the table has the id or that the query parameters of
    the request filter the row out, is answered with status 404 by the
    detail actions, and the store is left as it was: those on a student for
    the Student queryset, those on a course for the Course queryset. *)
Theorem unknown_id_404
    (student_lookup :
       gmap string string → list Student.t → result (list Student.t))
    (course_lookup :
       gmap string string → list Course.t → result (list Course.t))
    (calculate_gpa calculate_cgpa : Database → Student.t → Q)
    (db : Database) (request : Request.t) (pk : Z) :
  User.is_authenticated (Request.user request) = true →
  (finds_none student_lookup request (Student_objects db)
     (λ s, Student.id s = pk) →
     (∃ body,
        getStudentGpa student_lookup calculate_gpa calculate_cgpa request pk db
        = (Ok (Response body HTTP_404_NOT_FOUND), db))
     ∧ (∃ body,
          getStudentGrades student_lookup request pk db
          = (Ok (Response body HTTP_404_NOT_FOUND), db))
     ∧ (∃ body,
          getStudentDetail student_lookup calculate_gpa calculate_cgpa
            request pk db
          = (Ok (Reply body HTTP_404_NOT_FOUND), db)))
  ∧ (finds_none course_lookup request (Course_objects db)
       (λ c, Course.id c = pk) →
     (∃ body,
        listCourseStudents course_lookup request pk db
        = (Ok (Response body HTTP_404_NOT_FOUND), db))
     ∧ (∃ body,
          getCourseReviews course_lookup request pk db
          = (Ok (Response body HTTP_404_NOT_FOUND), db))).
Proof.
  intros Hauth. split.
  - intros Hnone.
    unfold getStudentGpa, getStudentGrades, getStudentDetail, dispatch,
      dispatch_reply.
    change (StudentViewSet.get_permissions "gpa") with [IsAuthenticated].
    change (StudentViewSet.get_permissions "grades") with [IsAuthenticated].
    change (StudentViewSet.get_permissions "retrieve") with [IsAuthenticated].
    rewrite has_permission_IsAuthenticated, Hauth.
    unfold StudentViewSet.gpa, StudentViewSet_grades, StudentViewSet_retrieve,
      query, mbind, M_bind.
    rewrite !StudentViewSet_get_object_404 by done.
    repeat split; eexists; reflexivity.
  - intros Hnone.
    unfold listCourseStudents, getCourseReviews, dispatch.
    change (CourseViewSet.get_permissions "students") with [IsAuthenticated].
    change (CourseViewSet.get_permissions "reviews") with [IsAuthenticated].
    rewrite has_permission_IsAuthenticated, Hauth.
    unfold CourseViewSet.students, CourseViewSet_reviews, query, mbind, M_bind.
    rewrite !CourseViewSet_get_object_404 by done.
    repeat split; eexists; reflexivity.
Qed.

(** No course has the id 30. *)
Lemma unknown_id_404_witness :
  ∃ body,
    listCourseStudents Sample.unfiltered (Sample.GET Sample.alice_user) 30
      Sample.db
    = (Ok (Response body HTTP_404_NOT_FOUND), Sample.db).
Proof.
  destruct (unknown_id_404 Sample.unfiltered Sample.unfiltered
              Sample.calculate_gpa Sample.calculate_gpa
              Sample.db (Sample.GET Sample.alice_user) 30 eq_refl)
    as [_ Hcourse].
  apply Hcourse. exists (Course_objects Sample.db). split; [reflexivity|].
  intros c Hin. apply list_elem_of_In in Hin.
  destruct Hin as [<- | [<- | []]]; discriminate.
Defined.

(** A search term that matches no student: the student with the id of the
    URL exists, the lookup does not find it, and [enroll] adds no edge. *)
Example enrollSelf_filtered_out :
  let request :=
    Fixture.POST_search Sample.alice_user "zzz" {[ "course_id" := Int 20 ]} in
  finds_none Fixture.search request (Student_objects Sample.db)
    (λ s, Student.id s = 1)
  ∧ enrollSelf Fixture.search Sample.int_of_string request 1 Sample.db
    = (Ok (Response (Detail "No Student matches the given query.")
             HTTP_404_NOT_FOUND), Sample.db).
Proof.
  split; [|by vm_compute].
  exists []. split; [by vm_compute|]. intros x Hx. by apply elem_of_nil in Hx.
Qed.

(** A search term that matches the student of the URL: the lookup finds
    it. *)
Example enrollSelf_search_match :
  let request :=
    Fixture.POST_search Sample.alice_user "lic" {[ "course_id" := Int 20 ]} in
  finds Fixture.search request (Student_objects Sample.db)
    (λ s, Student.id s = 1) Sample.alice
  ∧ (enrollSelf Fixture.search Sample.int_of_string request 1 Sample.db).1
    = Ok (Response (Detail "Successfully enrolled in CS102") HTTP_200_OK).
Proof.
  split; [|by vm_compute].
  exists [Sample.alice]. split; [by vm_compute|]. split; [|by vm_compute].
  intros x Hx. apply list_elem_of_In in Hx. destruct Hx as [<- | []].
  apply list_elem_of_In. left. reflexivity.
Qed.

(** ** The de-duplication of the students of a course *)

Lemma dict_set_fresh {V} (k : Z) (v : V) (d : list (Z * V)) :
  k ∉ d.*1 → dict_set k v d = (d ++ [(k, v)])%list.
Proof.
  induction d as [|[k' v'] d IH]; [done|]. intros Hout. cbn [dict_set].
  rewrite bool_decide_false by set_solver.
  rewrite IH by set_solver. done.
Qed.

Lemma dict_fold_fresh {V} (key : V → Z) (l : list V) (d : list (Z * V)) :
  NoDup (d.*1 ++ (key <$> l)) →
  fold_left (λ d x, dict_set (key x) x d) l d
  = (d ++ ((λ x, (key x, x)) <$> l))%list.
Proof.
  revert d. induction l as [|x l IH]; intros d Hnodup.
  - by rewrite app_nil_r.
  - cbn [fold_left]. rewrite fmap_cons in Hnodup.
    apply NoDup_app in Hnodup as (Hd & Hdisj & Hl).
    apply NoDup_cons in Hl as [Hx Hl].
    rewrite dict_set_fresh by (intros Hin; apply (Hdisj _ Hin); set_solver).
    rewrite IH.
    + by rewrite fmap_cons, <- app_assoc.
    + rewrite fmap_app. cbn. rewrite <- app_assoc. cbn.
      apply NoDup_app. split; [done|]. split; [|by apply NoDup_cons].
      intros k Hin. by apply Hdisj.
Qed.

(** X28: the dict comprehension that de-duplicates the students does
    nothing to a list whose ids are distinct (the students and their order
    are kept), and applying it twice is applying it once. *)
Theorem dict_comprehension_distinct {V} (key : V → Z) (l : list V) :
  (NoDup (key <$> l) → values (dict_comprehension key l) = l)
  ∧ values (dict_comprehension key (values (dict_comprehension key l)))
    = values (dict_comprehension key l).
Proof.
  assert (Hdistinct : ∀ k : list V,
    NoDup (key <$> k) → values (dict_comprehension key k) = k).
  { intros k Hnodup. unfold values, dict_comprehension.
    rewrite dict_fold_fresh by done. cbn.
    rewrite <- list_fmap_compose. apply list_fmap_id. }
  split; [apply Hdistinct|].
  apply Hdistinct. apply dict_comprehension_spec.
Qed.

